(** * AURA fee-recommendation ensemble: a shallow embedding

    The development embeds the numeric core of [ai/production_models.py]
    (class [ProductionFeePredictor]) and the sibling variant of
    [ai/ml_models.py] (class [AdvancedFeePredictor]).

    Conventions.
    - Python numbers ([int] and [float]) are exact rationals [Q]; the
      comparisons of the source become the boolean tests [Qltb]/[Qleb].
      Rounding to binary64 is not modelled, nor is the [OverflowError]
      of converting an integer beyond the float range: a statement that
      would depend on either is given for values read up to rounding,
      or carries the hypothesis [Snapshot.float_sized].
    - Values read out of a snapshot are dynamically typed and are kept as
      [pyval]; arithmetic on a value that is not a number raises.
    - Code that can raise lives in the error monad [exc]; [try_except]
      is the [try: ... except Exception:] of the source.
    - The global numpy generator is explicit state threaded through the
      state monad [rand]; the wall clock is an explicit [datetime]. *)

From Stdlib Require Import ZArith QArith Qround Qabs List String Ascii Bool Lia Lqa.
From Stdlib Require Import DecimalString.
Import ListNotations.

Set Warnings "-register-all".

Local Open Scope string_scope.
Local Open Scope Q_scope.

(* ================================================================== *)
(** ** Numbers *)

Definition Qleb (x y : Q) : bool := Qle_bool x y.
Definition Qltb (x y : Q) : bool := negb (Qle_bool y x).
Definition Qeqb (x y : Q) : bool := Qeq_bool x y.

(** Python's binary [max(a, b)] keeps [a] unless [b > a]; [min(a, b)]
    keeps [a] unless [b < a]. *)
Definition py_max (a b : Q) : Q := if Qltb a b then b else a.
Definition py_min (a b : Q) : Q := if Qltb b a then b else a.

(** [sum(xs)] and [np.mean(xs)]. *)
Definition py_sum (xs : list Q) : Q := fold_left Qplus xs 0.
Definition np_mean (xs : list Q) : Q := py_sum xs / inject_Z (Z.of_nat (List.length xs)).

(** Rounding to the nearest integer, ties to even. *)
Definition round_half_even (q : Q) : Z :=
  let f := Qfloor q in
  let r := q - inject_Z f in
  if Qltb r 0.5 then f
  else if Qltb 0.5 r then (f + 1)%Z
  else if Z.even f then f else (f + 1)%Z.

(** [round(x, ndigits)]. *)
Definition py_round (x : Q) (ndigits : nat) : Q :=
  let p := (10 ^ Z.of_nat ndigits)%Z in
  inject_Z (round_half_even (x * inject_Z p)) / inject_Z p.

(** Decimal digits of a natural number, left-padded with zeros. *)
Fixpoint zeros (n : nat) : string :=
  match n with
  | O => ""
  | S k => "0" ++ zeros k
  end.

Definition pad_left (width : nat) (s : string) : string :=
  zeros (width - String.length s) ++ s.

Definition digits_of_Z (z : Z) : string := NilZero.string_of_int (Z.to_int z).

(** The format specification [f"{x:.nf}"]. *)
Definition format_f (ndigits : nat) (x : Q) : string :=
  let p := (10 ^ Z.of_nat ndigits)%Z in
  let m := Z.abs (round_half_even (x * inject_Z p)) in
  let sign := if Qltb x 0 then "-" else "" in
  let int_part := digits_of_Z (m / p) in
  match ndigits with
  | O => sign ++ int_part
  | _ => sign ++ int_part ++ "." ++ pad_left ndigits (digits_of_Z (m mod p))
  end.

(** [l.append(x)]. *)
Definition py_append {A : Type} (l : list A) (x : A) : list A := (l ++ [x])%list.

(** [sep.join(parts)]. *)
Fixpoint join (sep : string) (parts : list string) : string :=
  match parts with
  | [] => ""
  | [p] => p
  | p :: rest => p ++ sep ++ join sep rest
  end.

(* ================================================================== *)
(** ** Python values, dictionaries and exceptions *)

Inductive pyval : Type :=
| PNone
| PNum (q : Q)
| PStr (s : string)
| PDict (d : list (string * pyval)).

Definition pydict : Type := list (string * pyval).

Inductive pyexc : Type :=
| TypeError
| AttributeError
| KeyError
| ZeroDivisionError
| ExternalError (msg : string).

Inductive exc (A : Type) : Type :=
| Ok (a : A)
| Raise (e : pyexc).
Arguments Ok {A} a.
Arguments Raise {A} e.

Definition bind {A B : Type} (c : exc A) (k : A -> exc B) : exc B :=
  match c with
  | Ok a => k a
  | Raise e => Raise e
  end.

Notation "x <- c ;; k" := (bind c (fun x => k))
  (at level 61, c at next level, right associativity).

(** [try: body  except Exception: handler]. *)
Definition try_except {A : Type} (body : exc A) (handler : pyexc -> A) : A :=
  match body with
  | Ok a => a
  | Raise e => handler e
  end.

(** Dictionaries keep insertion order, as Python's do. *)
Section Dict.
Context {V : Type}.

Fixpoint dict_lookup (d : list (string * V)) (k : string) : option V :=
  match d with
  | [] => None
  | (k', v) :: rest => if String.eqb k k' then Some v else dict_lookup rest k
  end.

(** [k in d]. *)
Definition dict_mem (d : list (string * V)) (k : string) : bool :=
  match dict_lookup d k with Some _ => true | None => false end.

(** [d[k] = v]: overwrite in place, or append a new key. *)
Fixpoint dict_set (d : list (string * V)) (k : string) (v : V) : list (string * V) :=
  match d with
  | [] => [(k, v)]
  | (k', v') :: rest =>
      if String.eqb k k' then (k', v) :: rest else (k', v') :: dict_set rest k v
  end.

(** [d[k]]. *)
Definition dict_index (d : list (string * V)) (k : string) : exc V :=
  match dict_lookup d k with
  | Some v => Ok v
  | None => Raise KeyError
  end.

Definition dict_keys (d : list (string * V)) : list string := map fst d.
Definition dict_values (d : list (string * V)) : list V := map snd d.
End Dict.

(** Truth value of an object, as tested by [if x] and [not x]. *)
Definition truthy (v : pyval) : bool :=
  match v with
  | PNone => false
  | PNum q => negb (Qeqb q 0)
  | PStr s => negb (String.eqb s "")
  | PDict d => match d with [] => false | _ => true end
  end.

(** [obj.get(key, default)]: only dictionaries have the method. *)
Definition py_get (obj : pyval) (key : string) (default : pyval) : exc pyval :=
  match obj with
  | PDict d => Ok (match dict_lookup d key with Some v => v | None => default end)
  | _ => Raise AttributeError
  end.

(** Arithmetic and order comparison with a number are defined on numbers
    only; [None], strings and dictionaries raise [TypeError]. *)
Definition as_num (v : pyval) : exc Q :=
  match v with
  | PNum q => Ok q
  | _ => Raise TypeError
  end.

(** Division [a / b] of Python numbers: a zero divisor raises.  (A numpy
    scalar divided by zero gives [inf] instead; the properties that
    divide a prediction assume a non-zero divisor.) *)
Definition py_div (a b : Q) : exc Q :=
  if Qeqb b 0 then Raise ZeroDivisionError else Ok (a / b).

(* ================================================================== *)
(** ** Configuration and clock *)

(** [Config.BASE_FEE_RATE = float(os.getenv("BASE_FEE_RATE", "0.3"))]. *)
Record Config : Type := { BASE_FEE_RATE : Q }.

Definition default_config : Config := {| BASE_FEE_RATE := 0.3 |}.

(** A reading of [datetime.now()]: the whole hours elapsed since a
    reference Monday 00:00, and the text [isoformat()] prints for it. *)
Record datetime : Type := {
  hour_index : Z;
  isoformat : string
}.

Definition hour_of (h : Z) : Z := (h mod 24)%Z.
Definition weekday_of (h : Z) : Z := ((h / 24) mod 7)%Z.

(** [x in [a, b, ...]] on integers. *)
Definition Z_in (x : Z) (l : list Z) : bool := existsb (Z.eqb x) l.

(* ================================================================== *)
(** ** Feature vector *)

Record FeatureVector : Type := {
  volatility : Q;
  volume_24h : Q;
  price_change_1h : Q;
  price_change_24h : Q;
  market_cap : Q;
  gas_price_gwei : Q;
  liquidity_score : Q;
  hour_of_day : Z;
  day_of_week : Z;
  volume_ma_7d : Q;
  volatility_ma_7d : Q;
  price_momentum : Q;
  volume_ratio : Q;
  gas_trend : Q
}.

(** [self.feature_columns] as set by [__init__]. *)
Definition feature_columns : list string :=
  ["volatility"; "volume_24h"; "price_change_1h"; "price_change_24h";
   "market_cap"; "gas_price_gwei"; "liquidity_score";
   "hour_of_day"; "day_of_week"; "volume_ma_7d"; "volatility_ma_7d";
   "price_momentum"; "volume_ratio"; "gas_trend"].

(** Columns 0 and 1 of a stored row, [row[0]] and [row[1]]. *)
Definition column_volatility (row : FeatureVector) : Q := volatility row.
Definition column_volume_24h (row : FeatureVector) : Q := volume_24h row.

Definition valid_features (fv : FeatureVector) : Prop :=
  (0 <= hour_of_day fv <= 23)%Z /\ (0 <= day_of_week fv <= 6)%Z.

Record TrainingSample : Type := {
  features : FeatureVector;
  optimal_fee : Q
}.

(* ================================================================== *)
(** ** [ProductionFeePredictor]: labelling oracle, scorer, classifier *)

Module Production.

(** [_calculate_sophisticated_optimal_fee], with the draw
    [noise = np.random.normal(0, 0.015)] made an argument. *)
Definition optimal_fee_with_noise (cfg : Config) (row : FeatureVector) (noise : Q) : Q :=
  let base_fee := BASE_FEE_RATE cfg in
  let volatility := volatility row in
  let volume_ratio := volume_ratio row in
  let gas_trend := gas_trend row in
  let hour := hour_of_day row in
  let day := day_of_week row in
  let liquidity_score := liquidity_score row in
  let price_momentum := Qabs (price_momentum row) in
  let price_change_24h := Qabs (price_change_24h row) in
  (* 1. volatility *)
  let vol_factor :=
    if Qltb 15 volatility then 1.5 + (volatility - 15) * 0.08
    else if Qltb 8 volatility then 1.2 + (volatility - 8) * 0.04
    else if Qltb volatility 2 then 0.7 + volatility * 0.1
    else 0.9 + (volatility - 2) * 0.05 in
  (* 2. volume / liquidity *)
  let volume_factor :=
    if Qltb 1.5 volume_ratio then 0.85
    else if Qltb 1.2 volume_ratio then 0.95 - (volume_ratio - 1.2) * 0.33
    else if Qltb volume_ratio 0.6 then 1.25
    else if Qltb volume_ratio 0.8 then 1.1 + (0.8 - volume_ratio) * 0.75
    else 1.0 in
  (* 3. network congestion *)
  let gas_factor :=
    if Qltb 0.5 gas_trend then 1.3 + gas_trend * 0.4
    else if Qltb 0.2 gas_trend then 1.1 + gas_trend * 0.5
    else if Qltb gas_trend (-0.2) then 0.9 + gas_trend * 0.2
    else 1.0 + gas_trend * 0.3 in
  (* 4. time of day, weekend *)
  let time_factor :=
    if Z_in hour [14; 15; 16]%Z then 1.15
    else if Z_in hour [21; 22]%Z then 1.08
    else if Z_in hour [2; 3; 4; 5]%Z then 0.85
    else 1.0 in
  let time_factor := if Z_in day [5; 6]%Z then time_factor * 0.92 else time_factor in
  (* 5. momentum *)
  let momentum_factor := 1 + py_min (price_momentum / 10) 0.3 in
  (* 6. liquidity depth *)
  let liquidity_factor :=
    if Qltb 8 liquidity_score then 0.9
    else if Qltb 4 liquidity_score then 0.95
    else if Qltb liquidity_score 1 then 1.2
    else if Qltb liquidity_score 2 then 1.1
    else 1.0 in
  (* 7. price stability *)
  let stability_factor :=
    if Qltb 10 price_change_24h then 1.1 + (price_change_24h - 10) * 0.02
    else if Qltb price_change_24h 1 then 0.95
    else 1.0 in
  let optimal_fee :=
    base_fee * (vol_factor * 0.35 + volume_factor * 0.25 + gas_factor * 0.20
                + time_factor * 0.10 + momentum_factor * 0.05
                + liquidity_factor * 0.03 + stability_factor * 0.02) in
  let optimal_fee := optimal_fee + noise in
  py_max 0.05 (py_min optimal_fee 2.5).

(** The static prior of [_calculate_model_confidence]. *)
Definition base_confidence (model_name : string) : Q :=
  if String.eqb model_name "random_forest" then 0.87
  else if String.eqb model_name "gradient_boosting" then 0.84
  else if String.eqb model_name "neural_network" then 0.81
  else 0.75.

(** The accumulated [confidence_adjustments]. *)
Definition confidence_adjustments (features : FeatureVector) : Q :=
  let volatility := volatility features in
  let volume_ratio := volume_ratio features in
  let gas_trend := gas_trend features in
  let adj := 0 in
  let adj :=
    if Qltb 20 volatility then adj - 0.15
    else if Qltb 12 volatility then adj - 0.08
    else if Qltb volatility 2 then adj + 0.05
    else adj in
  let adj :=
    if Qltb 2.0 volume_ratio || Qltb volume_ratio 0.4 then adj - 0.08 else adj in
  let adj :=
    if Qltb 0.7 (Qabs gas_trend) then adj - 0.06 else adj in
  adj.

(** [_calculate_model_confidence]. *)
Definition _calculate_model_confidence (model_name : string) (features : FeatureVector) : Q :=
  let final_confidence := base_confidence model_name + confidence_adjustments features in
  py_max 0.4 (py_min final_confidence 0.95).

(** [_classify_market_condition]. *)
Definition _classify_market_condition (features : FeatureVector) : string :=
  let volatility := volatility features in
  let volume_ratio := volume_ratio features in
  let gas_trend := gas_trend features in
  let price_change_24h := Qabs (price_change_24h features) in
  if Qltb 20 volatility && Qltb 15 price_change_24h then "extreme_volatility"
  else if Qltb 12 volatility && Qltb 0.4 gas_trend then "high_volatility_congested"
  else if Qltb 8 volatility then "high_volatility"
  else if Qltb volatility 2 && Qltb 1.2 volume_ratio then "stable_liquid"
  else if Qltb volatility 3 then "stable"
  else if Qltb 0.6 gas_trend then "network_congested"
  else "moderate".

(** The decision table the specification describes: guards over
    [(volatility, volume_ratio, gas_trend, |price_change_24h|)], read
    top-down; [first_match] returns the label of the first guard that
    holds and the default otherwise. *)
Definition rule : Type := (Q -> Q -> Q -> Q -> bool) * string.

Definition decision_table : list rule :=
  [ (fun v _ _ p => Qltb 20 v && Qltb 15 p, "extreme_volatility");
    (fun v _ g _ => Qltb 12 v && Qltb 0.4 g, "high_volatility_congested");
    (fun v _ _ _ => Qltb 8 v, "high_volatility");
    (fun v r _ _ => Qltb v 2 && Qltb 1.2 r, "stable_liquid");
    (fun v _ _ _ => Qltb v 3, "stable");
    (fun _ _ g _ => Qltb 0.6 g, "network_congested") ].

Fixpoint first_match (table : list rule) (default : string) (v r g p : Q) : string :=
  match table with
  | [] => default
  | (guard, label) :: rest =>
      if guard v r g p then label else first_match rest default v r g p
  end.

Definition market_conditions : list string :=
  ["extreme_volatility"; "high_volatility_congested"; "high_volatility";
   "stable_liquid"; "stable"; "network_congested"; "moderate"].

(** [_fallback_prediction]. *)
Definition _fallback_prediction (cfg : Config) (now : datetime) : pydict :=
  [ ("recommended_fee", PNum (BASE_FEE_RATE cfg));
    ("confidence", PNum 0.4);
    ("reasoning", PStr "Using fallback base fee due to insufficient data or model errors");
    ("market_condition", PStr "unknown");
    ("primary_model", PStr "fallback");
    ("prediction_timestamp", PStr (isoformat now)) ].

(** The body of [_extract_features_from_market_data] inside its [try].
    Numbers are exact: an integer beyond the float range, on which the
    arithmetic of the source raises [OverflowError], is outside the
    model (see [Snapshot.float_sized]). *)
Definition extract_features_body (now : datetime) (market_data : pyval)
  : exc (option FeatureVector) :=
  coingecko <- py_get market_data "coingecko" (PDict []) ;;
  network <- py_get market_data "network" (PDict []) ;;
  if negb (truthy coingecko) then Ok None
  else
    let hour_of_day := hour_of (hour_index now) in
    let day_of_week := weekday_of (hour_index now) in
    volatility <- py_get coingecko "volatility" (PNum 0) ;;
    volume_24h <- py_get coingecko "volume_24h" (PNum 0) ;;
    price_change_24h <- py_get coingecko "price_change_24h" (PNum 0) ;;
    market_cap <- py_get coingecko "market_cap" (PNum 0) ;;
    gas_price_gwei <-
      (if truthy network then py_get network "gas_price_gwei" (PNum 28)
       else Ok (PNum 28)) ;;
    (* liquidity_score = (volume_24h / max(market_cap, 1)) * 100 if market_cap > 0 else 0 *)
    market_cap <- as_num market_cap ;;
    liquidity_score <-
      (if Qltb 0 market_cap then
         v <- as_num volume_24h ;; Ok (v / py_max market_cap 1 * 100)
       else Ok 0) ;;
    price_change_24h <- as_num price_change_24h ;;
    let price_change_1h := price_change_24h * 0.08 in
    volume_24h <- as_num volume_24h ;;
    let volume_ma_7d := volume_24h * 0.92 in
    volatility <- as_num volatility ;;
    let volatility_ma_7d := volatility * 1.08 in
    let price_momentum := price_change_24h * 1.15 in
    let volume_ratio :=
      if Qltb 0 volume_ma_7d then volume_24h / volume_ma_7d else 1.0 in
    gas_price_gwei <- as_num gas_price_gwei ;;
    let gas_trend := (gas_price_gwei - 28) / 372 in
    Ok (Some {| volatility := volatility;
                volume_24h := volume_24h;
                price_change_1h := price_change_1h;
                price_change_24h := price_change_24h;
                market_cap := market_cap;
                gas_price_gwei := gas_price_gwei;
                liquidity_score := liquidity_score;
                hour_of_day := hour_of_day;
                day_of_week := day_of_week;
                volume_ma_7d := volume_ma_7d;
                volatility_ma_7d := volatility_ma_7d;
                price_momentum := price_momentum;
                volume_ratio := volume_ratio;
                gas_trend := gas_trend |}).

(** [_extract_features_from_market_data]: any exception yields [None]. *)
Definition _extract_features_from_market_data (now : datetime) (market_data : pyval)
  : option FeatureVector :=
  try_except (extract_features_body now market_data) (fun _ => None).

(** Lines 643-666 of [predict_optimal_fee]: primary-model policy, the
    confidence-weighted ensemble value, and the clamp. *)
Record Blend : Type := {
  primary_prediction : Q;
  primary_confidence : Q;
  ensemble_prediction : Q;
  final_prediction : Q
}.

Definition name_truthy (name : option string) : bool :=
  match name with
  | Some s => negb (String.eqb s "")
  | None => false
  end.

Fixpoint weighted_terms (predictions confidences : list (string * Q)) : exc (list Q) :=
  match predictions with
  | [] => Ok []
  | (model_name, pred) :: rest =>
      c <- dict_index confidences model_name ;;
      ts <- weighted_terms rest confidences ;;
      Ok (pred * c :: ts)
  end.

Definition blend (best_model_name : option string)
    (predictions confidences : list (string * Q)) : exc Blend :=
  primary <-
    (match best_model_name with
     | Some b =>
         if name_truthy best_model_name && dict_mem predictions b then
           p <- dict_index predictions b ;;
           c <- dict_index confidences b ;;
           Ok (p, c)
         else Ok (np_mean (dict_values predictions), np_mean (dict_values confidences))
     | None => Ok (np_mean (dict_values predictions), np_mean (dict_values confidences))
     end) ;;
  let total_weight := py_sum (dict_values confidences) in
  ensemble <-
    (if Qltb 0 total_weight then
       ts <- weighted_terms predictions confidences ;;
       Ok (py_sum ts / total_weight)
     else Ok (fst primary)) ;;
  let final := fst primary in
  let final := py_max 0.05 (py_min final 2.5) in
  Ok {| primary_prediction := fst primary;
        primary_confidence := snd primary;
        ensemble_prediction := ensemble;
        final_prediction := final |}.

(** The confidence-weighted mean, as the specification words it. *)
Definition confidence_weighted_mean (predictions confidences : list (string * Q)) : Q :=
  py_sum (map (fun kv => snd kv *
                 match dict_lookup confidences (fst kv) with Some c => c | None => 0 end)
              predictions)
  / py_sum (dict_values confidences).

End Production.

(* ================================================================== *)
(** ** Reasoning generator and the prediction entry point *)

Module Reasoning.
Section WithSqrt.
(** The floating-point square root behind [np.std]. *)
Variable np_sqrt : Q -> Q.

(** [np.std(xs)]: population standard deviation. *)
Definition np_std (xs : list Q) : Q :=
  let m := np_mean xs in
  np_sqrt (np_mean (map (fun x => (x - m) * (x - m)) xs)).

(** [_generate_production_reasoning]: [reasons] is the list the source
    appends to, statement after statement. *)
Definition _generate_production_reasoning (cfg : Config) (features : FeatureVector)
    (predictions : list (string * Q)) (final_prediction : Q) : exc string :=
  let volatility := volatility features in
  let volume_ratio := volume_ratio features in
  let gas_price_gwei := gas_price_gwei features in
  let hour_of_day := hour_of_day features in
  let reasons : list string := [] in
  (* model consensus *)
  let reasons :=
    match predictions with
    | [] => reasons
    | _ =>
        let pred_std := np_std (dict_values predictions) in
        if Qltb pred_std 0.05 then
          py_append reasons ("Strong model consensus (σ=" ++ format_f 3 pred_std ++ ")")
        else if Qltb 0.15 pred_std then
          py_append reasons ("Model disagreement detected (σ=" ++ format_f 3 pred_std ++ ")")
        else reasons
    end in
  (* market condition *)
  let reasons :=
    if Qltb 15 volatility then
      py_append reasons ("Extreme volatility (" ++ format_f 1 volatility
                   ++ "%) increases trading risk")
    else if Qltb 8 volatility then
      py_append reasons ("High volatility (" ++ format_f 1 volatility ++ "%) detected")
    else if Qltb volatility 2 then
      py_append reasons ("Very stable market conditions (" ++ format_f 1 volatility
                   ++ "% volatility)")
    else reasons in
  (* liquidity *)
  let reasons :=
    if Qltb 1.5 volume_ratio then
      py_append reasons ("Above-average trading volume supports lower fees")
    else if Qltb volume_ratio 0.7 then
      py_append reasons ("Below-average volume may increase price impact")
    else reasons in
  (* network *)
  let reasons :=
    if Qltb 80 gas_price_gwei then
      py_append reasons ("High network congestion (" ++ format_f 0 gas_price_gwei ++ " GWEI)")
    else if Qltb gas_price_gwei 20 then
      py_append reasons ("Low network congestion favors efficient execution")
    else reasons in
  (* time of day *)
  let reasons :=
    if Z_in hour_of_day [14; 15; 16]%Z then
      py_append reasons ("Peak trading hours may increase volatility")
    else if Z_in hour_of_day [2; 3; 4; 5]%Z then
      py_append reasons ("Low-activity period with reduced liquidity")
    else reasons in
  (* fee level *)
  let base_fee := BASE_FEE_RATE cfg in
  fee_ratio <- py_div final_prediction base_fee ;;
  let reasons :=
    if Qltb 1.5 fee_ratio then
      py_append reasons ("Fee " ++ format_f 0 ((fee_ratio - 1) * 100)
                   ++ "% above base rate due to market conditions")
    else if Qltb fee_ratio 0.8 then
      py_append reasons ("Fee " ++ format_f 0 ((1 - fee_ratio) * 100)
                   ++ "% below base rate due to favorable conditions")
    else reasons in
  Ok (join ". " reasons ++ ".").

(** The six justifications as the specification lists them, each
    present only when its threshold condition holds. *)
Inductive reason_kind : Type :=
| ModelAgreement | VolatilityNote | VolumeLiquidity
| NetworkCongestion | TimeOfDay | FeeDeviation.

Definition reason_order : list reason_kind :=
  [ModelAgreement; VolatilityNote; VolumeLiquidity;
   NetworkCongestion; TimeOfDay; FeeDeviation].

Definition reason_for (cfg : Config) (features : FeatureVector)
    (predictions : list (string * Q)) (final_prediction : Q)
    (k : reason_kind) : option string :=
  match k with
  | ModelAgreement =>
      let pred_std := np_std (dict_values predictions) in
      if match predictions with [] => true | _ => false end then None
      else if Qltb pred_std 0.05 then
        Some ("Strong model consensus (σ=" ++ format_f 3 pred_std ++ ")")
      else if Qltb 0.15 pred_std then
        Some ("Model disagreement detected (σ=" ++ format_f 3 pred_std ++ ")")
      else None
  | VolatilityNote =>
      let v := volatility features in
      if Qltb 15 v then
        Some ("Extreme volatility (" ++ format_f 1 v ++ "%) increases trading risk")
      else if Qltb 8 v then Some ("High volatility (" ++ format_f 1 v ++ "%) detected")
      else if Qltb v 2 then
        Some ("Very stable market conditions (" ++ format_f 1 v ++ "% volatility)")
      else None
  | VolumeLiquidity =>
      let r := volume_ratio features in
      if Qltb 1.5 r then Some "Above-average trading volume supports lower fees"
      else if Qltb r 0.7 then Some "Below-average volume may increase price impact"
      else None
  | NetworkCongestion =>
      let g := gas_price_gwei features in
      if Qltb 80 g then Some ("High network congestion (" ++ format_f 0 g ++ " GWEI)")
      else if Qltb g 20 then Some "Low network congestion favors efficient execution"
      else None
  | TimeOfDay =>
      let h := hour_of_day features in
      if Z_in h [14; 15; 16]%Z then Some "Peak trading hours may increase volatility"
      else if Z_in h [2; 3; 4; 5]%Z then Some "Low-activity period with reduced liquidity"
      else None
  | FeeDeviation =>
      let fee_ratio := final_prediction / BASE_FEE_RATE cfg in
      if Qltb 1.5 fee_ratio then
        Some ("Fee " ++ format_f 0 ((fee_ratio - 1) * 100)
              ++ "% above base rate due to market conditions")
      else if Qltb fee_ratio 0.8 then
        Some ("Fee " ++ format_f 0 ((1 - fee_ratio) * 100)
              ++ "% below base rate due to favorable conditions")
      else None
  end.

Fixpoint present {A : Type} (l : list (option A)) : list A :=
  match l with
  | [] => []
  | Some a :: rest => a :: present rest
  | None :: rest => present rest
  end.

Definition ordered_reasons (cfg : Config) (features : FeatureVector)
    (predictions : list (string * Q)) (final_prediction : Q) : list string :=
  present (map (reason_for cfg features predictions final_prediction) reason_order).

(** The threshold condition of each justification. *)
Definition reason_condition (cfg : Config) (features : FeatureVector)
    (predictions : list (string * Q)) (final_prediction : Q)
    (k : reason_kind) : bool :=
  match k with
  | ModelAgreement =>
      match predictions with
      | [] => false
      | _ => let s := np_std (dict_values predictions) in Qltb s 0.05 || Qltb 0.15 s
      end
  | VolatilityNote =>
      Qltb 8 (volatility features) || Qltb (volatility features) 2
  | VolumeLiquidity =>
      Qltb 1.5 (volume_ratio features) || Qltb (volume_ratio features) 0.7
  | NetworkCongestion =>
      Qltb 80 (gas_price_gwei features) || Qltb (gas_price_gwei features) 20
  | TimeOfDay => Z_in (hour_of_day features) [14; 15; 16; 2; 3; 4; 5]%Z
  | FeeDeviation =>
      let fee_ratio := final_prediction / BASE_FEE_RATE cfg in
      Qltb 1.5 fee_ratio || Qltb fee_ratio 0.8
  end.
End WithSqrt.
End Reasoning.

(* ================================================================== *)
(** ** The predictor object and [predict_optimal_fee] *)

Module Predictor.

(** An ensemble member with its scaler: [scaler.transform] followed by
    [model.predict], either of which may raise. *)
Definition member : Type := FeatureVector -> exc Q.

(** The mutable state of a [ProductionFeePredictor]. *)
Record state : Type := {
  models : list (string * option member);
  columns : list string;
  is_trained : bool;
  best_model_name : option string
}.

Definition name_value (name : option string) : pyval :=
  match name with
  | Some s => PStr s
  | None => PNone
  end.

(** The loop over [self.models.items()]: a missing member is skipped, a
    member that raises is logged and skipped. *)
Fixpoint collect_predictions (ms : list (string * option member))
    (features : FeatureVector) (predictions confidences : list (string * Q))
  : list (string * Q) * list (string * Q) :=
  match ms with
  | [] => (predictions, confidences)
  | (model_name, None) :: rest =>
      collect_predictions rest features predictions confidences
  | (model_name, Some model) :: rest =>
      let '(predictions, confidences) :=
        try_except
          (pred <- model features ;;
           Ok (dict_set predictions model_name pred,
               dict_set confidences model_name
                 (Production._calculate_model_confidence model_name features)))
          (fun _ => (predictions, confidences)) in
      collect_predictions rest features predictions confidences
  end.

Definition rounded (ndigits : nat) (d : list (string * Q)) : pydict :=
  map (fun kv => (fst kv, PNum (py_round (snd kv) ndigits))) d.

Section Predict.
Variable cfg : Config.
Variable np_sqrt : Q -> Q.
(** [await get_live_market_data()] of [data_pipeline]. *)
Variable get_live_market_data : exc pyval.
(** [self.train_models()]: fits the members and updates the object. *)
Variable train_models : state -> exc state.

Definition predict_body (self : state) (now : datetime) (market_data : pyval)
  : exc pydict :=
  market_data <-
    (match market_data with
     | PNone => get_live_market_data
     | _ => Ok market_data
     end) ;;
  match Production._extract_features_from_market_data now market_data with
  | None => Ok (Production._fallback_prediction cfg now)
  | Some features =>
      self <- (if is_trained self then Ok self else train_models self) ;;
      let '(predictions, confidences) :=
        collect_predictions (models self) features [] [] in
      match predictions with
      | [] => Ok (Production._fallback_prediction cfg now)
      | _ =>
          b <- Production.blend (best_model_name self) predictions confidences ;;
          reasoning <-
            Reasoning._generate_production_reasoning np_sqrt cfg features predictions
              (Production.final_prediction b) ;;
          let market_condition := Production._classify_market_condition features in
          Ok [ ("recommended_fee", PNum (py_round (Production.final_prediction b) 4));
               ("confidence", PNum (py_round (Production.primary_confidence b) 3));
               ("reasoning", PStr reasoning);
               ("market_condition", PStr market_condition);
               ("primary_model", name_value (best_model_name self));
               ("ensemble_prediction",
                PNum (py_round (Production.ensemble_prediction b) 4));
               ("all_predictions", PDict (rounded 4 predictions));
               ("model_confidences", PDict (rounded 3 confidences));
               ("features_used", PNum (inject_Z (Z.of_nat (List.length (columns self)))));
               ("prediction_timestamp", PStr (isoformat now)) ]
      end
  end.

(** [predict_optimal_fee]: the whole body sits in [try ... except
    Exception], whose handler returns the fallback record. *)
Definition predict_optimal_fee (self : state) (now : datetime) (market_data : pyval)
  : pydict :=
  try_except (predict_body self now market_data)
             (fun _ => Production._fallback_prediction cfg now).
End Predict.

(** The ten fields of a full prediction record. *)
Definition full_fields : list string :=
  ["recommended_fee"; "confidence"; "reasoning"; "market_condition";
   "primary_model"; "ensemble_prediction"; "all_predictions";
   "model_confidences"; "features_used"; "prediction_timestamp"].

(** The six fields every returned record carries. *)
Definition common_fields : list string :=
  ["recommended_fee"; "confidence"; "reasoning"; "market_condition";
   "primary_model"; "prediction_timestamp"].

Definition has_fields (fields : list string) (r : pydict) : bool :=
  forallb (dict_mem r) fields.

End Predictor.

(* ================================================================== *)
(** ** The global numpy random generator *)

(** The calls of [np.random] the generators make.  Each sampler reads
    the generator state and returns the draw with the advanced state;
    [rng_seed] is [np.random.seed], which discards the previous state. *)
Class NumpyRandom : Type := {
  rng_state : Type;
  rng_seed : Z -> rng_state;
  rng_exponential : Q -> rng_state -> Q * rng_state;
  rng_lognormal : Q -> Q -> rng_state -> Q * rng_state;
  rng_normal : Q -> Q -> rng_state -> Q * rng_state;
  rng_uniform : Q -> Q -> rng_state -> Q * rng_state;
  rng_randint : Z -> Z -> rng_state -> Z * rng_state
}.

Section Rand.
Context {R : NumpyRandom}.

Definition rand (A : Type) : Type := rng_state -> A * rng_state.

Definition rret {A : Type} (a : A) : rand A := fun s => (a, s).

Definition rbind {A B : Type} (c : rand A) (k : A -> rand B) : rand B :=
  fun s => let (a, s') := c s in k a s'.

(** [np.random.seed(n)] *)
Definition seed (n : Z) : rand unit := fun _ => (tt, rng_seed n).
End Rand.

Notation "x <~ c ;; k" := (rbind c (fun x => k))
  (at level 61, c at next level, right associativity).

(** A rational square root to six decimals, for running examples. *)
Definition approx_sqrt (q : Q) : Q :=
  inject_Z (Z.sqrt (Qfloor (q * 1000000000000))) / 1000000.

(* ================================================================== *)
(** ** [ProductionFeePredictor._generate_realistic_training_data] *)

Module ProductionGenerator.
Section Generator.
Context {R : NumpyRandom}.
Variable cfg : Config.

(** The oracle as [df.apply] calls it: the noise comes from the
    global generator. *)
Definition _calculate_sophisticated_optimal_fee (row : FeatureVector) : rand Q :=
  noise <~ rng_normal 0 0.015 ;;
  rret (Production.optimal_fee_with_noise cfg row noise).

(** One iteration of the [for i in range(n_samples)] loop; [data] holds
    the [i] rows appended so far. *)
Definition generate_row (start_date : Z) (i : nat) (data : list FeatureVector)
  : rand FeatureVector :=
  let current_time := (start_date + Z.of_nat i)%Z in
  let hour_of_day := hour_of current_time in
  let day_of_week := weekday_of current_time in
  let base_vol := 4.0 in
  let time_vol_multiplier :=
    if Z_in hour_of_day [14; 15; 16; 21; 22]%Z then 1.4
    else if Z_in hour_of_day [2; 3; 4; 5]%Z then 0.6
    else 1.0 in
  let day_vol_multiplier :=
    if Z_in day_of_week [0; 1; 2]%Z then 1.2
    else if Z_in day_of_week [5; 6]%Z then 0.7
    else 1.0 in
  volatility <~
    (if (0 <? i)%nat then
       let prev_vol :=
         match nth_error data (i - 1) with
         | Some prev => column_volatility prev
         | None => base_vol
         end in
       e <~ rng_exponential base_vol ;;
       rret (0.7 * prev_vol + 0.3 * e)
     else rng_exponential base_vol) ;;
  let volatility := volatility * (time_vol_multiplier * day_vol_multiplier) in
  let volatility := py_max 0.5 (py_min volatility 30) in
  let base_volume := 1200000000 in
  let vol_volume_factor := 1 + py_min (volatility / 10) 2 * 0.5 in
  let time_volume_factor :=
    if Z_in hour_of_day [14; 15; 16]%Z then 1.8
    else if Z_in hour_of_day [2; 3; 4; 5]%Z then 0.3
    else 1.0 in
  let volume_24h := base_volume * vol_volume_factor * time_volume_factor in
  ln <~ rng_lognormal 0 0.4 ;;
  let volume_24h := volume_24h * ln in
  let volume_24h := py_max 100000000 (py_min volume_24h 8000000000) in
  price_change_1h <~ rng_normal 0 (volatility / 15) ;;
  price_change_24h <~ rng_normal 0 (volatility / 4) ;;
  let base_market_cap := 28000000000 in
  market_cap_drift <~ rng_normal 0 0.02 ;;
  let market_cap := base_market_cap * (1 + market_cap_drift) in
  let market_cap := py_max 15000000000 (py_min market_cap 50000000000) in
  let base_gas := 28 in
  let gas_multiplier :=
    if Z_in hour_of_day [14; 15; 16; 21; 22]%Z then 1.6
    else if Z_in hour_of_day [2; 3; 4; 5]%Z then 0.7
    else 1.0 in
  let gas_multiplier :=
    if Z_in day_of_week [5; 6]%Z then gas_multiplier * 0.8 else gas_multiplier in
  let vol_gas_factor := 1 + py_min (volatility / 20) 1 * 0.5 in
  let gas_price_gwei := base_gas * gas_multiplier * vol_gas_factor in
  gl <~ rng_lognormal 0 0.3 ;;
  let gas_price_gwei := gas_price_gwei * gl in
  let gas_price_gwei := py_max 18 (py_min gas_price_gwei 400) in
  let liquidity_score := (volume_24h / market_cap) * 100 in
  ma <~
    (if (168 <=? i)%nat then
       (* data[j] for j in range(i-168, i); len(data) = i *)
       let recent := firstn 168 (skipn (i - 168) data) in
       rret (np_mean (map column_volume_24h recent),
             np_mean (map column_volatility recent))
     else
       u1 <~ rng_uniform 0.8 1.2 ;;
       u2 <~ rng_uniform 0.7 1.3 ;;
       rret (volume_24h * u1, volatility * u2)) ;;
  let volume_ma_7d := fst ma in
  let volatility_ma_7d := snd ma in
  let price_momentum := price_change_24h * (1 + volatility / 20) in
  let volume_ratio :=
    if Qltb 0 volume_ma_7d then volume_24h / volume_ma_7d else 1.0 in
  let gas_trend := (gas_price_gwei - 28) / 372 in
  rret {| volatility := volatility;
          volume_24h := volume_24h;
          price_change_1h := price_change_1h;
          price_change_24h := price_change_24h;
          market_cap := market_cap;
          gas_price_gwei := gas_price_gwei;
          liquidity_score := liquidity_score;
          hour_of_day := hour_of_day;
          day_of_week := day_of_week;
          volume_ma_7d := volume_ma_7d;
          volatility_ma_7d := volatility_ma_7d;
          price_momentum := price_momentum;
          volume_ratio := volume_ratio;
          gas_trend := gas_trend |}.

(** The loop: [remaining] iterations are left and [i] is the index of
    the next one. *)
Fixpoint generate_rows (start_date : Z) (remaining i : nat)
    (data : list FeatureVector) : rand (list FeatureVector) :=
  match remaining with
  | O => rret data
  | S remaining' =>
      row <~ generate_row start_date i data ;;
      generate_rows start_date remaining' (S i) (py_append data row)
  end.

(** [df.apply(self._calculate_sophisticated_optimal_fee, axis=1)]. *)
Fixpoint label_rows (rows : list FeatureVector) : rand (list TrainingSample) :=
  match rows with
  | [] => rret []
  | row :: rest =>
      fee <~ _calculate_sophisticated_optimal_fee row ;;
      labelled <~ label_rows rest ;;
      rret ({| features := row; optimal_fee := fee |} :: labelled)
  end.

(** [_generate_realistic_training_data(n_samples)], run at wall-clock
    time [now]; [timedelta(days=365)] is 8760 hours. *)
Definition _generate_realistic_training_data (now : datetime) (n_samples : nat)
  : rand (list TrainingSample) :=
  _ <~ seed 42 ;;
  let start_date := (hour_index now - 8760)%Z in
  data <~ generate_rows start_date n_samples 0 [] ;;
  label_rows data.
End Generator.
End ProductionGenerator.

(* ================================================================== *)
(** ** [AdvancedFeePredictor]: the sibling variant of [ml_models.py] *)

Module Advanced.
Section WithPow.
(** The float power [x ** y]. *)
Variable float_pow : Q -> Q -> Q.

(** [_calculate_sophisticated_optimal_fee], noise as an argument. *)
Definition optimal_fee_with_noise (cfg : Config) (features : FeatureVector) (noise : Q)
  : Q :=
  let base_fee := BASE_FEE_RATE cfg in
  let volatility := volatility features in
  let volatility_factor :=
    if Qltb 10 volatility then 1 + float_pow (volatility - 10) 1.2 * 0.05
    else if Qltb volatility 2 then 0.8
    else 1 + (volatility - 5) * 0.02 in
  let volume_ratio := volume_ratio features in
  let volume_factor :=
    if Qltb 1.2 volume_ratio then 0.9
    else if Qltb volume_ratio 0.8 then 1.1
    else 1.0 in
  let gas_trend := gas_trend features in
  let gas_factor := 1 + gas_trend * 0.3 in
  let hour := hour_of_day features in
  let time_factor :=
    if Z_in hour [9; 10; 16; 17]%Z then 1.1
    else if Z_in hour [2; 3; 4; 5]%Z then 0.9
    else 1.0 in
  let liquidity_score := liquidity_score features in
  let liquidity_factor :=
    if Qltb 5 liquidity_score then 0.95
    else if Qltb liquidity_score 1 then 1.15
    else 1.0 in
  let momentum := Qabs (price_momentum features) in
  let momentum_factor := 1 + momentum * 0.01 in
  let optimal_fee :=
    base_fee * volatility_factor * volume_factor * gas_factor * time_factor
    * liquidity_factor * momentum_factor in
  let optimal_fee := optimal_fee + noise in
  py_max 0.05 (py_min optimal_fee 3.0).

Context {R : NumpyRandom}.

Definition _calculate_sophisticated_optimal_fee (cfg : Config) (features : FeatureVector)
  : rand Q :=
  noise <~ rng_normal 0 0.02 ;;
  rret (optimal_fee_with_noise cfg features noise).

(** One iteration of the loop of [_generate_advanced_training_data]. *)
Definition generate_sample (cfg : Config) : rand TrainingSample :=
  hour_of_day <~ rng_randint 0 24 ;;
  day_of_week <~ rng_randint 0 7 ;;
  let base_volatility := 3.0 in
  let volatility_multiplier :=
    if Z_in hour_of_day [9; 10; 16; 17]%Z then 1.5 else 1.0 in
  e <~ rng_exponential base_volatility ;;
  let volatility := e * volatility_multiplier in
  let volatility := py_max 0.5 (py_min volatility 25) in
  let base_volume := 800000000 in
  volume_noise <~ rng_lognormal 0 0.3 ;;
  let volatility_impact := 1 + (volatility - 5) * 0.1 in
  let volume_24h := base_volume * volume_noise * volatility_impact in
  let volume_24h := py_max 50000000 (py_min volume_24h 5000000000) in
  price_change_1h <~ rng_normal 0 (volatility / 10) ;;
  price_change_24h <~ rng_normal 0 (volatility / 3) ;;
  market_cap <~ rng_lognormal 24 0.4 ;;
  let gas_multiplier := if Z_in day_of_week [1; 2; 3]%Z then 1.3 else 0.8 in
  g <~ rng_exponential 30 ;;
  let gas_price_gwei := g * gas_multiplier in
  let gas_price_gwei := py_max 15 (py_min gas_price_gwei 300) in
  let liquidity_score := (volume_24h / market_cap) * 100 in
  u1 <~ rng_uniform 0.8 1.2 ;;
  let volume_ma_7d := volume_24h * u1 in
  u2 <~ rng_uniform 0.7 1.3 ;;
  let volatility_ma_7d := volatility * u2 in
  u3 <~ rng_uniform 0.5 1.5 ;;
  let price_momentum := price_change_24h * u3 in
  let volume_ratio := volume_24h / volume_ma_7d in
  let gas_trend := (gas_price_gwei - 25) / 275 in
  let row :=
    {| volatility := volatility;
       volume_24h := volume_24h;
       price_change_1h := price_change_1h;
       price_change_24h := price_change_24h;
       market_cap := market_cap;
       gas_price_gwei := gas_price_gwei;
       liquidity_score := liquidity_score;
       hour_of_day := hour_of_day;
       day_of_week := day_of_week;
       volume_ma_7d := volume_ma_7d;
       volatility_ma_7d := volatility_ma_7d;
       price_momentum := price_momentum;
       volume_ratio := volume_ratio;
       gas_trend := gas_trend |} in
  fee <~ _calculate_sophisticated_optimal_fee cfg row ;;
  rret {| features := row; optimal_fee := fee |}.

Fixpoint generate_samples (cfg : Config) (remaining : nat) (data : list TrainingSample)
  : rand (list TrainingSample) :=
  match remaining with
  | O => rret data
  | S remaining' =>
      row <~ generate_sample cfg ;;
      generate_samples cfg remaining' (py_append data row)
  end.

(** [_generate_advanced_training_data(n_samples)]. *)
Definition _generate_advanced_training_data (cfg : Config) (n_samples : nat)
  : rand (list TrainingSample) :=
  _ <~ seed 42 ;;
  generate_samples cfg n_samples [].
End WithPow.

(** [_calculate_model_confidence(model_name, features)], where
    [features[0][0]] is the first column of the scaled row. *)
Definition base_confidence (model_name : string) : Q :=
  if String.eqb model_name "random_forest" then 0.85
  else if String.eqb model_name "gradient_boosting" then 0.80
  else if String.eqb model_name "xgboost" then 0.88
  else if String.eqb model_name "lightgbm" then 0.86
  else if String.eqb model_name "neural_network" then 0.82
  else 0.75.

Definition _calculate_model_confidence (model_name : string) (features : FeatureVector) : Q :=
  let volatility := volatility features in
  let confidence_adjustment :=
    if Qltb 15 volatility then -0.1
    else if Qltb volatility 2 then 0.05
    else 0 in
  py_max 0.5 (py_min (base_confidence model_name + confidence_adjustment) 0.95).

End Advanced.

(* ================================================================== *)
(** ** Sample inputs *)

Module Samples.

(** A calm mid-morning market. *)
Definition calm : FeatureVector :=
  {| volatility := 5; volume_24h := 900000000; price_change_1h := 0.1;
     price_change_24h := 1.5; market_cap := 15000000000; gas_price_gwei := 28;
     liquidity_score := 6; hour_of_day := 10; day_of_week := 3;
     volume_ma_7d := 900000000; volatility_ma_7d := 5; price_momentum := 1.5;
     volume_ratio := 1; gas_trend := 0 |}.

(** Scenario 2 of the specification: a violent, congested market. *)
Definition stormy : FeatureVector :=
  {| volatility := 22; volume_24h := 50000000; price_change_1h := 1.44;
     price_change_24h := 18; market_cap := 15000000000; gas_price_gwei := 150;
     liquidity_score := 0.33; hour_of_day := 15; day_of_week := 1;
     volume_ma_7d := 46000000; volatility_ma_7d := 23.76; price_momentum := 20.7;
     volume_ratio := 1.08; gas_trend := 0.33 |}.

(** Two members disagreeing, with the confidences the scorer gives them
    on [calm]. *)
Definition two_predictions : list (string * Q) :=
  [("random_forest", 0.2); ("gradient_boosting", 0.4)].
Definition two_confidences : list (string * Q) :=
  [("random_forest", 0.87); ("gradient_boosting", 0.84)].

Definition noon : datetime := {| hour_index := 12; isoformat := "2024-01-01T12:00:00" |}.
Definition one_pm : datetime := {| hour_index := 13; isoformat := "2024-01-01T13:00:00" |}.

(** A snapshot with price data and no network sub-record. *)
Definition no_network : pyval :=
  PDict [("coingecko",
          PDict [("volatility", PNum 3); ("volume_24h", PNum 400000000);
                 ("price_change_24h", PNum 0); ("market_cap", PNum 15000000000)])].

(** A snapshot whose volume came back as JSON [null]. *)
Definition null_volume : pyval :=
  PDict [("coingecko", PDict [("volume_24h", PNone)])].

(** A snapshot with a volume and no market capitalisation. *)
Definition no_market_cap : pyval :=
  PDict [("coingecko", PDict [("volume_24h", PNum 1000)])].

(** The empty snapshot the test-suite passes. *)
Definition empty_snapshot : pyval := PDict [].

(** A predictor whose members always answer, best model unset. *)
Definition constant_member (q : Q) : Predictor.member := fun _ => Ok q.
Definition failing_member : Predictor.member := fun _ => Raise (ExternalError "predict").

Definition trained : Predictor.state :=
  {| Predictor.models :=
       [("random_forest", Some (constant_member 0.2));
        ("gradient_boosting", Some (constant_member 0.4));
        ("neural_network", Some failing_member)];
     Predictor.columns := feature_columns;
     Predictor.is_trained := true;
     Predictor.best_model_name := None |}.

(** The market-data collaborator being unreachable, and a training run
    that succeeds without changing the members. *)
Definition offline : exc pyval := Raise (ExternalError "market data unavailable").

Definition retrain (self : Predictor.state) : exc Predictor.state :=
  Ok {| Predictor.models := Predictor.models self;
        Predictor.columns := Predictor.columns self;
        Predictor.is_trained := true;
        Predictor.best_model_name := Predictor.best_model_name self |}.

End Samples.

(* ================================================================== *)
(** ** Reading a snapshot: the conditions the properties speak about *)

Module Snapshot.

(** The coingecko sub-record is missing or empty (more generally, its
    value is falsy: absent, [None], [{}]). *)
Definition lacks_coingecko (d : pydict) : bool :=
  match dict_lookup d "coingecko" with
  | None => true
  | Some v => negb (truthy v)
  end.

(** The network sub-record is absent, [None] or empty. *)
Definition lacks_network (d : pydict) : bool :=
  match dict_lookup d "network" with
  | None => true
  | Some v => negb (truthy v)
  end.

(** Key [k] is absent from [d] or bound to a number. *)
Definition numeric_or_absent (d : pydict) (k : string) : bool :=
  match dict_lookup d k with
  | None => true
  | Some (PNum _) => true
  | Some _ => false
  end.

(** The number the codec reads for key [k], with its default. *)
Definition number_at (d : pydict) (k : string) (default : Q) : Q :=
  match dict_lookup d k with
  | Some (PNum q) => q
  | _ => default
  end.

Definition fields_numeric (cg : pydict) : bool :=
  numeric_or_absent cg "volatility" && numeric_or_absent cg "volume_24h"
  && numeric_or_absent cg "price_change_24h" && numeric_or_absent cg "market_cap".

(** The network sub-record is falsy, or a dictionary whose gas price is
    absent or a number. *)
Definition gas_readable (d : pydict) : bool :=
  match dict_lookup d "network" with
  | None => true
  | Some (PDict nw) => numeric_or_absent nw "gas_price_gwei"
  | Some v => negb (truthy v)
  end.

(** The gas price the codec uses. *)
Definition gas_of (d : pydict) : Q :=
  match dict_lookup d "network" with
  | Some (PDict nw) =>
      match nw with
      | [] => 28
      | _ => number_at nw "gas_price_gwei" 28
      end
  | _ => 28
  end.

(** A snapshot every read of which succeeds: a dictionary whose
    coingecko value is a non-empty dictionary with numeric fields, and
    whose gas price is readable. *)
Definition readable (market_data : pyval) : bool :=
  match market_data with
  | PDict d =>
      match dict_lookup d "coingecko" with
      | Some (PDict (kv :: cg)) => fields_numeric (kv :: cg) && gas_readable d
      | _ => false
      end
  | _ => false
  end.

(** [sys.float_info.max], the largest binary64 number. *)
Definition float_max : Q := inject_Z ((2 ^ 53 - 1) * 2 ^ 971).

(** Key [k] is not bound to a number beyond the float range.  A Python
    [float] always fits; an [int] beyond the range makes arithmetic with
    a [float] raise [OverflowError]. *)
Definition fits_float (d : pydict) (k : string) : bool :=
  match dict_lookup d k with
  | Some (PNum q) => Qleb (Qabs q) float_max
  | _ => true
  end.

(** Every number the codec computes with fits a float. *)
Definition float_sized (market_data : pyval) : bool :=
  match market_data with
  | PDict d =>
      match dict_lookup d "coingecko" with
      | Some (PDict cg) =>
          fits_float cg "volatility" && fits_float cg "volume_24h"
          && fits_float cg "price_change_24h" && fits_float cg "market_cap"
      | _ => true
      end
      && match dict_lookup d "network" with
         | Some (PDict nw) => fits_float nw "gas_price_gwei"
         | _ => true
         end
  | _ => true
  end.

End Snapshot.


(* ================================================================== *)
(** ** Further parts of [ProductionFeePredictor] *)

Module Training.

(** The closing step of [train_models]:
    [max(results.keys(), key=lambda k: results[k]['test_r2'])], with
    [results] reduced to its [test_r2] column.  Python's [max] keeps the
    first of several maximal items and raises [ValueError] on an empty
    sequence. *)
Fixpoint max_by_key (best : string * Q) (rest : list (string * Q)) : string * Q :=
  match rest with
  | [] => best
  | item :: rest' =>
      if Qltb (snd best) (snd item) then max_by_key item rest'
      else max_by_key best rest'
  end.

Definition select_best_model (results : list (string * Q)) : exc string :=
  match results with
  | [] => Raise (ExternalError "ValueError")
  | first :: rest => Ok (fst (max_by_key first rest))
  end.

End Training.

(** One feature replaced, the others kept: the rows the oracle is
    compared on. *)
Module Vary.

Definition gas_trend_of (fv : FeatureVector) (g : Q) : FeatureVector :=
  {| volatility := volatility fv;
     volume_24h := volume_24h fv;
     price_change_1h := price_change_1h fv;
     price_change_24h := price_change_24h fv;
     market_cap := market_cap fv;
     gas_price_gwei := gas_price_gwei fv;
     liquidity_score := liquidity_score fv;
     hour_of_day := hour_of_day fv;
     day_of_week := day_of_week fv;
     volume_ma_7d := volume_ma_7d fv;
     volatility_ma_7d := volatility_ma_7d fv;
     price_momentum := price_momentum fv;
     volume_ratio := volume_ratio fv;
     gas_trend := g |}.

Definition liquidity_score_of (fv : FeatureVector) (l : Q) : FeatureVector :=
  {| volatility := volatility fv;
     volume_24h := volume_24h fv;
     price_change_1h := price_change_1h fv;
     price_change_24h := price_change_24h fv;
     market_cap := market_cap fv;
     gas_price_gwei := gas_price_gwei fv;
     liquidity_score := l;
     hour_of_day := hour_of_day fv;
     day_of_week := day_of_week fv;
     volume_ma_7d := volume_ma_7d fv;
     volatility_ma_7d := volatility_ma_7d fv;
     price_momentum := price_momentum fv;
     volume_ratio := volume_ratio fv;
     gas_trend := gas_trend fv |}.

End Vary.

(** What the members answer on a row: the pairs the prediction loop is
    expected to collect. *)
Module Members.

Definition answer (features : FeatureVector) (entry : string * option Predictor.member)
  : list (string * Q) :=
  match snd entry with
  | Some model =>
      match model features with
      | Ok pred => [(fst entry, pred)]
      | Raise _ => []
      end
  | None => []
  end.

Definition answers (ms : list (string * option Predictor.member))
    (features : FeatureVector) : list (string * Q) :=
  flat_map (answer features) ms.

Definition scored (features : FeatureVector) (predictions : list (string * Q))
  : list (string * Q) :=
  map (fun kv => (fst kv, Production._calculate_model_confidence (fst kv) features))
      predictions.

End Members.

(** The ranges the generators keep their rows in. *)
Module Ranges.

Definition production_row (row : FeatureVector) : Prop :=
  valid_features row
  /\ 0.5 <= volatility row <= 30
  /\ 100000000 <= volume_24h row <= 8000000000
  /\ 15000000000 <= market_cap row <= 50000000000
  /\ 18 <= gas_price_gwei row <= 400
  /\ - (10 # 372) <= gas_trend row <= 1
  /\ 0.2 <= liquidity_score row <= 54.

Definition production_sample (sample : TrainingSample) : Prop :=
  production_row (features sample) /\ 0.05 <= optimal_fee sample <= 2.5.

Definition advanced_sample (sample : TrainingSample) : Prop :=
  let row := features sample in
  0.5 <= volatility row <= 25
  /\ 50000000 <= volume_24h row <= 5000000000
  /\ 15 <= gas_price_gwei row <= 300
  /\ - (10 # 275) <= gas_trend row <= 1
  /\ 0.05 <= optimal_fee sample <= 3.0.

End Ranges.

(** The prior tables of the two scorers, as the dictionary literals of
    the source, and [table.get(model_name, default)]. *)
Module Scorer.

Definition production_priors : list (string * Q) :=
  [("random_forest", 0.87); ("gradient_boosting", 0.84); ("neural_network", 0.81)].

Definition advanced_priors : list (string * Q) :=
  [("random_forest", 0.85); ("gradient_boosting", 0.80); ("xgboost", 0.88);
   ("lightgbm", 0.86); ("neural_network", 0.82)].

Definition prior (table : list (string * Q)) (default : Q) (model_name : string) : Q :=
  match dict_lookup table model_name with
  | Some p => p
  | None => default
  end.

End Scorer.

(** Further sample inputs. *)
Module MoreSamples.

(** Moderate volatility with a tripled volume and a congested network:
    both the volume-ratio and the gas-trend test of the production
    scorer fire. *)
Definition busy_congested : FeatureVector :=
  {| volatility := 5; volume_24h := 2700000000; price_change_1h := 0.1;
     price_change_24h := 1.5; market_cap := 15000000000; gas_price_gwei := 362.8;
     liquidity_score := 18; hour_of_day := 10; day_of_week := 3;
     volume_ma_7d := 900000000; volatility_ma_7d := 5; price_momentum := 1.5;
     volume_ratio := 3; gas_trend := 0.9 |}.

(** A volume reported as an integer beyond the float range. *)
Definition huge_volume : pyval :=
  PDict [("coingecko",
          PDict [("volatility", PNum 3); ("volume_24h", PNum (inject_Z (10 ^ 400)))])].

(** The members of [Samples.trained] before any training run. *)
Definition untrained : Predictor.state :=
  {| Predictor.models := Predictor.models Samples.trained;
     Predictor.columns := feature_columns;
     Predictor.is_trained := false;
     Predictor.best_model_name := None |}.

(** A training run that raises. *)
Definition failing_training (self : Predictor.state) : exc Predictor.state :=
  Raise (ExternalError "fit").

(** A coingecko record that carries a price only. *)
Definition price_only : pydict := [("coingecko", PDict [("price_usd", PNum 35)])].

End MoreSamples.

(* ================================================================== *)
(** ** [data_pipeline.py]: the cache and the indicator helpers *)

Module Pipeline.

(** [del d[k]] for a key known to be present. *)
Fixpoint dict_delete {V : Type} (d : list (string * V)) (k : string) : list (string * V) :=
  match d with
  | [] => []
  | (k', v) :: rest =>
      if String.eqb k k' then rest else (k', v) :: dict_delete rest k
  end.

(** [DataCache]: entries are [(value, timestamp)] pairs. *)
Record DataCache : Type := {
  cache : list (string * (pyval * Q));
  ttl : Q
}.

(** [DataCache.get(key)], with [time.time()] made an argument; the
    cache is returned with the answer because an expired entry is
    deleted. *)
Definition get (self : DataCache) (key : string) (time : Q) : pyval * DataCache :=
  match dict_lookup (cache self) key with
  | Some (data, timestamp) =>
      if Qltb (time - timestamp) (ttl self) then (data, self)
      else (PNone, {| cache := dict_delete (cache self) key; ttl := ttl self |})
  | None => (PNone, self)
  end.

(** [DataCache.set(key, value)]. *)
Definition set (self : DataCache) (key : string) (value : pyval) (time : Q) : DataCache :=
  {| cache := dict_set (cache self) key (value, time); ttl := ttl self |}.

(** [xs[-n:]]: the last [n] items, and the whole list for [n = 0]. *)
Definition last_items {A : Type} (n : nat) (xs : list A) : list A :=
  match n with
  | O => xs
  | _ => skipn (List.length xs - n) xs
  end.

(** The loop of [_calculate_rsi]: [previous] is [price_data[i-1]]. *)
Fixpoint rsi_changes (previous : Q) (prices : list Q) (gains losses : list Q)
  : list Q * list Q :=
  match prices with
  | [] => (gains, losses)
  | price :: rest =>
      let change := price - previous in
      if Qltb 0 change then
        rsi_changes price rest (py_append gains change) (py_append losses 0)
      else
        rsi_changes price rest (py_append gains 0) (py_append losses (Qabs change))
  end.

Definition rsi_body (price_data : list Q) (period : nat) : exc Q :=
  let '(gains, losses) :=
    match price_data with
    | [] => ([], [])
    | first :: rest => rsi_changes first rest [] []
    end in
  if (List.length gains <? period)%nat then Ok 50.0
  else
    avg_gain <- py_div (py_sum (last_items period gains)) (inject_Z (Z.of_nat period)) ;;
    avg_loss <- py_div (py_sum (last_items period losses)) (inject_Z (Z.of_nat period)) ;;
    if Qeqb avg_loss 0 then Ok 100.0
    else
      rs <- py_div avg_gain avg_loss ;;
      q <- py_div 100 (1 + rs) ;;
      let rsi := 100 - q in
      Ok (py_max 0 (py_min 100 rsi)).

(** [_calculate_rsi(price_data, period)]. *)
Definition _calculate_rsi (price_data : list Q) (period : nat) : Q :=
  match price_data with
  | [] => 50.0
  | _ =>
      if (List.length price_data <? period + 1)%nat then 50.0
      else try_except (rsi_body price_data period) (fun _ => 50.0)
  end.

(** [_calculate_volume_ratio]. *)
Definition _calculate_volume_ratio (volume_24h market_cap : Q) : Q :=
  if Qeqb market_cap 0 then 0.0 else (volume_24h / market_cap) * 100.

(** [_calculate_fee_adjustment(volatility)], with
    [Config.VOLATILITY_THRESHOLD] made an argument. *)
Definition _calculate_fee_adjustment (cfg : Config) (VOLATILITY_THRESHOLD : Q)
    (volatility : Q) : Q :=
  let base_fee := BASE_FEE_RATE cfg in
  if Qltb VOLATILITY_THRESHOLD volatility then
    let multiplier := (volatility - VOLATILITY_THRESHOLD) / 3.0 in
    let adjustment := 0.2 * multiplier in
    py_min (base_fee + adjustment) 2.0
  else base_fee.

(** [_calculate_advanced_fee_adjustment]. *)
Definition _calculate_advanced_fee_adjustment (cfg : Config)
    (volatility volume_24h rsi : Q) (network : pyval) : exc Q :=
  let base_fee := BASE_FEE_RATE cfg in
  let vol_adjustment :=
    if Qltb 15 volatility then 0.5
    else if Qltb 8 volatility then 0.2
    else if Qltb volatility 2 then -0.1
    else 0 in
  let volume_adjustment :=
    if Qltb 1000000000 volume_24h then -0.1
    else if Qltb volume_24h 100000000 then 0.1
    else 0 in
  let rsi_adjustment :=
    if Qltb 80 rsi || Qltb rsi 20 then 0.1 else 0 in
  network_adjustment <-
    (if truthy network then
       g <- py_get network "gas_price_gwei" (PNum 25) ;;
       gas_price <- as_num g ;;
       Ok (if Qltb 50 gas_price then 0.1
           else if Qltb gas_price 20 then -0.05
           else 0)
     else Ok 0) ;;
  let total_adjustment :=
    vol_adjustment + volume_adjustment + rsi_adjustment + network_adjustment in
  Ok (py_max 0.05 (py_min (base_fee + total_adjustment) 2.0)).

(** [_calculate_recommendation_confidence]. *)
Definition _calculate_recommendation_confidence (coingecko global_data network : pyval)
  : exc Q :=
  let confidence := 0.7 in
  let confidence := if truthy coingecko then confidence + 0.1 else confidence in
  let confidence := if truthy global_data then confidence + 0.05 else confidence in
  let confidence := if truthy network then confidence + 0.05 else confidence in
  confidence <-
    (if truthy coingecko then
       price <- py_get coingecko "price_usd" (PNum 0) ;;
       volume <- py_get coingecko "volume_24h" (PNum 0) ;;
       price <- as_num price ;;
       reasonable <-
         (if Qltb 0 price then
            volume <- as_num volume ;; Ok (Qltb 1000000 volume)
          else Ok false) ;;
       let confidence := if reasonable : bool then confidence + 0.1 else confidence in
       volatility <- py_get coingecko "volatility" (PNum 0) ;;
       volatility <- as_num volatility ;;
       Ok (if Qltb 20 volatility then confidence - 0.1 else confidence)
     else Ok confidence) ;;
  Ok (py_max 0.3 (py_min confidence 0.95)).

End Pipeline.
(* ================================================================== *)
(** ** [ml_models.py]: the prediction path of [AdvancedFeePredictor] *)

Module AdvancedPredictor.

(** [_fallback_prediction]. *)
Definition _fallback_prediction (cfg : Config) (now : datetime) : pydict :=
  [ ("recommended_fee", PNum (BASE_FEE_RATE cfg));
    ("confidence", PNum 0.3);
    ("reasoning", PStr "Using fallback prediction due to insufficient data or model errors");
    ("market_condition", PStr "unknown");
    ("model_predictions", PDict []);
    ("ensemble_method", PStr "fallback");
    ("timestamp", PStr (isoformat now)) ].

(** The body of [_extract_advanced_features] inside its [try]. *)
Definition extract_features_body (now : datetime) (market_data : pyval)
  : exc (option FeatureVector) :=
  coingecko <- py_get market_data "coingecko" (PDict []) ;;
  network <- py_get market_data "network" (PDict []) ;;
  if negb (truthy coingecko) then Ok None
  else
    let hour_of_day := hour_of (hour_index now) in
    let day_of_week := weekday_of (hour_index now) in
    volatility <- py_get coingecko "volatility" (PNum 0) ;;
    volume_24h <- py_get coingecko "volume_24h" (PNum 0) ;;
    price_change_24h <- py_get coingecko "price_change_24h" (PNum 0) ;;
    market_cap <- py_get coingecko "market_cap" (PNum 0) ;;
    gas_price_gwei <-
      (if truthy network then py_get network "gas_price_gwei" (PNum 25)
       else Ok (PNum 25)) ;;
    (* liquidity_score = (volume_24h / max(market_cap, 1)) * 100 if market_cap > 0 else 0 *)
    market_cap <- as_num market_cap ;;
    liquidity_score <-
      (if Qltb 0 market_cap then
         v <- as_num volume_24h ;; Ok (v / py_max market_cap 1 * 100)
       else Ok 0) ;;
    volume_24h <- as_num volume_24h ;;
    let volume_ma_7d := volume_24h * 0.95 in
    volatility <- as_num volatility ;;
    let volatility_ma_7d := volatility * 1.1 in
    price_change_24h <- as_num price_change_24h ;;
    let price_change_1h := price_change_24h * 0.1 in
    let price_momentum := price_change_24h * 1.2 in
    let volume_ratio :=
      if Qltb 0 volume_ma_7d then volume_24h / volume_ma_7d else 1.0 in
    gas_price_gwei <- as_num gas_price_gwei ;;
    let gas_trend := (gas_price_gwei - 25) / 275 in
    Ok (Some {| volatility := volatility;
                volume_24h := volume_24h;
                price_change_1h := price_change_1h;
                price_change_24h := price_change_24h;
                market_cap := market_cap;
                gas_price_gwei := gas_price_gwei;
                liquidity_score := liquidity_score;
                hour_of_day := hour_of_day;
                day_of_week := day_of_week;
                volume_ma_7d := volume_ma_7d;
                volatility_ma_7d := volatility_ma_7d;
                price_momentum := price_momentum;
                volume_ratio := volume_ratio;
                gas_trend := gas_trend |}).

(** [_extract_advanced_features]: any exception yields [None]. *)
Definition _extract_advanced_features (now : datetime) (market_data : pyval)
  : option FeatureVector :=
  try_except (extract_features_body now market_data) (fun _ => None).

(** [_classify_market_condition(volatility, features)]. *)
Definition _classify_market_condition (volatility : Q) (features : FeatureVector) : string :=
  let volume_24h := volume_24h features in
  let price_change_24h := price_change_24h features in
  let gas_price_gwei := gas_price_gwei features in
  if Qltb 15 volatility && Qltb 10 (Qabs price_change_24h) then "highly_volatile"
  else if Qltb 8 volatility && Qltb 80 gas_price_gwei then "congested_volatile"
  else if Qltb volatility 2 && Qltb 800000000 volume_24h then "stable_liquid"
  else if Qltb volatility 3 then "stable"
  else if Qltb 10 volatility then "volatile"
  else "moderate".

Definition market_conditions : list string :=
  ["highly_volatile"; "congested_volatile"; "stable_liquid"; "stable";
   "volatile"; "moderate"].

(** [max(xs)] and [min(xs)]: the first largest and the first smallest
    item; an empty argument raises [ValueError]. *)
Definition py_max_of (xs : list Q) : exc Q :=
  match xs with
  | [] => Raise (ExternalError "ValueError")
  | x :: rest => Ok (fold_left (fun m y => if Qltb m y then y else m) rest x)
  end.

Definition py_min_of (xs : list Q) : exc Q :=
  match xs with
  | [] => Raise (ExternalError "ValueError")
  | x :: rest => Ok (fold_left (fun m y => if Qltb y m then y else m) rest x)
  end.

(** The sentence on model consensus, always the first reason. *)
Definition consensus_sentence (model_range : Q) : string :=
  if Qltb model_range 0.1 then
    "Strong model consensus (range: " ++ format_f 3 model_range ++ "%)"
  else
    "Moderate model disagreement (range: " ++ format_f 3 model_range ++ "%)".

(** [_generate_advanced_reasoning]: [reasons] is the list the source
    appends to, statement after statement. *)
Definition _generate_advanced_reasoning (cfg : Config) (features : FeatureVector)
    (predictions : list (string * Q)) (final_prediction : Q) : exc string :=
  let volatility := volatility features in
  let volume_24h := volume_24h features in
  let gas_price_gwei := gas_price_gwei features in
  let hour_of_day := hour_of_day features in
  let reasons : list string := [] in
  (* model consensus *)
  hi <- py_max_of (dict_values predictions) ;;
  lo <- py_min_of (dict_values predictions) ;;
  let model_range := hi - lo in
  let reasons := py_append reasons (consensus_sentence model_range) in
  (* market analysis *)
  let reasons :=
    if Qltb 10 volatility then
      py_append reasons ("High volatility (" ++ format_f 1 volatility
                   ++ "%) increases uncertainty and fees")
    else if Qltb volatility 2 then
      py_append reasons ("Low volatility (" ++ format_f 1 volatility
                   ++ "%) indicates stable conditions")
    else reasons in
  (* volume analysis *)
  let reasons :=
    if Qltb 1000000000 volume_24h then
      py_append reasons "High trading volume suggests strong market liquidity"
    else if Qltb volume_24h 200000000 then
      py_append reasons "Low trading volume may increase price impact"
    else reasons in
  (* network conditions *)
  let reasons :=
    if Qltb 100 gas_price_gwei then
      py_append reasons ("High network congestion (gas: " ++ format_f 0 gas_price_gwei
                   ++ " GWEI)")
    else reasons in
  (* time-based factors *)
  let reasons :=
    if Z_in hour_of_day [9; 10; 16; 17]%Z then
      py_append reasons "Peak trading hours typically have higher volatility"
    else reasons in
  (* fee comparison: the quotient is computed inside the branch *)
  let base_fee := BASE_FEE_RATE cfg in
  reasons <-
    (if Qltb (base_fee * 1.5) final_prediction then
       q <- py_div final_prediction base_fee ;;
       Ok (py_append reasons ("Recommended fee is " ++ format_f 0 ((q - 1) * 100)
                        ++ "% above base rate"))
     else if Qltb final_prediction (base_fee * 0.8) then
       q <- py_div final_prediction base_fee ;;
       Ok (py_append reasons ("Recommended fee is " ++ format_f 0 ((1 - q) * 100)
                        ++ "% below base rate"))
     else Ok reasons) ;;
  Ok (join ". " reasons ++ ".").

(** A fitted scaler ([transform]) and a fitted model ([predict], with
    the indexing of its result); either call may raise. *)
Definition scaler : Type := FeatureVector -> exc FeatureVector.
Definition model : Type := FeatureVector -> exc Q.

(** The mutable state of an [AdvancedFeePredictor]. *)
Record state : Type := {
  models : list (string * option model);
  scalers : list (string * scaler);
  columns : list string;
  is_trained : bool
}.

(** The loop over [self.models.items()]: a missing model is skipped; a
    missing scaler, a failing transform or a failing predict is logged
    and skipped.  The confidence is scored on the scaled row. *)
Fixpoint collect_predictions (scalers : list (string * scaler))
    (ms : list (string * option model)) (features : FeatureVector)
    (predictions confidences : list (string * Q))
  : list (string * Q) * list (string * Q) :=
  match ms with
  | [] => (predictions, confidences)
  | (model_name, None) :: rest =>
      collect_predictions scalers rest features predictions confidences
  | (model_name, Some model) :: rest =>
      let '(predictions, confidences) :=
        try_except
          (transform <- dict_index scalers model_name ;;
           features_scaled <- transform features ;;
           pred <- model features_scaled ;;
           Ok (dict_set predictions model_name pred,
               dict_set confidences model_name
                 (Advanced._calculate_model_confidence model_name features_scaled)))
          (fun _ => (predictions, confidences)) in
      collect_predictions scalers rest features predictions confidences
  end.

Section Predict.
Variable cfg : Config.
(** [await get_live_market_data()] of [data_pipeline]. *)
Variable get_live_market_data : exc pyval.
(** [self.train_models()]: fits the members and updates the object. *)
Variable train_models : state -> exc state.

Definition predict_body (self : state) (now : datetime) (market_data : pyval)
  : exc pydict :=
  market_data <-
    (match market_data with
     | PNone => get_live_market_data
     | _ => Ok market_data
     end) ;;
  match _extract_advanced_features now market_data with
  | None => Ok (_fallback_prediction cfg now)
  | Some features =>
      self <- (if is_trained self then Ok self else train_models self) ;;
      let '(predictions, confidences) :=
        collect_predictions (scalers self) (models self) features [] [] in
      match predictions with
      | [] => Ok (_fallback_prediction cfg now)
      | _ =>
          let total_weight := py_sum (dict_values confidences) in
          ensemble_prediction <-
            (if Qltb 0 total_weight then
               ts <- Production.weighted_terms predictions confidences ;;
               Ok (py_sum ts / total_weight)
             else Ok (np_mean (dict_values predictions))) ;;
          let ensemble_prediction := py_max 0.05 (py_min ensemble_prediction 3.0) in
          let overall_confidence := py_min (np_mean (dict_values confidences)) 0.95 in
          reasoning <-
            _generate_advanced_reasoning cfg features predictions ensemble_prediction ;;
          let volatility := volatility features in
          let market_condition := _classify_market_condition volatility features in
          Ok [ ("recommended_fee", PNum (py_round ensemble_prediction 4));
               ("confidence", PNum (py_round overall_confidence 3));
               ("reasoning", PStr reasoning);
               ("market_condition", PStr market_condition);
               ("model_predictions", PDict (Predictor.rounded 4 predictions));
               ("model_confidences", PDict (Predictor.rounded 3 confidences));
               ("ensemble_method", PStr "weighted_average");
               ("features_analyzed",
                PNum (inject_Z (Z.of_nat (List.length (columns self)))));
               ("timestamp", PStr (isoformat now)) ]
      end
  end.

(** [predict_optimal_fee]: the whole body sits in [try ... except
    Exception], whose handler returns the fallback record. *)
Definition predict_optimal_fee (self : state) (now : datetime) (market_data : pyval)
  : pydict :=
  try_except (predict_body self now market_data)
             (fun _ => _fallback_prediction cfg now).
End Predict.

End AdvancedPredictor.

(* ================================================================== *)
(** ** [main.py]: the [/recommend-fee] endpoint *)

Module Endpoint.

(** What a request handler gives back: a response, or the
    [HTTPException] it raises, with its status code. *)
Inductive http (A : Type) : Type :=
| Response (a : A)
| HTTPException (status_code : Z) (detail : pyexc).
Arguments Response {A} a.
Arguments HTTPException {A} status_code detail.

(** The response model, with the field types pydantic enforces. *)
Record FeeRecommendationResponse : Type := {
  recommended_fee : Q;
  confidence : Q;
  reasoning : string;
  market_condition : string;
  current_volatility : Q;
  timestamp : string
}.

(** Validation of a [float] and of a [str] field: a number, a string,
    or a [ValidationError]. *)
Definition validate_float (v : pyval) : exc Q :=
  match v with
  | PNum q => Ok q
  | _ => Raise (ExternalError "ValidationError")
  end.

Definition validate_str (v : pyval) : exc string :=
  match v with
  | PStr s => Ok s
  | _ => Raise (ExternalError "ValidationError")
  end.

Section Handler.
Variable cfg : Config.
Variable np_sqrt : Q -> Q.
Variable get_live_market_data : exc pyval.
Variable train_models : Predictor.state -> exc Predictor.state.

(** [get_production_fee_recommendation(market_data)] on the module's
    predictor object. *)
Definition get_production_fee_recommendation (production_fee_predictor : Predictor.state)
    (now : datetime) (market_data : pyval) : pydict :=
  Predictor.predict_optimal_fee cfg np_sqrt get_live_market_data train_models
    production_fee_predictor now market_data.

(** The [return] statement of [recommend_fee]: the arguments of the
    constructor are evaluated left to right, then the constructor
    validates them; [now'] is the clock reading taken for the default
    of the timestamp. *)
Definition response_of (recommendation : pydict) (now' : datetime)
  : exc FeeRecommendationResponse :=
  fee <- dict_index recommendation "recommended_fee" ;;
  conf <- dict_index recommendation "confidence" ;;
  text <- dict_index recommendation "reasoning" ;;
  condition <- dict_index recommendation "market_condition" ;;
  vol <- py_get (PDict recommendation) "current_volatility" (PNum 0) ;;
  stamp <- py_get (PDict recommendation) "prediction_timestamp" (PStr (isoformat now')) ;;
  fee <- validate_float fee ;;
  conf <- validate_float conf ;;
  text <- validate_str text ;;
  condition <- validate_str condition ;;
  vol <- validate_float vol ;;
  stamp <- validate_str stamp ;;
  Ok {| recommended_fee := fee;
        confidence := conf;
        reasoning := text;
        market_condition := condition;
        current_volatility := vol;
        timestamp := stamp |}.

(** The body of [recommend_fee] inside its [try]; [market_data_cache]
    is the module's global. *)
Definition recommend_fee_body (force_refresh use_production : bool)
    (market_data_cache : pyval) (production_fee_predictor : Predictor.state)
    (now now' : datetime) : exc FeeRecommendationResponse :=
  let market_data := PNone in
  market_data <-
    (if force_refresh || negb (truthy market_data_cache)
     then get_live_market_data else Ok market_data) ;;
  let recommendation :=
    if use_production
    then get_production_fee_recommendation production_fee_predictor now market_data
    else get_production_fee_recommendation production_fee_predictor now market_data in
  response_of recommendation now'.

(** [recommend_fee]: any exception becomes an [HTTPException] with
    status 500. *)
Definition recommend_fee (force_refresh use_production : bool)
    (market_data_cache : pyval) (production_fee_predictor : Predictor.state)
    (now now' : datetime) : http FeeRecommendationResponse :=
  match recommend_fee_body force_refresh use_production market_data_cache
          production_fee_predictor now now' with
  | Ok response => Response response
  | Raise e => HTTPException 500 e
  end.
End Handler.

End Endpoint.

(** A list of reasons that opens with a given sentence. *)
Definition opens_with (first : string) (reasons : list string) : Prop :=
  exists rest, reasons = first :: rest.

(** Sample inputs for the advanced predictor and the endpoint. *)
Module AdvancedSamples.

Definition identity_scaler : AdvancedPredictor.scaler := fun features => Ok features.
Definition constant_model (q : Q) : AdvancedPredictor.model := fun _ => Ok q.

(** Two fitted members, one member without a model and one whose
    scaler is missing. *)
Definition trained : AdvancedPredictor.state :=
  {| AdvancedPredictor.models :=
       [("random_forest", Some (constant_model 0.2));
        ("xgboost", Some (constant_model 0.4));
        ("neural_network", None);
        ("lightgbm", Some (constant_model 9))];
     AdvancedPredictor.scalers :=
       [("random_forest", identity_scaler); ("xgboost", identity_scaler)];
     AdvancedPredictor.columns := feature_columns;
     AdvancedPredictor.is_trained := true |}.

Definition retrain (self : AdvancedPredictor.state) : exc AdvancedPredictor.state :=
  Ok {| AdvancedPredictor.models := AdvancedPredictor.models self;
        AdvancedPredictor.scalers := AdvancedPredictor.scalers self;
        AdvancedPredictor.columns := AdvancedPredictor.columns self;
        AdvancedPredictor.is_trained := true |}.

(** A module cache that holds a snapshot. *)
Definition warm_cache : pyval := PDict [("avax_price", PNum 35)].

End AdvancedSamples.
(* ================================================================== *)
(** * Properties *)

(** ** Order tests and clamping *)

Lemma Qltb_lt (x y : Q) : Qltb x y = true <-> x < y.
Proof.
  unfold Qltb. rewrite negb_true_iff. split; intro H.
  - apply Qnot_le_lt. intro L. apply Qle_bool_iff in L. congruence.
  - destruct (Qle_bool y x) eqn:E; trivial.
    apply Qle_bool_iff in E. exfalso. apply (Qlt_not_le _ _ H E).
Qed.

Lemma Qltb_ge (x y : Q) : Qltb x y = false <-> y <= x.
Proof.
  unfold Qltb. rewrite negb_false_iff. apply Qle_bool_iff.
Qed.

Lemma Qltb_spec (x y : Q) : reflect (x < y) (Qltb x y).
Proof.
  destruct (Qltb x y) eqn:E; constructor.
  - now apply Qltb_lt.
  - apply Qltb_ge in E. now apply Qle_not_lt.
Qed.

Lemma py_min_le_r (x hi : Q) : py_min x hi <= hi.
Proof.
  unfold py_min. destruct (Qltb_spec hi x) as [H | H].
  - apply Qle_refl.
  - now apply Qnot_lt_le.
Qed.

Lemma py_max_ge_l (lo x : Q) : lo <= py_max lo x.
Proof.
  unfold py_max. destruct (Qltb_spec lo x) as [H | H].
  - now apply Qlt_le_weak.
  - apply Qle_refl.
Qed.

Lemma py_max_le (lo x hi : Q) : lo <= hi -> x <= hi -> py_max lo x <= hi.
Proof.
  intros Hlo Hx. unfold py_max. now destruct (Qltb lo x).
Qed.

(** [max(lo, min(x, hi))] lands in [[lo, hi]] whatever [x] is. *)
Lemma clamp_range (lo hi x : Q) :
  lo <= hi -> lo <= py_max lo (py_min x hi) <= hi.
Proof.
  intro H. split.
  - apply py_max_ge_l.
  - apply py_max_le; [exact H | apply py_min_le_r].
Qed.


(** ** Market-condition classifier *)

#[local] Instance Qltb_proper : Proper (Qeq ==> Qeq ==> eq) Qltb.
Proof.
  intros x x' Hx y y' Hy. unfold Qltb. f_equal.
  destruct (Qle_bool y x) eqn:E, (Qle_bool y' x') eqn:E'; trivial.
  - apply Qle_bool_iff in E. rewrite Hx, Hy in E. apply Qle_bool_iff in E. congruence.
  - apply Qle_bool_iff in E'. rewrite <- Hx, <- Hy in E'. apply Qle_bool_iff in E'.
    congruence.
Qed.

Lemma Qltb_l (c : Q) {a b : Q} : a == b -> Qltb c a = Qltb c b.
Proof. intro H. now rewrite H. Qed.

Lemma Qltb_r (c : Q) {a b : Q} : a == b -> Qltb a c = Qltb b c.
Proof. intro H. now rewrite H. Qed.

Lemma classify_is_first_match (fv : FeatureVector) :
  Production._classify_market_condition fv
  = Production.first_match Production.decision_table "moderate"
      (volatility fv) (volume_ratio fv) (gas_trend fv) (Qabs (price_change_24h fv)).
Proof.
  unfold Production._classify_market_condition. cbn.
  repeat match goal with |- context [if ?b then _ else _] => destruct b; try reflexivity end.
Qed.

Lemma first_match_labels (table : list Production.rule) (default : string) (v r g p : Q) :
  In (Production.first_match table default v r g p) (default :: map snd table).
Proof.
  induction table as [| [guard label] rest IH]; cbn.
  - now left.
  - destruct (guard v r g p).
    + right. now left.
    + destruct IH as [IH | IH]; [now left | right; now right].
Qed.

(** C8. The classifier is the first-match reading of the decision table
    over (volatility, volume_ratio, gas_trend, |price_change_24h|); its
    label is one of the seven enumerated ones; it depends on nothing but
    those four values; and volatility above 20 with |price_change_24h|
    above 15 gives extreme_volatility whatever the other features are. *)
Theorem C8_classifier_decision_table (fv : FeatureVector) :
  Production._classify_market_condition fv
  = Production.first_match Production.decision_table "moderate"
      (volatility fv) (volume_ratio fv) (gas_trend fv) (Qabs (price_change_24h fv))
  /\ In (Production._classify_market_condition fv) Production.market_conditions
  /\ (forall fv' : FeatureVector,
        volatility fv == volatility fv' ->
        volume_ratio fv == volume_ratio fv' ->
        gas_trend fv == gas_trend fv' ->
        Qabs (price_change_24h fv) == Qabs (price_change_24h fv') ->
        Production._classify_market_condition fv = Production._classify_market_condition fv')
  /\ (20 < volatility fv -> 15 < Qabs (price_change_24h fv) ->
      Production._classify_market_condition fv = "extreme_volatility").
Proof.
  split; [apply classify_is_first_match |].
  split.
  { rewrite classify_is_first_match.
    pose proof (first_match_labels Production.decision_table "moderate"
                  (volatility fv) (volume_ratio fv) (gas_trend fv)
                  (Qabs (price_change_24h fv))) as H.
    cbn in H |- *. intuition. }
  split.
  { intros fv' Hv Hr Hg Hp. unfold Production._classify_market_condition. cbv zeta.
    rewrite (Qltb_l 20 Hv), (Qltb_l 12 Hv), (Qltb_l 8 Hv), (Qltb_r 2 Hv), (Qltb_r 3 Hv).
    rewrite (Qltb_l 15 Hp), (Qltb_l 0.4 Hg), (Qltb_l 0.6 Hg), (Qltb_l 1.2 Hr).
    reflexivity. }
  intros Hv Hp. unfold Production._classify_market_condition.
  apply Qltb_lt in Hv, Hp. now rewrite Hv, Hp.
Qed.

Lemma C8_classifier_witness :
  Production._classify_market_condition Samples.stormy = "extreme_volatility".
Proof.
  apply (C8_classifier_decision_table Samples.stormy); reflexivity.
Defined.

(** ** Confidence scorer *)

Lemma production_confidence_range (model_name : string) (fv : FeatureVector) :
  0.4 <= Production._calculate_model_confidence model_name fv <= 0.95.
Proof.
  unfold Production._calculate_model_confidence. apply clamp_range. lra.
Qed.

Lemma advanced_confidence_range (model_name : string) (fv : FeatureVector) :
  0.5 <= Advanced._calculate_model_confidence model_name fv <= 0.95.
Proof.
  unfold Advanced._calculate_model_confidence. apply clamp_range. lra.
Qed.

Lemma base_confidence_range (model_name : string) :
  0.75 <= Production.base_confidence model_name <= 0.87.
Proof.
  unfold Production.base_confidence.
  repeat match goal with |- context [if ?b then _ else _] => destruct b end; lra.
Qed.

(** C6 (as stated).  The advanced scorer is not adjusted for the volume
    ratio or the gas trend: on a row where both tests of the production
    scorer fire it returns its prior 0.85 unchanged, where the
    production scorer returns 0.87 - 0.08 - 0.06. *)
Lemma C6_advanced_scorer_ignores_volume_and_gas :
  Qltb 2.0 (volume_ratio MoreSamples.busy_congested) = true
  /\ Qltb 0.7 (Qabs (gas_trend MoreSamples.busy_congested)) = true
  /\ Advanced._calculate_model_confidence "random_forest" MoreSamples.busy_congested
     == 0.85
  /\ Production._calculate_model_confidence "random_forest" MoreSamples.busy_congested
     == 0.73.
Proof.
  repeat split.
Qed.

(** C6 (amended).  The production scorer returns, for every model name
    and feature vector, the prior of its table (0.87, 0.84, 0.81, and
    0.75 for any other name) plus the adjustments, clamped to
    [0.4, 0.95]; the adjustments are a volatility term (-0.15 above 20,
    -0.08 above 12, +0.05 below 2), -0.08 for a volume ratio above 2 or
    below 0.4, and -0.06 for a gas trend of magnitude above 0.7, and
    only the low-volatility term is positive.  The advanced scorer
    returns the prior of its own table (0.85, 0.80, 0.88, 0.86, 0.82,
    and 0.75 for any other name) plus a volatility term only (-0.1
    above 15, +0.05 below 2), clamped to [0.5, 0.95]: it depends on the
    feature vector through the volatility alone. *)
Theorem C6_confidence_in_range (model_name : string) (fv : FeatureVector) :
  0.4 <= Production._calculate_model_confidence model_name fv <= 0.95
  /\ Production._calculate_model_confidence model_name fv
     = py_max 0.4
         (py_min (Scorer.prior Scorer.production_priors 0.75 model_name
                  + Production.confidence_adjustments fv) 0.95)
  /\ Production.confidence_adjustments fv
     == (if Qltb 20 (volatility fv) then -0.15
         else if Qltb 12 (volatility fv) then -0.08
         else if Qltb (volatility fv) 2 then 0.05 else 0)
        + (if Qltb 2.0 (volume_ratio fv) || Qltb (volume_ratio fv) 0.4 then -0.08 else 0)
        + (if Qltb 0.7 (Qabs (gas_trend fv)) then -0.06 else 0)
  /\ (Qltb (volatility fv) 2 = false -> Production.confidence_adjustments fv <= 0)
  /\ 0.5 <= Advanced._calculate_model_confidence model_name fv <= 0.95
  /\ Advanced._calculate_model_confidence model_name fv
     = py_max 0.5
         (py_min (Scorer.prior Scorer.advanced_priors 0.75 model_name
                  + (if Qltb 15 (volatility fv) then -0.1
                     else if Qltb (volatility fv) 2 then 0.05 else 0)) 0.95)
  /\ (forall fv' : FeatureVector,
        volatility fv' == volatility fv ->
        Advanced._calculate_model_confidence model_name fv'
        = Advanced._calculate_model_confidence model_name fv).
Proof.
  split; [apply production_confidence_range |].
  split.
  { unfold Production._calculate_model_confidence, Production.base_confidence,
      Scorer.prior, Scorer.production_priors.
    cbn [dict_lookup].
    repeat match goal with |- context [String.eqb ?a ?b] => destruct (String.eqb a b) end;
      reflexivity. }
  split.
  { unfold Production.confidence_adjustments.
    repeat match goal with |- context [if ?b then _ else _] => destruct b end; lra. }
  split.
  { intros E. unfold Production.confidence_adjustments. rewrite E.
    repeat match goal with |- context [if ?b then _ else _] => destruct b end; lra. }
  split; [apply advanced_confidence_range |].
  split.
  { unfold Advanced._calculate_model_confidence, Advanced.base_confidence,
      Scorer.prior, Scorer.advanced_priors.
    cbn [dict_lookup].
    repeat match goal with |- context [String.eqb ?a ?b] => destruct (String.eqb a b) end;
      reflexivity. }
  intros fv' E. unfold Advanced._calculate_model_confidence. cbv zeta.
  now rewrite (Qltb_l 15 E), (Qltb_r 2 E).
Qed.

Lemma C6_confidence_witness :
  Production.confidence_adjustments Samples.stormy <= 0.
Proof.
  exact (proj1 (proj2 (proj2 (proj2
           (C6_confidence_in_range "random_forest" Samples.stormy)))) eq_refl).
Defined.

(** ** Labelling oracle *)

Lemma production_oracle_range (cfg : Config) (fv : FeatureVector) (noise : Q) :
  0.05 <= Production.optimal_fee_with_noise cfg fv noise <= 2.5.
Proof.
  unfold Production.optimal_fee_with_noise. cbv zeta. apply clamp_range. lra.
Qed.

Lemma advanced_oracle_range (float_pow : Q -> Q -> Q) (cfg : Config)
    (fv : FeatureVector) (noise : Q) :
  0.05 <= Advanced.optimal_fee_with_noise float_pow cfg fv noise <= 3.0.
Proof.
  unfold Advanced.optimal_fee_with_noise. cbv zeta. apply clamp_range. lra.
Qed.

(** C4 (as stated, on the advanced variant).  With a noise draw of 3 the
    oracle of [ml_models.py] returns more than 2.5 on a calm market,
    whatever the float power function computes. *)
Lemma C4_advanced_oracle_exceeds :
  ~ exists float_pow : Q -> Q -> Q,
      Advanced.optimal_fee_with_noise float_pow default_config Samples.calm 3 <= 2.5.
Proof.
  intros [float_pow H]. vm_compute in H. apply H. reflexivity.
Qed.

(** C4 (amended).  For every feature vector and every noise value the
    production oracle returns a fee in [0.05, 2.5], also when the noise
    is drawn from the generator; the advanced oracle returns a fee in
    [0.05, 3.0]. *)
Theorem C4_oracle_range (cfg : Config) (fv : FeatureVector) (noise : Q) :
  0.05 <= Production.optimal_fee_with_noise cfg fv noise <= 2.5
  /\ (forall (R : NumpyRandom) (s : rng_state),
        0.05 <= fst (ProductionGenerator._calculate_sophisticated_optimal_fee cfg fv s)
             <= 2.5)
  /\ (forall float_pow : Q -> Q -> Q,
        0.05 <= Advanced.optimal_fee_with_noise float_pow cfg fv noise <= 3.0).
Proof.
  split; [apply production_oracle_range |].
  split; [| intro; apply advanced_oracle_range].
  intros R s. unfold ProductionGenerator._calculate_sophisticated_optimal_fee, rbind, rret.
  destruct (rng_normal 0 0.015 s) as [n s']. cbn [fst].
  apply production_oracle_range.
Qed.

(** ** Feature extraction *)

Lemma bind_Ok {A B : Type} (c : exc A) (k : A -> exc B) (b : B) :
  bind c k = Ok b -> exists a, c = Ok a /\ k a = Ok b.
Proof.
  destruct c as [a | e]; cbn; intro H; [now exists a | discriminate].
Qed.

Lemma as_num_at (d : pydict) (k : string) (default : Q) :
  Snapshot.numeric_or_absent d k = true ->
  as_num (match dict_lookup d k with Some v => v | None => PNum default end)
  = Ok (Snapshot.number_at d k default).
Proof.
  unfold Snapshot.numeric_or_absent, Snapshot.number_at.
  destruct (dict_lookup d k) as [[| q | s | d'] |]; cbn; intro H;
    try discriminate; reflexivity.
Qed.

Lemma as_num_not_at (d : pydict) (k : string) (default : Q) :
  Snapshot.numeric_or_absent d k = false ->
  exists e, as_num (match dict_lookup d k with Some v => v | None => PNum default end)
            = Raise e.
Proof.
  unfold Snapshot.numeric_or_absent.
  destruct (dict_lookup d k) as [[| q | s | d'] |]; cbn; intro H;
    try discriminate; now exists TypeError.
Qed.

(** A snapshot without a usable coingecko value yields no features. *)
Lemma extract_lacking (now : datetime) (d : pydict) :
  Snapshot.lacks_coingecko d = true ->
  Production._extract_features_from_market_data now (PDict d) = None.
Proof.
  unfold Snapshot.lacks_coingecko, Production._extract_features_from_market_data,
    Production.extract_features_body.
  cbn [py_get bind].
  destruct (dict_lookup d "coingecko") as [v |]; intro H.
  - now rewrite H.
  - reflexivity.
Qed.

(** On a readable snapshot the gas price read by the codec. *)
Lemma gas_read (d : pydict) :
  Snapshot.gas_readable d = true ->
  bind (if truthy (match dict_lookup d "network" with Some v => v | None => PDict [] end)
        then py_get (match dict_lookup d "network" with Some v => v | None => PDict [] end)
               "gas_price_gwei" (PNum 28)
        else Ok (PNum 28)) as_num
  = Ok (Snapshot.gas_of d).
Proof.
  unfold Snapshot.gas_readable, Snapshot.gas_of.
  destruct (dict_lookup d "network") as [[| q | s | nw] |]; intro H;
    try reflexivity.
  - apply negb_true_iff in H. now rewrite H.
  - apply negb_true_iff in H. now rewrite H.
  - destruct nw as [| kv nw]; [reflexivity |].
    cbn [truthy py_get bind]. now apply as_num_at.
Qed.

Lemma gas_unread (d : pydict) :
  Snapshot.gas_readable d = false ->
  exists e,
    bind (if truthy (match dict_lookup d "network" with Some v => v | None => PDict [] end)
          then py_get (match dict_lookup d "network" with Some v => v | None => PDict [] end)
                 "gas_price_gwei" (PNum 28)
          else Ok (PNum 28)) as_num
    = Raise e.
Proof.
  unfold Snapshot.gas_readable.
  destruct (dict_lookup d "network") as [[| q | s | nw] |]; intro H;
    try discriminate.
  - apply negb_false_iff in H. rewrite H. now exists AttributeError.
  - apply negb_false_iff in H. rewrite H. now exists AttributeError.
  - destruct nw as [| kv nw]; [discriminate |].
    cbn [truthy py_get bind]. now apply as_num_not_at.
Qed.

Lemma as_num_at_inv (d : pydict) (k : string) (default q : Q) :
  as_num (match dict_lookup d k with Some v => v | None => PNum default end) = Ok q ->
  Snapshot.numeric_or_absent d k = true /\ q = Snapshot.number_at d k default.
Proof.
  unfold Snapshot.numeric_or_absent, Snapshot.number_at.
  destruct (dict_lookup d k) as [[| q' | s | d'] |]; cbn; intro H;
    try discriminate; split; congruence.
Qed.

Lemma gas_value (d : pydict) :
  Snapshot.gas_readable d = true ->
  exists gv,
    (if truthy (match dict_lookup d "network" with Some v => v | None => PDict [] end)
     then py_get (match dict_lookup d "network" with Some v => v | None => PDict [] end)
            "gas_price_gwei" (PNum 28)
     else Ok (PNum 28)) = Ok gv
    /\ as_num gv = Ok (Snapshot.gas_of d).
Proof.
  intro H. apply gas_read in H. now apply bind_Ok in H.
Qed.

Lemma gas_value_inv (d : pydict) (gv : pyval) (q : Q) :
  (if truthy (match dict_lookup d "network" with Some v => v | None => PDict [] end)
   then py_get (match dict_lookup d "network" with Some v => v | None => PDict [] end)
          "gas_price_gwei" (PNum 28)
   else Ok (PNum 28)) = Ok gv ->
  as_num gv = Ok q ->
  Snapshot.gas_readable d = true.
Proof.
  intros Hg Hn.
  destruct (Snapshot.gas_readable d) eqn:E; [reflexivity |].
  destruct (gas_unread d E) as [e He].
  rewrite Hg in He. cbn in He. congruence.
Qed.

(** What the codec computes on a readable snapshot. *)
Lemma extract_readable (now : datetime) (d cg : pydict) :
  dict_lookup d "coingecko" = Some (PDict cg) ->
  cg <> [] ->
  Snapshot.fields_numeric cg = true ->
  Snapshot.gas_readable d = true ->
  let vol := Snapshot.number_at cg "volatility" 0 in
  let volume := Snapshot.number_at cg "volume_24h" 0 in
  let change := Snapshot.number_at cg "price_change_24h" 0 in
  let cap := Snapshot.number_at cg "market_cap" 0 in
  let gas := Snapshot.gas_of d in
  Production._extract_features_from_market_data now (PDict d)
  = Some {| volatility := vol;
            volume_24h := volume;
            price_change_1h := change * 0.08;
            price_change_24h := change;
            market_cap := cap;
            gas_price_gwei := gas;
            liquidity_score :=
              if Qltb 0 cap then volume / py_max cap 1 * 100 else 0;
            hour_of_day := hour_of (hour_index now);
            day_of_week := weekday_of (hour_index now);
            volume_ma_7d := volume * 0.92;
            volatility_ma_7d := vol * 1.08;
            price_momentum := change * 1.15;
            volume_ratio :=
              if Qltb 0 (volume * 0.92) then volume / (volume * 0.92) else 1.0;
            gas_trend := (gas - 28) / 372 |}.
Proof.
  intros Hcg Hne Hnum Hgas. cbv zeta.
  unfold Snapshot.fields_numeric in Hnum.
  apply andb_true_iff in Hnum as [Hnum Hcap].
  apply andb_true_iff in Hnum as [Hnum Hchange].
  apply andb_true_iff in Hnum as [Hvol Hvolume].
  destruct (gas_value d Hgas) as (gv & Hgv & Hgq).
  unfold Production._extract_features_from_market_data, Production.extract_features_body.
  cbn [py_get bind]. rewrite Hcg.
  destruct cg as [| kv cg]; [contradiction |].
  cbn [truthy negb]. cbn [py_get bind].
  rewrite Hgv. cbn [bind].
  rewrite (as_num_at _ _ 0 Hcap). cbn [bind].
  rewrite (as_num_at _ _ 0 Hvolume).
  rewrite (as_num_at _ _ 0 Hchange). cbn [bind].
  rewrite (as_num_at _ _ 0 Hvol). cbn [bind].
  rewrite Hgq. cbn [bind].
  destruct (Qltb 0 (Snapshot.number_at (kv :: cg) "market_cap" 0)); reflexivity.
Qed.

(** Features come out of readable snapshots only. *)
Lemma extract_Some_readable (now : datetime) (market_data : pyval) (fv : FeatureVector) :
  Production._extract_features_from_market_data now market_data = Some fv ->
  Snapshot.readable market_data = true.
Proof.
  unfold Production._extract_features_from_market_data, try_except.
  destruct (Production.extract_features_body now market_data) as [r | e] eqn:B;
    [intros -> | discriminate].
  unfold Production.extract_features_body in B.
  destruct market_data as [| q | s | d]; try discriminate.
  cbn [py_get bind] in B. unfold Snapshot.readable.
  destruct (dict_lookup d "coingecko") as [[| q | s | cg] |]; cbn [truthy negb] in B;
    try discriminate.
  - destruct (negb (negb (Qeqb q 0))); discriminate.
  - destruct (negb (negb (s =? ""))); discriminate.
  - destruct cg as [| kv cg]; [discriminate |].
    cbn [py_get bind] in B.
    apply bind_Ok in B as (gv & Hgv & B).
    apply bind_Ok in B as (cap & Hcap & B).
    apply bind_Ok in B as (liq & _ & B).
    apply bind_Ok in B as (change & Hchange & B).
    apply bind_Ok in B as (volume & Hvolume & B).
    apply bind_Ok in B as (vol & Hvol & B).
    apply bind_Ok in B as (gas & Hgas & _).
    apply as_num_at_inv in Hcap as [Hcap _], Hchange as [Hchange _],
      Hvolume as [Hvolume _], Hvol as [Hvol _].
    unfold Snapshot.fields_numeric.
    rewrite Hcap, Hchange, Hvolume, Hvol. cbn [andb].
    exact (gas_value_inv d gv gas Hgv Hgas).
Qed.

Lemma readable_inv (market_data : pyval) :
  Snapshot.readable market_data = true ->
  exists d cg,
    market_data = PDict d /\ dict_lookup d "coingecko" = Some (PDict cg) /\ cg <> []
    /\ Snapshot.fields_numeric cg = true /\ Snapshot.gas_readable d = true.
Proof.
  unfold Snapshot.readable.
  destruct market_data as [| q | s | d]; try discriminate.
  destruct (dict_lookup d "coingecko") as [[| q | s | [| kv cg]] |] eqn:E;
    try discriminate.
  intro H. apply andb_true_iff in H as [H1 H2].
  exists d, (kv :: cg).
  split; [reflexivity |]. split; [exact E |]. split; [discriminate |]. now split.
Qed.


(** A readable snapshot whose volume is an integer beyond the float
    range is not float-sized; it lies outside the second and the fourth
    part of the statement below. *)
Lemma huge_volume_not_float_sized :
  Snapshot.readable MoreSamples.huge_volume = true
  /\ Snapshot.float_sized MoreSamples.huge_volume = false.
Proof.
  split; vm_compute; reflexivity.
Qed.



Lemma extract_Some_inv (now : datetime) (market_data : pyval) (fv : FeatureVector) :
  Production._extract_features_from_market_data now market_data = Some fv ->
  gas_trend fv = (gas_price_gwei fv - 28) / 372
  /\ liquidity_score fv
     = (if Qltb 0 (market_cap fv)
        then volume_24h fv / py_max (market_cap fv) 1 * 100 else 0).
Proof.
  intro H. pose proof (extract_Some_readable _ _ _ H) as E.
  apply readable_inv in E as (d & cg & -> & Hcg & Hne & Hnum & Hgas).
  rewrite (extract_readable now d cg Hcg Hne Hnum Hgas) in H.
  injection H as <-. split; reflexivity.
Qed.

(** The derived fields of a generated row. *)
Lemma generate_row_derived (R : NumpyRandom) (start_date : Z) (i : nat)
    (data : list FeatureVector) (s : rng_state) :
  let row := fst (ProductionGenerator.generate_row start_date i data s) in
  gas_trend row = (gas_price_gwei row - 28) / 372
  /\ liquidity_score row = volume_24h row / market_cap row * 100
  /\ 15000000000 <= market_cap row
  /\ hour_of_day row = hour_of (start_date + Z.of_nat i).
Proof.
  cbv zeta. unfold ProductionGenerator.generate_row, rbind, rret.
  repeat match goal with
         | |- context [let (_, _) := ?c in _] => destruct c
         | |- context [if ?b then _ else _] => destruct b
         end;
    cbn [fst gas_trend gas_price_gwei liquidity_score volume_24h market_cap hour_of_day];
    (split; [reflexivity | split; [reflexivity | split; [apply py_max_ge_l | reflexivity]]]).
Qed.

(** C7 (as stated).  A snapshot with a volume and no market
    capitalisation is accepted by the codec, and its liquidity score is
    0, not volume_24h / max(market_cap, 1) * 100. *)
Lemma C7_liquidity_guard_counterexample :
  match Production._extract_features_from_market_data Samples.noon Samples.no_market_cap with
  | Some fv =>
      ~ liquidity_score fv == volume_24h fv / py_max (market_cap fv) 1 * 100
  | None => False
  end.
Proof.
  vm_compute. discriminate.
Qed.

(** C7 (amended).  For every snapshot the codec accepts, gas_trend is
    (gas_price_gwei - 28) / 372 and liquidity_score is
    volume_24h / max(market_cap, 1) * 100 when market_cap > 0 and 0
    otherwise.  Every row of the synthetic generator has gas_trend =
    (gas_price_gwei - 28) / 372 and liquidity_score =
    volume_24h / market_cap * 100 with market_cap at least 15e9, and the
    two liquidity formulas coincide whenever market_cap is at least 1. *)
Theorem C7_codec_derived_fields (now : datetime) (market_data : pyval)
    (fv : FeatureVector) :
  Production._extract_features_from_market_data now market_data = Some fv ->
  gas_trend fv = (gas_price_gwei fv - 28) / 372
  /\ liquidity_score fv
     = (if Qltb 0 (market_cap fv)
        then volume_24h fv / py_max (market_cap fv) 1 * 100 else 0)
  /\ (1 <= market_cap fv -> liquidity_score fv = volume_24h fv / market_cap fv * 100)
  /\ (forall (R : NumpyRandom) start_date i data (s : rng_state),
        let row := fst (ProductionGenerator.generate_row start_date i data s) in
        gas_trend row = (gas_price_gwei row - 28) / 372
        /\ liquidity_score row = volume_24h row / market_cap row * 100
        /\ liquidity_score row = volume_24h row / py_max (market_cap row) 1 * 100).
Proof.
  intro H. destruct (extract_Some_inv _ _ _ H) as [Hg Hl].
  split; [exact Hg |]. split; [exact Hl |]. split.
  - intro Hcap. rewrite Hl.
    assert (E0 : Qltb 0 (market_cap fv) = true) by (apply Qltb_lt; lra).
    assert (E1 : Qltb (market_cap fv) 1 = false) by (apply Qltb_ge; exact Hcap).
    unfold py_max. now rewrite E0, E1.
  - intros R start_date i data s row.
    destruct (generate_row_derived R start_date i data s) as (G & L & C & _).
    fold row in G, L, C.
    split; [exact G |]. split; [exact L |].
    assert (E1 : Qltb (market_cap row) 1 = false) by (apply Qltb_ge; lra).
    unfold py_max. now rewrite E1.
Qed.

Lemma C7_codec_witness :
  exists fv,
    Production._extract_features_from_market_data Samples.noon Samples.no_network = Some fv
    /\ liquidity_score fv = volume_24h fv / market_cap fv * 100.
Proof.
  eexists. split; [reflexivity |].
  apply (C7_codec_derived_fields Samples.noon Samples.no_network _ eq_refl).
  vm_compute. discriminate.
Defined.

(** ** The prediction entry point *)

(** C1. When the snapshot handed to [predict_optimal_fee] (or, if none
    is handed over, the snapshot the collaborator supplies) has no
    usable coingecko sub-record, the call returns the fallback record:
    primary_model is "fallback", recommended_fee is BASE_FEE_RATE and
    confidence is 0.4; no exception leaves the call. *)
Theorem C1_fallback_without_coingecko (cfg : Config) (np_sqrt : Q -> Q)
    (get_live_market_data : exc pyval)
    (train_models : Predictor.state -> exc Predictor.state)
    (self : Predictor.state) (now : datetime) (market_data : pyval) (d : pydict) :
  market_data = PDict d \/ (market_data = PNone /\ get_live_market_data = Ok (PDict d)) ->
  Snapshot.lacks_coingecko d = true ->
  let result :=
    Predictor.predict_optimal_fee cfg np_sqrt get_live_market_data train_models
      self now market_data in
  result = Production._fallback_prediction cfg now
  /\ dict_lookup result "primary_model" = Some (PStr "fallback")
  /\ dict_lookup result "recommended_fee" = Some (PNum (BASE_FEE_RATE cfg))
  /\ dict_lookup result "confidence" = Some (PNum 0.4).
Proof.
  intros Hmd Hlack result.
  assert (E : result = Production._fallback_prediction cfg now).
  { subst result. unfold Predictor.predict_optimal_fee, Predictor.predict_body.
    destruct Hmd as [-> | [-> ->]]; cbn [bind];
      now rewrite (extract_lacking now d Hlack). }
  rewrite E. repeat split.
Qed.

Lemma C1_fallback_witness :
  dict_lookup
    (Predictor.predict_optimal_fee default_config approx_sqrt Samples.offline
       Samples.retrain Samples.trained Samples.noon Samples.empty_snapshot)
    "primary_model"
  = Some (PStr "fallback").
Proof.
  apply (C1_fallback_without_coingecko default_config approx_sqrt Samples.offline
           Samples.retrain Samples.trained Samples.noon Samples.empty_snapshot []).
  - left. reflexivity.
  - reflexivity.
Defined.

(** A result that is not the fallback record is a full record. *)
Lemma predict_body_Ok (cfg : Config) (np_sqrt : Q -> Q)
    (get_live_market_data : exc pyval)
    (train_models : Predictor.state -> exc Predictor.state)
    (self : Predictor.state) (now : datetime) (market_data : pyval) (r : pydict) :
  Predictor.predict_body cfg np_sqrt get_live_market_data train_models self now market_data
  = Ok r ->
  r = Production._fallback_prediction cfg now
  \/ dict_keys r = Predictor.full_fields.
Proof.
  unfold Predictor.predict_body. intro H.
  apply bind_Ok in H as (md & _ & H).
  destruct (Production._extract_features_from_market_data now md) as [fv |].
  - apply bind_Ok in H as (self' & _ & H).
    destruct (Predictor.collect_predictions (Predictor.models self') fv [] [])
      as [predictions confidences].
    destruct predictions as [| p predictions].
    + left. congruence.
    + apply bind_Ok in H as (b & _ & H).
      apply bind_Ok in H as (reasoning & _ & H).
      right. injection H as <-. reflexivity.
  - left. congruence.
Qed.

(** On a readable snapshot a trained predictor answers with a full
    record; the member that raises is left out of both maps. *)
Example predict_isolates_failing_member :
  let result :=
    Predictor.predict_optimal_fee default_config approx_sqrt Samples.offline
      Samples.retrain Samples.trained Samples.noon Samples.no_network in
  dict_keys result = Predictor.full_fields
  /\ dict_lookup result "all_predictions"
     = Some (PDict (Predictor.rounded 4 Samples.two_predictions))
  /\ dict_lookup result "market_condition" = Some (PStr "moderate").
Proof.
  vm_compute. repeat split.
Qed.

(** C5 (as stated).  On the empty snapshot the returned record has no
    all_predictions field (nor ensemble_prediction, model_confidences,
    features_used). *)
Lemma C5_fallback_lacks_fields :
  let result :=
    Predictor.predict_optimal_fee default_config approx_sqrt Samples.offline
      Samples.retrain Samples.trained Samples.noon Samples.empty_snapshot in
  Predictor.has_fields Predictor.full_fields result = false
  /\ dict_mem result "all_predictions" = false.
Proof.
  split; reflexivity.
Qed.

(** C5 (amended).  For every input -- whatever the snapshot, the
    collaborator, the training run and the members do, raising
    included -- [predict_optimal_fee] returns a record carrying
    recommended_fee, confidence, reasoning, market_condition,
    primary_model and prediction_timestamp; the record is either the
    fallback record, which has exactly these six fields, or a full
    record with the ten fields in their order. *)
Theorem C5_predict_always_returns_record (cfg : Config) (np_sqrt : Q -> Q)
    (get_live_market_data : exc pyval)
    (train_models : Predictor.state -> exc Predictor.state)
    (self : Predictor.state) (now : datetime) (market_data : pyval) :
  let result :=
    Predictor.predict_optimal_fee cfg np_sqrt get_live_market_data train_models
      self now market_data in
  Predictor.has_fields Predictor.common_fields result = true
  /\ (result = Production._fallback_prediction cfg now
      \/ dict_keys result = Predictor.full_fields)
  /\ dict_keys (Production._fallback_prediction cfg now) = Predictor.common_fields.
Proof.
  cbv zeta. unfold Predictor.predict_optimal_fee, try_except.
  destruct (Predictor.predict_body cfg np_sqrt get_live_market_data train_models
              self now market_data) as [r | e] eqn:B.
  - apply predict_body_Ok in B as [-> | K].
    + split; [reflexivity |]. split; [now left | reflexivity].
    + split; [| split; [now right | reflexivity]].
      destruct r as [| [k0 v0] [| [k1 v1] [| [k2 v2] [| [k3 v3] [| [k4 v4] [| [k5 v5]
        [| [k6 v6] [| [k7 v7] [| [k8 v8] [| [k9 v9] [| kv r]]]]]]]]]]];
        try discriminate.
      cbn in K. injection K as -> -> -> -> -> -> -> -> -> ->. reflexivity.
  - split; [reflexivity |]. split; [now left | reflexivity].
Qed.

(** ** Ensemble blender *)

Lemma dict_lookup_In {V : Type} (d : list (string * V)) (k : string) :
  In k (dict_keys d) -> exists v, dict_lookup d k = Some v.
Proof.
  induction d as [| [k' v'] d IH]; cbn; [contradiction |].
  intros [-> | H].
  - rewrite String.eqb_refl. now exists v'.
  - destruct (String.eqb k k'); [now exists v' | now apply IH].
Qed.

Lemma dict_lookup_keys {V : Type} (d : list (string * V)) (k : string) (v : V) :
  dict_lookup d k = Some v -> In k (dict_keys d).
Proof.
  induction d as [| [k' v'] d IH]; cbn; [discriminate |].
  destruct (String.eqb_spec k k') as [-> | N]; intro H; [now left | right; now apply IH].
Qed.

(** Every prediction has its confidence: the weights are all found. *)
Lemma weighted_terms_Ok (predictions confidences : list (string * Q)) :
  (forall k, In k (dict_keys predictions) -> In k (dict_keys confidences)) ->
  Production.weighted_terms predictions confidences
  = Ok (map (fun kv => snd kv *
               match dict_lookup confidences (fst kv) with Some c => c | None => 0 end)
            predictions).
Proof.
  induction predictions as [| [k p] rest IH]; intro H; [reflexivity |].
  cbn [Production.weighted_terms map fst snd].
  destruct (dict_lookup_In confidences k) as [c Hc]; [apply H; now left |].
  unfold dict_index. rewrite Hc. cbn [bind].
  rewrite IH; [reflexivity |]. intros k' Hk'. apply H. now right.
Qed.

(** C3 (as stated).  With no best model recorded, predictions 0.2 and
    0.4 and confidences 0.87 and 0.84, the final fee is the plain mean
    0.3, not the confidence-weighted mean 0.51 / 1.71. *)
Lemma C3_unweighted_mean_counterexample :
  match Production.blend None Samples.two_predictions Samples.two_confidences with
  | Ok b =>
      Production.final_prediction b == 0.3
      /\ ~ Production.final_prediction b
           == py_max 0.05
                (py_min (Production.confidence_weighted_mean
                           Samples.two_predictions Samples.two_confidences) 2.5)
  | Raise _ => False
  end.
Proof.
  vm_compute. split; [reflexivity | discriminate].
Qed.

(** C3 (amended).  For every non-empty map of predictions whose members
    all have a confidence, the blender succeeds and the final fee is the
    clamp to [0.05, 2.5] of the primary prediction, which is the
    best_model_name member's raw prediction when that name is set and
    present in the prediction map, and the unweighted arithmetic mean of
    all available predictions otherwise; the confidence-weighted mean is
    what ensemble_prediction reports when the weights sum to a positive
    number. *)
Theorem C3_blend_primary_policy (best_model_name : option string)
    (predictions confidences : list (string * Q)) :
  predictions <> [] ->
  dict_keys confidences = dict_keys predictions ->
  exists b,
    Production.blend best_model_name predictions confidences = Ok b
    /\ Production.final_prediction b
       = py_max 0.05 (py_min (Production.primary_prediction b) 2.5)
    /\ 0.05 <= Production.final_prediction b <= 2.5
    /\ (forall name p,
          best_model_name = Some name -> name <> "" ->
          dict_lookup predictions name = Some p ->
          Production.primary_prediction b = p)
    /\ ((match best_model_name with
         | Some name => name = "" \/ dict_lookup predictions name = None
         | None => True
         end) ->
        Production.primary_prediction b = np_mean (dict_values predictions))
    /\ (0 < py_sum (dict_values confidences) ->
        Production.ensemble_prediction b
        = Production.confidence_weighted_mean predictions confidences).
Proof.
  intros Hne Hkeys.
  assert (Hsub : forall k, In k (dict_keys predictions) -> In k (dict_keys confidences))
    by (intros k Hk; now rewrite Hkeys).
  unfold Production.blend.
  rewrite (weighted_terms_Ok _ _ Hsub).
  (* the primary pair *)
  set (mean_pair := (np_mean (dict_values predictions), np_mean (dict_values confidences))).
  assert (Hprimary : exists primary,
    match best_model_name with
    | Some b =>
        if Production.name_truthy best_model_name && dict_mem predictions b
        then p <- dict_index predictions b;; c <- dict_index confidences b;; Ok (p, c)
        else Ok mean_pair
    | None => Ok mean_pair
    end = Ok primary
    /\ (forall name p, best_model_name = Some name -> name <> "" ->
          dict_lookup predictions name = Some p -> fst primary = p)
    /\ ((match best_model_name with
         | Some name => name = "" \/ dict_lookup predictions name = None
         | None => True
         end) -> fst primary = np_mean (dict_values predictions))).
  { destruct best_model_name as [name |].
    - cbn [Production.name_truthy]. unfold dict_mem, dict_index.
      destruct (String.eqb_spec name "") as [-> | Hname]; cbn [negb andb].
      + exists mean_pair. split; [reflexivity |]. split; [| reflexivity].
        intros n p [= <-] N. congruence.
      + destruct (dict_lookup predictions name) as [p |] eqn:Hp.
        * destruct (dict_lookup_In confidences name) as [c Hc];
            [apply Hsub; now apply dict_lookup_keys in Hp |].
          rewrite Hc. cbn [bind]. exists (p, c). split; [reflexivity |]. split.
          -- intros n q [= <-] _ Hq. cbn. congruence.
          -- intros [E | E]; congruence.
        * exists mean_pair. split; [reflexivity |]. split; [| reflexivity].
          intros n q [= <-] _ Hq. congruence.
    - exists mean_pair. split; [reflexivity |]. split; [| reflexivity].
      intros n p E. discriminate. }
  destruct Hprimary as (primary & -> & Hbest & Hmean). cbn [bind].
  destruct (Qltb_spec 0 (py_sum (dict_values confidences))) as [Hw | Hw]; cbn [bind];
    eexists; (split; [reflexivity |]);
    cbn [Production.final_prediction Production.primary_prediction
         Production.ensemble_prediction];
    (split; [reflexivity |]); (split; [apply clamp_range; lra |]);
    (split; [exact Hbest |]); (split; [exact Hmean |]).
  - intros _. reflexivity.
  - intro H. contradiction.
Qed.

Lemma C3_blend_witness :
  exists b,
    Production.blend (Some "gradient_boosting") Samples.two_predictions
      Samples.two_confidences = Ok b
    /\ Production.primary_prediction b = 0.4.
Proof.
  destruct (C3_blend_primary_policy (Some "gradient_boosting") Samples.two_predictions
              Samples.two_confidences) as (b & Hb & _ & _ & Hbest & _).
  - discriminate.
  - reflexivity.
  - exists b. split; [exact Hb |].
    apply (Hbest "gradient_boosting"); [reflexivity | discriminate | reflexivity].
Defined.

(** The prediction loop keeps the two maps on the same keys, so the
    blender's hypothesis holds where [predict_optimal_fee] calls it. *)
Lemma dict_set_keys {V W : Type} (d : list (string * V)) (d' : list (string * W))
    (k : string) (v : V) (w : W) :
  dict_keys d = dict_keys d' -> dict_keys (dict_set d k v) = dict_keys (dict_set d' k w).
Proof.
  revert d'. induction d as [| [k1 v1] d IH]; intros [| [k2 v2] d']; cbn;
    try discriminate; [reflexivity |].
  intros [= <- H]. destruct (String.eqb k k1); cbn; [now rewrite H |].
  f_equal. now apply IH.
Qed.

Lemma collect_predictions_keys (ms : list (string * option Predictor.member))
    (fv : FeatureVector) (predictions confidences : list (string * Q)) :
  dict_keys confidences = dict_keys predictions ->
  dict_keys (snd (Predictor.collect_predictions ms fv predictions confidences))
  = dict_keys (fst (Predictor.collect_predictions ms fv predictions confidences)).
Proof.
  revert predictions confidences.
  induction ms as [| [name [model |]] ms IH]; intros predictions confidences H; cbn.
  - exact H.
  - destruct (model fv) as [pred | e]; cbn.
    + apply IH. now apply dict_set_keys.
    + now apply IH.
  - now apply IH.
Qed.

(** ** Reasoning generator *)

Lemma append_step2 {A : Type} (c1 c2 : bool) (a b : A) (reasons : list A) :
  (if c1 then py_append reasons a else if c2 then py_append reasons b else reasons)
  = (reasons ++ Reasoning.present
       [if c1 then Some a else if c2 then Some b else None])%list.
Proof.
  destruct c1, c2; cbn; unfold py_append; now rewrite ?app_nil_r.
Qed.

Lemma append_step3 {A : Type} (c1 c2 c3 : bool) (a b c : A) (reasons : list A) :
  (if c1 then py_append reasons a
   else if c2 then py_append reasons b
   else if c3 then py_append reasons c else reasons)
  = (reasons ++ Reasoning.present
       [if c1 then Some a else if c2 then Some b else if c3 then Some c else None])%list.
Proof.
  destruct c1, c2, c3; cbn; unfold py_append; now rewrite ?app_nil_r.
Qed.

Lemma present_app {A : Type} (l l' : list (option A)) :
  Reasoning.present (l ++ l') = (Reasoning.present l ++ Reasoning.present l')%list.
Proof.
  induction l as [| [a |] l IH]; cbn; [reflexivity | now rewrite IH | exact IH].
Qed.

Lemma py_div_Ok (a b : Q) : ~ b == 0 -> py_div a b = Ok (a / b).
Proof.
  intro H. unfold py_div, Qeqb.
  destruct (Qeq_bool b 0) eqn:E; [| reflexivity].
  apply Qeq_bool_iff in E. contradiction.
Qed.

(** The list the source builds is the list of the present
    justifications, in the order of [reason_order]. *)
Lemma reasoning_is_ordered (np_sqrt : Q -> Q) (cfg : Config) (fv : FeatureVector)
    (predictions : list (string * Q)) (final : Q) :
  ~ BASE_FEE_RATE cfg == 0 ->
  Reasoning._generate_production_reasoning np_sqrt cfg fv predictions final
  = Ok (join ". " (Reasoning.ordered_reasons np_sqrt cfg fv predictions final) ++ ".").
Proof.
  intro Hbase.
  unfold Reasoning._generate_production_reasoning. cbv zeta.
  rewrite (py_div_Ok _ _ Hbase). cbn [bind].
  apply (f_equal (fun reasons => Ok (join ". " reasons ++ "."))).
  unfold Reasoning.ordered_reasons, Reasoning.reason_order.
  destruct predictions as [| kv rest];
    cbn [map Reasoning.reason_for];
    rewrite !append_step3, !append_step2;
    rewrite app_nil_l, <- !present_app;
    reflexivity.
Qed.

Lemma reason_present_iff (np_sqrt : Q -> Q) (cfg : Config) (fv : FeatureVector)
    (predictions : list (string * Q)) (final : Q) (k : Reasoning.reason_kind) :
  Reasoning.reason_for np_sqrt cfg fv predictions final k <> None
  <-> Reasoning.reason_condition np_sqrt cfg fv predictions final k = true.
Proof.
  destruct k; cbn [Reasoning.reason_for Reasoning.reason_condition].
  - destruct predictions as [| kv rest]; [split; [congruence | discriminate] |].
    destruct (Qltb _ 0.05), (Qltb 0.15 _); cbn; split; congruence.
  - destruct (Qltb_spec 15 (volatility fv)) as [H15 | H15].
    + assert (E : Qltb 8 (volatility fv) = true) by (apply Qltb_lt; lra).
      rewrite E. cbn. split; congruence.
    + destruct (Qltb 8 (volatility fv)), (Qltb (volatility fv) 2); cbn; split; congruence.
  - destruct (Qltb 1.5 _), (Qltb _ 0.7); cbn; split; congruence.
  - destruct (Qltb 80 _), (Qltb _ 20); cbn; split; congruence.
  - unfold Z_in. cbn [existsb].
    destruct (Z.eqb _ 14), (Z.eqb _ 15), (Z.eqb _ 16), (Z.eqb _ 2), (Z.eqb _ 3),
      (Z.eqb _ 4), (Z.eqb _ 5); cbn; split; congruence.
  - cbv zeta. destruct (Qltb 1.5 _), (Qltb _ 0.8); cbn; split; congruence.
Qed.

(** C9. For every feature vector, prediction map and final fee (the
    configured base fee not being zero), the reasoning generator returns the justifications that are present, in the order
    model-agreement, volatility, volume/liquidity, network-congestion,
    time-of-day, fee-deviation, joined with ". " and closed by a period;
    a justification is present exactly when its threshold condition
    holds. *)
Theorem C9_reasoning_order_and_format (np_sqrt : Q -> Q) (cfg : Config)
    (fv : FeatureVector) (predictions : list (string * Q)) (final : Q) :
  ~ BASE_FEE_RATE cfg == 0 ->
  Reasoning._generate_production_reasoning np_sqrt cfg fv predictions final
  = Ok (join ". "
          (Reasoning.present
             (map (Reasoning.reason_for np_sqrt cfg fv predictions final)
                [Reasoning.ModelAgreement; Reasoning.VolatilityNote;
                 Reasoning.VolumeLiquidity; Reasoning.NetworkCongestion;
                 Reasoning.TimeOfDay; Reasoning.FeeDeviation]))
        ++ ".")
  /\ (forall k,
        Reasoning.reason_for np_sqrt cfg fv predictions final k <> None
        <-> Reasoning.reason_condition np_sqrt cfg fv predictions final k = true).
Proof.
  intro Hbase. split.
  - now apply reasoning_is_ordered.
  - apply reason_present_iff.
Qed.

Lemma C9_reasoning_witness :
  Reasoning._generate_production_reasoning approx_sqrt default_config Samples.stormy
    Samples.two_predictions 2.5
  = Ok "Extreme volatility (22.0%) increases trading risk. High network congestion (150 GWEI). Peak trading hours may increase volatility. Fee 733% above base rate due to market conditions.".
Proof.
  refine (eq_trans
            (proj1 (C9_reasoning_order_and_format approx_sqrt default_config Samples.stormy
                      Samples.two_predictions 2.5 _)) _).
  - vm_compute. discriminate.
  - vm_compute. reflexivity.
Defined.

(** ** Synthetic training-data generators *)

Section GeneratorFacts.
Context {R : NumpyRandom}.
Variable cfg : Config.

Lemma label_rows_features (rows : list FeatureVector) (s : rng_state) :
  map features (fst (ProductionGenerator.label_rows cfg rows s)) = rows.
Proof.
  revert s. induction rows as [| row rows IH]; intro s; [reflexivity |].
  cbn [ProductionGenerator.label_rows]. unfold rbind, rret.
  destruct (ProductionGenerator._calculate_sophisticated_optimal_fee cfg row s) as [fee s1].
  specialize (IH s1).
  destruct (ProductionGenerator.label_rows cfg rows s1) as [labelled s2].
  cbn in IH |- *. now rewrite IH.
Qed.

(** The rows keep what was there and append one row per iteration,
    stamped with the hour of its synthetic timestamp. *)
Lemma generate_rows_hours (start_date : Z) (remaining i : nat)
    (data : list FeatureVector) (s : rng_state) :
  exists rows,
    fst (ProductionGenerator.generate_rows start_date remaining i data s)
    = (data ++ rows)%list
    /\ map hour_of_day rows
       = map (fun j => hour_of (start_date + Z.of_nat j)) (seq i remaining).
Proof.
  revert i data s. induction remaining as [| remaining IH]; intros i data s.
  - exists []. cbn. now rewrite app_nil_r.
  - cbn [ProductionGenerator.generate_rows]. unfold rbind.
    pose proof (generate_row_derived R start_date i data s) as D. cbv zeta in D.
    destruct (ProductionGenerator.generate_row start_date i data s) as [row s1].
    cbn [fst] in D. destruct D as (_ & _ & _ & Hh).
    destruct (IH (S i) (py_append data row) s1) as (rows & E & H).
    exists (row :: rows). split.
    + rewrite E. unfold py_append. now rewrite <- app_assoc.
    + cbn [map seq]. now rewrite Hh, H.
Qed.

(** The hour column of the generated data set is a function of the
    wall clock alone. *)
Lemma generated_hours (now : datetime) (n : nat) (s : rng_state) :
  map (fun t => hour_of_day (features t))
      (fst (ProductionGenerator._generate_realistic_training_data cfg now n s))
  = map (fun j => hour_of (hour_index now - 8760 + Z.of_nat j)) (seq 0 n).
Proof.
  unfold ProductionGenerator._generate_realistic_training_data, rbind, seed.
  destruct (generate_rows_hours (hour_index now - 8760) n 0 [] (rng_seed 42))
    as (rows & E & H).
  destruct (ProductionGenerator.generate_rows (hour_index now - 8760) n 0 [] (rng_seed 42))
    as [data s1].
  cbn [fst app] in E. subst data.
  rewrite <- (map_map features hour_of_day), label_rows_features. exact H.
Qed.

(** [np.random.seed(42)] makes the data set independent of whatever
    state the generator was in: at one and the same clock reading, two
    runs agree. *)
Lemma production_generator_reseeds (now : datetime) (n : nat) (s1 s2 : rng_state) :
  fst (ProductionGenerator._generate_realistic_training_data cfg now n s1)
  = fst (ProductionGenerator._generate_realistic_training_data cfg now n s2).
Proof. reflexivity. Qed.

(** The sibling generator reads no clock: two runs always agree. *)
Lemma advanced_generator_deterministic (float_pow : Q -> Q -> Q) (n : nat)
    (s1 s2 : rng_state) :
  fst (Advanced._generate_advanced_training_data float_pow cfg n s1)
  = fst (Advanced._generate_advanced_training_data float_pow cfg n s2).
Proof. reflexivity. Qed.

(** Two runs whose clock readings fall in different hours of the day
    produce different data sets, as soon as one sample is asked for. *)
Lemma production_generator_clock (now1 now2 : datetime) (n : nat)
    (s1 s2 : rng_state) :
  hour_of (hour_index now1) <> hour_of (hour_index now2) ->
  fst (ProductionGenerator._generate_realistic_training_data cfg now1 (S n) s1)
  <> fst (ProductionGenerator._generate_realistic_training_data cfg now2 (S n) s2).
Proof.
  intros Hh E.
  apply (f_equal (map (fun t => hour_of_day (features t)))) in E.
  rewrite !generated_hours in E. cbn [seq map] in E.
  injection E as E _. apply Hh. unfold hour_of in *.
  rewrite !Z.add_0_r in E.
  replace (hour_index now1 - 8760)%Z with (hour_index now1 + (-365) * 24)%Z in E by lia.
  replace (hour_index now2 - 8760)%Z with (hour_index now2 + (-365) * 24)%Z in E by lia.
  now rewrite !Z.mod_add in E by lia.
Qed.
End GeneratorFacts.

(** C2 (production generator).  Asked for one sample at 12:00 and again
    at 13:00, [_generate_realistic_training_data] returns two different
    data sets although both runs seed the generator with 42 -- for every
    implementation of the samplers and from every generator state. *)
Theorem C2_production_generator_depends_on_clock (R : NumpyRandom) (cfg : Config)
    (s1 s2 : rng_state) :
  fst (ProductionGenerator._generate_realistic_training_data cfg Samples.noon 1 s1)
  <> fst (ProductionGenerator._generate_realistic_training_data cfg Samples.one_pm 1 s2).
Proof.
  apply production_generator_clock. vm_compute. discriminate.
Qed.

(* ================================================================== *)
(** * Further properties *)

(** ** The labelling oracle is monotone in gas trend and liquidity *)

Lemma clamp_mono (lo hi x y : Q) :
  x <= y -> py_max lo (py_min x hi) <= py_max lo (py_min y hi).
Proof.
  intro H. unfold py_max, py_min.
  destruct (Qltb_spec hi x), (Qltb_spec hi y);
    repeat match goal with |- context [Qltb ?a ?b] => destruct (Qltb_spec a b) end;
    lra.
Qed.

Lemma weighted_le (base noise s1 s2 : Q) :
  0 <= base -> s1 <= s2 -> base * s1 + noise <= base * s2 + noise.
Proof.
  intros Hb Hs. apply Qplus_le_compat; [| apply Qle_refl].
  rewrite (Qmult_comm base s1), (Qmult_comm base s2).
  now apply Qmult_le_compat_r.
Qed.

Ltac split_tests :=
  repeat match goal with
         | |- context [Qltb ?a ?b] => destruct (Qltb_spec a b)
         end.

(** X1. With a non-negative base fee, the production oracle never
    lowers the fee when the gas trend rises and never raises it when
    the liquidity score rises, all other features and the noise being
    equal: the pieces of the gas factor are increasing and step up at
    -0.2, 0.2 and 0.5, and the liquidity factor is a decreasing step
    function.  (The pieces of the volatility and of the volume factor
    meet exactly at 2, 8 and 0.6, where the order of two fees depends
    on rounding; nothing is stated for them.) *)
Theorem oracle_monotone (cfg : Config) (fv : FeatureVector) (noise a b : Q) :
  0 <= BASE_FEE_RATE cfg ->
  a <= b ->
  Production.optimal_fee_with_noise cfg (Vary.gas_trend_of fv a) noise
    <= Production.optimal_fee_with_noise cfg (Vary.gas_trend_of fv b) noise
  /\ Production.optimal_fee_with_noise cfg (Vary.liquidity_score_of fv b) noise
     <= Production.optimal_fee_with_noise cfg (Vary.liquidity_score_of fv a) noise.
Proof.
  intros Hbase Hab.
  unfold Production.optimal_fee_with_noise. cbv zeta.
  cbn [Vary.gas_trend_of Vary.liquidity_score_of
       volatility volume_ratio gas_trend hour_of_day day_of_week liquidity_score
       price_momentum price_change_24h].
  split; apply clamp_mono; apply weighted_le; try exact Hbase.
  - match goal with
    | |- ?v * 0.35 + ?r * 0.25 + _ + ?t * 0.10 + ?m * 0.05 + ?l * 0.03 + ?s * 0.02 <= _ =>
        generalize v, r, t, m, l, s
    end.
    intros; split_tests; lra.
  - match goal with
    | |- ?v * 0.35 + ?r * 0.25 + ?g * 0.20 + ?t * 0.10 + ?m * 0.05 + _ + ?s * 0.02 <= _ =>
        generalize v, r, g, t, m, s
    end.
    intros; split_tests; lra.
Qed.

Lemma oracle_monotone_witness :
  Production.optimal_fee_with_noise default_config (Vary.gas_trend_of Samples.calm 0.1) 0
  <= Production.optimal_fee_with_noise default_config (Vary.gas_trend_of Samples.calm 0.6) 0.
Proof.
  apply (oracle_monotone default_config Samples.calm 0 0.1 0.6); vm_compute; discriminate.
Defined.

(** ** The scorer on the three ensemble members *)

(** X2. For the three members of the production ensemble the clamp of
    the scorer never acts: the confidence is the prior plus the
    adjustments, it lies in [0.52, 0.92], and on every feature vector
    random_forest scores above gradient_boosting, which scores above
    neural_network. *)
Theorem scorer_on_members (fv : FeatureVector) :
  let rf := Production._calculate_model_confidence "random_forest" fv in
  let gb := Production._calculate_model_confidence "gradient_boosting" fv in
  let nn := Production._calculate_model_confidence "neural_network" fv in
  rf = 0.87 + Production.confidence_adjustments fv
  /\ gb = 0.84 + Production.confidence_adjustments fv
  /\ nn = 0.81 + Production.confidence_adjustments fv
  /\ 0.52 <= nn /\ rf <= 0.92
  /\ nn < gb /\ gb < rf.
Proof.
  cbv zeta.
  assert (A : -0.29 <= Production.confidence_adjustments fv <= 0.05).
  { unfold Production.confidence_adjustments.
    repeat match goal with |- context [if ?b then _ else _] => destruct b end;
      split; lra. }
  assert (E : forall prior, 0.81 <= prior -> prior <= 0.87 ->
            py_max 0.4 (py_min (prior + Production.confidence_adjustments fv) 0.95)
            = prior + Production.confidence_adjustments fv).
  { intros prior L U. unfold py_min, py_max.
    destruct (Qltb_spec 0.95 (prior + Production.confidence_adjustments fv)); [lra |].
    destruct (Qltb_spec 0.4 (prior + Production.confidence_adjustments fv)); [reflexivity | lra]. }
  unfold Production._calculate_model_confidence. cbn [Production.base_confidence String.eqb
    Ascii.eqb Bool.eqb].
  rewrite !E by lra.
  repeat split; lra.
Qed.

(** ** What the live codec can and cannot produce *)

Lemma extract_Some_shape (now : datetime) (market_data : pyval) (fv : FeatureVector) :
  Production._extract_features_from_market_data now market_data = Some fv ->
  hour_of_day fv = hour_of (hour_index now)
  /\ day_of_week fv = weekday_of (hour_index now)
  /\ volume_ratio fv
     = (if Qltb 0 (volume_24h fv * 0.92) then volume_24h fv / (volume_24h fv * 0.92)
        else 1.0)
  /\ price_change_1h fv = price_change_24h fv * 0.08
  /\ price_momentum fv = price_change_24h fv * 1.15
  /\ volume_ma_7d fv = volume_24h fv * 0.92
  /\ volatility_ma_7d fv = volatility fv * 1.08.
Proof.
  intro H. pose proof (extract_Some_readable _ _ _ H) as E.
  apply readable_inv in E as (d & cg & -> & Hcg & Hne & Hnum & Hgas).
  rewrite (extract_readable now d cg Hcg Hne Hnum Hgas) in H.
  injection H as <-. repeat split.
Qed.

Lemma live_volume_ratio (now : datetime) (market_data : pyval) (fv : FeatureVector) :
  Production._extract_features_from_market_data now market_data = Some fv ->
  (0 < volume_24h fv /\ volume_ratio fv == (25 # 23))
  \/ (volume_24h fv <= 0 /\ volume_ratio fv = 1.0).
Proof.
  intro H. destruct (extract_Some_shape _ _ _ H) as (_ & _ & Hr & _).
  rewrite Hr. destruct (Qltb_spec 0 (volume_24h fv * 0.92)) as [P | P].
  - left. assert (0 < volume_24h fv) by lra. split; [assumption |].
    field. lra.
  - right. split; [lra | reflexivity].
Qed.



(** X4. A coingecko record that carries none of the four fields the
    codec reads (and no gas price) is still accepted: every market
    quantity defaults to 0, the volume ratio to 1, the gas price to 28,
    and the market is classified stable. *)
Theorem codec_defaults (now : datetime) (d cg : pydict) :
  dict_lookup d "coingecko" = Some (PDict cg) ->
  cg <> [] ->
  dict_lookup cg "volatility" = None ->
  dict_lookup cg "volume_24h" = None ->
  dict_lookup cg "price_change_24h" = None ->
  dict_lookup cg "market_cap" = None ->
  Snapshot.lacks_network d = true ->
  exists fv,
    Production._extract_features_from_market_data now (PDict d) = Some fv
    /\ volatility fv = 0 /\ volume_24h fv = 0 /\ price_change_24h fv = 0
    /\ market_cap fv = 0 /\ liquidity_score fv = 0 /\ volume_ratio fv = 1.0
    /\ gas_price_gwei fv = 28
    /\ Production._classify_market_condition fv = "stable".
Proof.
  intros Hcg Hne Hv Hvol Hpc Hcap Hnet.
  assert (Hnum : Snapshot.fields_numeric cg = true).
  { unfold Snapshot.fields_numeric, Snapshot.numeric_or_absent.
    now rewrite Hv, Hvol, Hpc, Hcap. }
  assert (Hgas : Snapshot.gas_readable d = true /\ Snapshot.gas_of d = 28).
  { unfold Snapshot.lacks_network in Hnet.
    unfold Snapshot.gas_readable, Snapshot.gas_of.
    destruct (dict_lookup d "network") as [[| q | s | [| kv nw]] |];
      try (now split); discriminate. }
  destruct Hgas as [Hgas Hgas28].
  eexists. split; [apply (extract_readable now d cg Hcg Hne Hnum Hgas) |].
  unfold Snapshot.number_at. rewrite Hv, Hvol, Hpc, Hcap, Hgas28.
  repeat split.
Qed.

Lemma codec_defaults_witness :
  exists fv,
    Production._extract_features_from_market_data Samples.noon
      (PDict MoreSamples.price_only) = Some fv
    /\ Production._classify_market_condition fv = "stable".
Proof.
  destruct (codec_defaults Samples.noon MoreSamples.price_only [("price_usd", PNum 35)])
    as (fv & H & _ & _ & _ & _ & _ & _ & _ & C);
    try reflexivity; [discriminate |].
  exists fv. now split.
Defined.

(** ** Ranges of the generated training data *)

Lemma div_bounds (x lo hi c : Q) :
  0 < c -> lo * c <= x -> x <= hi * c -> lo <= x / c <= hi.
Proof.
  intros Hc Hlo Hhi. split.
  - now apply Qle_shift_div_l.
  - now apply Qle_shift_div_r.
Qed.

Lemma hour_of_range (h : Z) : (0 <= hour_of h <= 23)%Z.
Proof. unfold hour_of. pose proof (Z.mod_pos_bound h 24). lia. Qed.

Lemma weekday_of_range (h : Z) : (0 <= weekday_of h <= 6)%Z.
Proof. unfold weekday_of. pose proof (Z.mod_pos_bound (h / 24) 7). lia. Qed.

Lemma liquidity_bounds (v m : Q) :
  100000000 <= v <= 8000000000 -> 15000000000 <= m <= 50000000000 ->
  0.2 <= v / m * 100 <= 54.
Proof.
  intros [Hv1 Hv2] [Hm1 Hm2].
  assert (Hm : 0 < m) by lra.
  assert (B : 0.002 <= v / m <= 0.54).
  { apply div_bounds; [exact Hm | lra | lra]. }
  destruct B. split; lra.
Qed.

Lemma generate_row_ranges (R : NumpyRandom) (start_date : Z) (i : nat)
    (data : list FeatureVector) (s : rng_state) :
  Ranges.production_row (fst (ProductionGenerator.generate_row start_date i data s)).
Proof.
  unfold ProductionGenerator.generate_row, rbind, rret.
  repeat match goal with
         | |- context [let (_, _) := ?c in _] => destruct c
         | |- context [if (?a <? ?b)%nat then _ else _] => destruct (a <? b)%nat
         | |- context [if (?a <=? ?b)%nat then _ else _] => destruct (a <=? b)%nat
         end;
    cbn [fst];
    unfold Ranges.production_row, valid_features;
    cbn [volatility volume_24h market_cap gas_price_gwei gas_trend liquidity_score
         hour_of_day day_of_week];
    (split; [split; [apply hour_of_range | apply weekday_of_range] |]);
    (split; [apply clamp_range; lra |]);
    (split; [apply clamp_range; lra |]);
    (split; [apply clamp_range; lra |]);
    (split; [apply clamp_range; lra |]);
    (split;
     [ apply div_bounds; [lra | |];
       match goal with
       | |- context [py_max 18 (py_min ?x 400)] =>
           destruct (clamp_range 18 400 x); [lra | lra]
       end
     | apply liquidity_bounds; apply clamp_range; lra ]).
Qed.

Section GeneratorRanges.
Context {R : NumpyRandom}.
Variable cfg : Config.

Lemma generate_rows_ranges (start_date : Z) (remaining i : nat)
    (data : list FeatureVector) (s : rng_state) :
  Forall Ranges.production_row data ->
  Forall Ranges.production_row
    (fst (ProductionGenerator.generate_rows start_date remaining i data s))
  /\ List.length (fst (ProductionGenerator.generate_rows start_date remaining i data s))
     = (List.length data + remaining)%nat.
Proof.
  revert i data s. induction remaining as [| remaining IH]; intros i data s Hdata.
  - cbn. split; [exact Hdata | lia].
  - cbn [ProductionGenerator.generate_rows]. unfold rbind.
    pose proof (generate_row_ranges R start_date i data s) as Hrow.
    destruct (ProductionGenerator.generate_row start_date i data s) as [row s1].
    cbn [fst] in Hrow.
    destruct (IH (S i) (py_append data row) s1) as [F L].
    + unfold py_append. apply Forall_app. split; [exact Hdata | now constructor].
    + split; [exact F |]. rewrite L. unfold py_append. rewrite length_app. cbn. lia.
Qed.

Lemma label_rows_ranges (rows : list FeatureVector) (s : rng_state) :
  Forall Ranges.production_row rows ->
  Forall Ranges.production_sample (fst (ProductionGenerator.label_rows cfg rows s))
  /\ List.length (fst (ProductionGenerator.label_rows cfg rows s)) = List.length rows.
Proof.
  revert s. induction rows as [| row rows IH]; intros s Hrows.
  - cbn. split; [constructor | reflexivity].
  - cbn [ProductionGenerator.label_rows]. unfold rbind, rret.
    unfold ProductionGenerator._calculate_sophisticated_optimal_fee, rbind, rret.
    destruct (rng_normal 0 0.015 s) as [noise s1].
    inversion Hrows as [| ? ? Hrow Hrest]; subst.
    destruct (IH s1 Hrest) as [F L].
    destruct (ProductionGenerator.label_rows cfg rows s1) as [labelled s2].
    cbn [fst] in *. split.
    + constructor; [| exact F]. split; [exact Hrow |].
      cbn [optimal_fee]. apply production_oracle_range.
    + cbn [List.length]. now f_equal.
Qed.

(** X5. Whatever the samplers draw and whatever the clock shows, the
    production generator returns exactly [n_samples] samples, and every
    sample has a valid hour and weekday, volatility in [0.5, 30],
    volume in [1e8, 8e9], market cap in [15e9, 50e9], gas price in
    [18, 400], gas trend in [-10/372, 1], liquidity score in [0.2, 54]
    and a label in [0.05, 2.5].  In particular no generated row has a
    gas trend below -0.2, so the oracle's low-gas rule never labels a
    training sample. *)
Theorem production_generator_ranges (now : datetime) (n_samples : nat) (s : rng_state) :
  let samples :=
    fst (ProductionGenerator._generate_realistic_training_data cfg now n_samples s) in
  List.length samples = n_samples
  /\ Forall Ranges.production_sample samples
  /\ Forall (fun sample => Qltb (gas_trend (features sample)) (-0.2) = false) samples.
Proof.
  cbv zeta.
  unfold ProductionGenerator._generate_realistic_training_data, rbind, seed.
  destruct (generate_rows_ranges (hour_index now - 8760) n_samples 0 [] (rng_seed 42))
    as [F L]; [constructor |].
  destruct (ProductionGenerator.generate_rows (hour_index now - 8760) n_samples 0 []
              (rng_seed 42)) as [data s1].
  cbn [fst] in F, L.
  destruct (label_rows_ranges data s1 F) as [F' L'].
  split; [now rewrite L' |]. split; [exact F' |].
  eapply Forall_impl; [| exact F'].
  intros sample [(_ & _ & _ & _ & _ & [G _] & _) _].
  apply Qltb_ge. lra.
Qed.

Lemma advanced_sample_ranges (float_pow : Q -> Q -> Q) (s : rng_state) :
  Ranges.advanced_sample (fst (Advanced.generate_sample float_pow cfg s)).
Proof.
  unfold Advanced.generate_sample, Advanced._calculate_sophisticated_optimal_fee,
    rbind, rret.
  repeat match goal with
         | |- context [rng_randint ?a ?b ?st] => destruct (rng_randint a b st)
         | |- context [rng_exponential ?a ?st] => destruct (rng_exponential a st)
         | |- context [rng_lognormal ?a ?b ?st] => destruct (rng_lognormal a b st)
         | |- context [rng_normal ?a ?b ?st] => destruct (rng_normal a b st)
         | |- context [rng_uniform ?a ?b ?st] => destruct (rng_uniform a b st)
         end.
  cbn [fst]. unfold Ranges.advanced_sample. cbv zeta.
  cbn [features optimal_fee volatility volume_24h gas_price_gwei gas_trend].
  split; [apply clamp_range; lra |].
  split; [apply clamp_range; lra |].
  split; [apply clamp_range; lra |].
  split; [| apply advanced_oracle_range].
  apply div_bounds; [lra | |];
    match goal with
    | |- context [py_max 15 (py_min ?x 300)] =>
        destruct (clamp_range 15 300 x); [lra | lra]
    end.
Qed.

Lemma advanced_samples_ranges (float_pow : Q -> Q -> Q) (remaining : nat)
    (data : list TrainingSample) (s : rng_state) :
  Forall Ranges.advanced_sample data ->
  Forall Ranges.advanced_sample
    (fst (Advanced.generate_samples float_pow cfg remaining data s))
  /\ List.length (fst (Advanced.generate_samples float_pow cfg remaining data s))
     = (List.length data + remaining)%nat.
Proof.
  revert data s. induction remaining as [| remaining IH]; intros data s Hdata.
  - cbn. split; [exact Hdata | lia].
  - cbn [Advanced.generate_samples]. unfold rbind.
    pose proof (advanced_sample_ranges float_pow s) as Hrow.
    destruct (Advanced.generate_sample float_pow cfg s) as [row s1].
    cbn [fst] in Hrow.
    destruct (IH (py_append data row) s1) as [F L].
    + unfold py_append. apply Forall_app. split; [exact Hdata | now constructor].
    + split; [exact F |]. rewrite L. unfold py_append. rewrite length_app. cbn. lia.
Qed.

(** X6. Whatever the samplers draw and whatever the float power
    computes, the advanced generator returns exactly [n_samples]
    samples, each with volatility in [0.5, 25], volume in [5e7, 5e9],
    gas price in [15, 300], gas trend in [-10/275, 1] and a label in
    [0.05, 3.0]. *)
Theorem advanced_generator_ranges (float_pow : Q -> Q -> Q) (n_samples : nat)
    (s : rng_state) :
  let samples :=
    fst (Advanced._generate_advanced_training_data float_pow cfg n_samples s) in
  List.length samples = n_samples
  /\ Forall Ranges.advanced_sample samples.
Proof.
  cbv zeta. unfold Advanced._generate_advanced_training_data, rbind, seed.
  destruct (advanced_samples_ranges float_pow n_samples [] (rng_seed 42)) as [F L];
    [constructor |].
  split; [exact L | exact F].
Qed.
End GeneratorRanges.

(** ** The prediction loop isolates failing members *)

Lemma dict_set_fresh {V : Type} (d : list (string * V)) (k : string) (v : V) :
  ~ In k (dict_keys d) -> dict_set d k v = (d ++ [(k, v)])%list.
Proof.
  induction d as [| [k' v'] d IH]; cbn; intro H; [reflexivity |].
  destruct (String.eqb_spec k k') as [-> | N].
  - exfalso. apply H. now left.
  - f_equal. apply IH. intro I. apply H. now right.
Qed.

Lemma dict_keys_app {V : Type} (d d' : list (string * V)) :
  dict_keys (d ++ d') = (dict_keys d ++ dict_keys d')%list.
Proof. unfold dict_keys. apply map_app. Qed.

Lemma collect_predictions_app (ms : list (string * option Predictor.member))
    (fv : FeatureVector) (predictions confidences : list (string * Q)) :
  NoDup (map fst ms) ->
  (forall name, In name (map fst ms) -> ~ In name (dict_keys predictions)) ->
  dict_keys confidences = dict_keys predictions ->
  Predictor.collect_predictions ms fv predictions confidences
  = ((predictions ++ Members.answers ms fv)%list,
     (confidences ++ Members.scored fv (Members.answers ms fv))%list).
Proof.
  revert predictions confidences.
  induction ms as [| [name model] ms IH]; intros predictions confidences Hnd Hfresh Hkeys.
  - cbn. now rewrite !app_nil_r.
  - cbn [map fst] in Hnd, Hfresh. inversion Hnd as [| ? ? Hname Hnd']; subst.
    cbn [Predictor.collect_predictions].
    assert (Hfresh' : forall n, In n (map fst ms) -> ~ In n (dict_keys predictions))
      by (intros n Hn; apply Hfresh; now right).
    assert (Hhere : ~ In name (dict_keys predictions)) by (apply Hfresh; now left).
    destruct model as [model |].
    + destruct (model fv) as [pred | e] eqn:Em; cbn [bind try_except].
      * rewrite IH.
        -- rewrite !dict_set_fresh by (rewrite ?Hkeys; exact Hhere).
           unfold Members.answers, Members.scored. cbn [flat_map].
           assert (Ea : Members.answer fv (name, Some model) = [(name, pred)])
             by (unfold Members.answer; cbn [fst snd]; now rewrite Em).
           rewrite Ea. cbn [app map fst]. now rewrite <- !app_assoc.
        -- exact Hnd'.
        -- intros n Hn. rewrite dict_set_fresh by exact Hhere.
           rewrite dict_keys_app. cbn. intro I. apply in_app_or in I as [I | [<- | []]].
           ++ now apply (Hfresh' n).
           ++ contradiction.
        -- now apply dict_set_keys.
      * rewrite IH; trivial.
        unfold Members.answers. cbn [flat_map].
        assert (Ea : Members.answer fv (name, Some model) = [])
          by (unfold Members.answer; cbn [fst snd]; now rewrite Em).
        now rewrite Ea.
    + rewrite IH; trivial.
Qed.

(** X7. With distinct member names, the prediction loop collects
    exactly the members that are built and answer, in the order of
    [self.models], each with its own answer and the scorer's confidence;
    a member that is [None] or raises is left out and changes nothing
    for the others. *)
Theorem prediction_loop_isolates (ms : list (string * option Predictor.member))
    (fv : FeatureVector) :
  NoDup (map fst ms) ->
  Predictor.collect_predictions ms fv [] []
  = (Members.answers ms fv, Members.scored fv (Members.answers ms fv))
  /\ (forall name q,
        In (name, q) (fst (Predictor.collect_predictions ms fv [] []))
        <-> exists model, In (name, Some model) ms /\ model fv = Ok q).
Proof.
  intro Hnd.
  assert (E : Predictor.collect_predictions ms fv [] []
              = (Members.answers ms fv, Members.scored fv (Members.answers ms fv))).
  { rewrite collect_predictions_app; trivial. intros n _ []. }
  split; [exact E |].
  intros name q. rewrite E. cbn [fst]. unfold Members.answers.
  rewrite in_flat_map. split.
  - intros [[n [m |]] [Hin Ha]]; unfold Members.answer in Ha; cbn [fst snd] in Ha.
    + destruct (m fv) as [p | e] eqn:Em; [| contradiction].
      destruct Ha as [[= <- <-] | []]. now exists m.
    + contradiction.
  - intros [m [Hin Hm]]. exists (name, Some m). split; [exact Hin |].
    unfold Members.answer. cbn [fst snd]. rewrite Hm. now left.
Qed.

Lemma prediction_loop_witness :
  Predictor.collect_predictions (Predictor.models Samples.trained) Samples.calm [] []
  = (Members.answers (Predictor.models Samples.trained) Samples.calm,
     Members.scored Samples.calm
       (Members.answers (Predictor.models Samples.trained) Samples.calm)).
Proof.
  apply (prediction_loop_isolates (Predictor.models Samples.trained) Samples.calm).
  cbn. repeat constructor; cbn; intuition discriminate.
Defined.

(** ** Sums, means and the blended values *)

Lemma fold_left_Qplus (xs : list Q) (a : Q) :
  fold_left Qplus xs a == a + fold_left Qplus xs 0.
Proof.
  revert a. induction xs as [| x xs IH]; intro a; cbn.
  - lra.
  - rewrite (IH (a + x)), (IH (0 + x)). lra.
Qed.

Lemma py_sum_cons (x : Q) (xs : list Q) : py_sum (x :: xs) == x + py_sum xs.
Proof.
  unfold py_sum. cbn. rewrite fold_left_Qplus. lra.
Qed.

Lemma inject_length_cons {A : Type} (x : A) (xs : list A) :
  inject_Z (Z.of_nat (List.length (x :: xs))) == inject_Z (Z.of_nat (List.length xs)) + 1.
Proof.
  cbn [List.length]. rewrite Nat2Z.inj_succ. unfold Z.succ. rewrite inject_Z_plus.
  reflexivity.
Qed.

Lemma inject_length_nonneg {A : Type} (xs : list A) :
  0 <= inject_Z (Z.of_nat (List.length xs)).
Proof.
  change 0 with (inject_Z 0). rewrite <- Zle_Qle. lia.
Qed.

Lemma py_sum_bounds (lo hi : Q) (xs : list Q) :
  Forall (fun x => lo <= x <= hi) xs ->
  lo * inject_Z (Z.of_nat (List.length xs)) <= py_sum xs
  /\ py_sum xs <= hi * inject_Z (Z.of_nat (List.length xs)).
Proof.
  induction 1 as [| x xs [Hl Hh] _ [IHl IHh]].
  - unfold py_sum. cbn [fold_left List.length Z.of_nat]. change (inject_Z 0) with 0.
    split; lra.
  - rewrite py_sum_cons, inject_length_cons. split; lra.
Qed.

(** The mean of a non-empty list lies between bounds of its items. *)
Lemma np_mean_bounds (lo hi : Q) (xs : list Q) :
  xs <> [] -> Forall (fun x => lo <= x <= hi) xs -> lo <= np_mean xs <= hi.
Proof.
  intros Hne H. unfold np_mean.
  destruct (py_sum_bounds lo hi xs H) as [Hl Hh].
  apply div_bounds; trivial.
  destruct xs as [| x xs]; [contradiction |].
  rewrite inject_length_cons. pose proof (inject_length_nonneg xs). lra.
Qed.

Lemma py_sum_pos (xs : list Q) :
  xs <> [] -> Forall (fun x => 0 < x) xs -> 0 < py_sum xs.
Proof.
  intros Hne H. induction H as [| x xs Hx H IH]; [contradiction |].
  rewrite py_sum_cons. destruct xs as [| y ys].
  - cbn. lra.
  - assert (0 < py_sum (y :: ys)) by (apply IH; discriminate). lra.
Qed.

Lemma blend_Ok_inv (best_model_name : option string)
    (predictions confidences : list (string * Q)) (b : Production.Blend) :
  Production.blend best_model_name predictions confidences = Ok b ->
  Production.final_prediction b
  = py_max 0.05 (py_min (Production.primary_prediction b) 2.5)
  /\ ((In (Production.primary_prediction b) (dict_values predictions)
       /\ In (Production.primary_confidence b) (dict_values confidences))
      \/ (Production.primary_prediction b = np_mean (dict_values predictions)
          /\ Production.primary_confidence b = np_mean (dict_values confidences)))
  /\ (exists terms,
        Production.ensemble_prediction b
        = (if Qltb 0 (py_sum (dict_values confidences))
           then py_sum terms / py_sum (dict_values confidences)
           else Production.primary_prediction b)
        /\ (Qltb 0 (py_sum (dict_values confidences)) = true ->
            Production.weighted_terms predictions confidences = Ok terms)).
Proof.
  unfold Production.blend. intro H.
  apply bind_Ok in H as (primary & Hprimary & H).
  apply bind_Ok in H as (ensemble & Hens & H).
  injection H as <-.
  cbn [Production.final_prediction Production.primary_prediction
       Production.primary_confidence Production.ensemble_prediction].
  split; [reflexivity |]. split.
  - assert (M : Ok (np_mean (dict_values predictions), np_mean (dict_values confidences))
                = Ok primary ->
                fst primary = np_mean (dict_values predictions)
                /\ snd primary = np_mean (dict_values confidences))
      by (intros [= <-]; now split).
    destruct best_model_name as [name |]; [| right; now apply M].
    destruct (Production.name_truthy (Some name) && dict_mem predictions name);
      [| right; now apply M].
    left. unfold dict_index in Hprimary.
    destruct (dict_lookup predictions name) as [p |] eqn:Hp; [| discriminate].
    destruct (dict_lookup confidences name) as [c |] eqn:Hc; [| discriminate].
    injection Hprimary as <-. cbn [fst snd]. split.
    + clear - Hp. induction predictions as [| [k v] d IH]; [discriminate |].
      cbn in Hp |- *. destruct (String.eqb name k); [left; congruence | right; auto].
    + clear - Hc. induction confidences as [| [k v] d IH]; [discriminate |].
      cbn in Hc |- *. destruct (String.eqb name k); [left; congruence | right; auto].
  - destruct (Qltb 0 (py_sum (dict_values confidences))).
    + apply bind_Ok in Hens as (ts & Hts & [= <-]). exists ts. now split.
    + injection Hens as <-. exists []. split; [reflexivity | discriminate].
Qed.

Lemma values_nonempty {V : Type} (d : list (string * V)) : d <> [] -> dict_values d <> [].
Proof. destruct d as [| x d]; [contradiction | discriminate]. Qed.

Lemma keys_nonempty {V W : Type} (d : list (string * V)) (d' : list (string * W)) :
  dict_keys d' = dict_keys d -> d <> [] -> d' <> [].
Proof.
  destruct d as [| x d]; [contradiction |].
  destruct d' as [| y d']; discriminate.
Qed.

(** ** Rounding keeps the clamps *)

Lemma round_half_even_floor (q : Q) :
  (Qfloor q <= round_half_even q <= Qfloor q + 1)%Z.
Proof.
  unfold round_half_even. cbv zeta.
  repeat match goal with |- context [if ?b then _ else _] => destruct b end; lia.
Qed.

Lemma round_half_even_ge (k : Z) (q : Q) :
  inject_Z k <= q -> (k <= round_half_even q)%Z.
Proof.
  intro H. pose proof (round_half_even_floor q) as [L _].
  apply Qfloor_resp_le in H. rewrite Qfloor_Z in H. lia.
Qed.

Lemma round_half_even_le (k : Z) (q : Q) :
  q <= inject_Z k -> (round_half_even q <= k)%Z.
Proof.
  intro H. pose proof (round_half_even_floor q) as [_ U].
  pose proof (Qfloor_le q) as F.
  destruct (Z_lt_le_dec (Qfloor q) k) as [Lt | Ge]; [lia |].
  assert (E : Qfloor q = k).
  { apply Z.le_antisymm; [| exact Ge].
    apply Qfloor_resp_le in H. now rewrite Qfloor_Z in H. }
  unfold round_half_even. cbv zeta. rewrite E.
  assert (T : Qltb (q - inject_Z k) 0.5 = true) by (apply Qltb_lt; lra).
  rewrite T. lia.
Qed.

Lemma div_le_mult (a b c : Q) : 0 < b -> a / b <= c -> a <= c * b.
Proof.
  intros Hb H. apply (Qmult_le_compat_r _ _ b) in H; [| lra].
  assert (E : a / b * b == a) by (field; lra). now rewrite E in H.
Qed.

Lemma mult_le_div (a b c : Q) : 0 < b -> c <= a / b -> c * b <= a.
Proof.
  intros Hb H. apply (Qmult_le_compat_r _ _ b) in H; [| lra].
  assert (E : a / b * b == a) by (field; lra). now rewrite E in H.
Qed.

Lemma py_round_bounds (x : Q) (ndigits : nat) (a b : Z) :
  inject_Z a / inject_Z (10 ^ Z.of_nat ndigits) <= x ->
  x <= inject_Z b / inject_Z (10 ^ Z.of_nat ndigits) ->
  inject_Z a / inject_Z (10 ^ Z.of_nat ndigits) <= py_round x ndigits
  /\ py_round x ndigits <= inject_Z b / inject_Z (10 ^ Z.of_nat ndigits).
Proof.
  intros L U. unfold py_round. cbv zeta.
  set (p := (10 ^ Z.of_nat ndigits)%Z) in *.
  assert (Hp : 0 < inject_Z p).
  { change 0 with (inject_Z 0). rewrite <- Zlt_Qlt. subst p. lia. }
  assert (La : inject_Z a <= x * inject_Z p).
  { now apply div_le_mult. }
  assert (Ub : x * inject_Z p <= inject_Z b).
  { now apply mult_le_div. }
  apply round_half_even_ge in La. apply round_half_even_le in Ub.
  rewrite Zle_Qle in La, Ub.
  split.
  - apply Qle_shift_div_l; trivial.
    assert (E : inject_Z a / inject_Z p * inject_Z p == inject_Z a) by (field; lra).
    now rewrite E.
  - apply Qle_shift_div_r; trivial.
    assert (E : inject_Z b / inject_Z p * inject_Z p == inject_Z b) by (field; lra).
    now rewrite E.
Qed.

Lemma py_round_fee (x : Q) : 0.05 <= x <= 2.5 -> 0.05 <= py_round x 4 <= 2.5.
Proof.
  intros [L U].
  destruct (py_round_bounds x 4 500 25000) as [L' U'].
  - change (inject_Z 500 / inject_Z (10 ^ Z.of_nat 4)) with (500 # 10000). lra.
  - change (inject_Z 25000 / inject_Z (10 ^ Z.of_nat 4)) with (25000 # 10000). lra.
  - change (inject_Z 500 / inject_Z (10 ^ Z.of_nat 4)) with (500 # 10000) in L'.
    change (inject_Z 25000 / inject_Z (10 ^ Z.of_nat 4)) with (25000 # 10000) in U'.
    split; lra.
Qed.

Lemma py_round_confidence (x : Q) : 0.4 <= x <= 0.95 -> 0.4 <= py_round x 3 <= 0.95.
Proof.
  intros [L U].
  destruct (py_round_bounds x 3 400 950) as [L' U'].
  - change (inject_Z 400 / inject_Z (10 ^ Z.of_nat 3)) with (400 # 1000). lra.
  - change (inject_Z 950 / inject_Z (10 ^ Z.of_nat 3)) with (950 # 1000). lra.
  - change (inject_Z 400 / inject_Z (10 ^ Z.of_nat 3)) with (400 # 1000) in L'.
    change (inject_Z 950 / inject_Z (10 ^ Z.of_nat 3)) with (950 # 1000) in U'.
    split; lra.
Qed.

(** ** The record [predict_optimal_fee] returns *)

Lemma dict_set_values_Forall {V : Type} (P : V -> Prop) (d : list (string * V))
    (k : string) (v : V) :
  Forall P (dict_values d) -> P v -> Forall P (dict_values (dict_set d k v)).
Proof.
  induction d as [| [k' v'] d IH]; cbn; intros H Hv.
  - now constructor.
  - inversion H; subst. destruct (String.eqb k k'); cbn; constructor; auto.
Qed.

Lemma collect_confidences_range (ms : list (string * option Predictor.member))
    (fv : FeatureVector) (predictions confidences : list (string * Q)) :
  Forall (fun c => 0.4 <= c <= 0.95) (dict_values confidences) ->
  Forall (fun c => 0.4 <= c <= 0.95)
    (dict_values (snd (Predictor.collect_predictions ms fv predictions confidences))).
Proof.
  revert predictions confidences.
  induction ms as [| [name [model |]] ms IH]; intros predictions confidences H; cbn.
  - exact H.
  - destruct (model fv) as [pred | e]; cbn.
    + apply IH. apply dict_set_values_Forall; [exact H |].
      apply production_confidence_range.
    + now apply IH.
  - now apply IH.
Qed.

(** A successful body is the fallback record or a full record built
    from a blend of what the loop collected. *)
Lemma predict_body_full (cfg : Config) (np_sqrt : Q -> Q)
    (get_live_market_data : exc pyval)
    (train_models : Predictor.state -> exc Predictor.state)
    (self : Predictor.state) (now : datetime) (market_data : pyval) (r : pydict) :
  Predictor.predict_body cfg np_sqrt get_live_market_data train_models self now market_data
  = Ok r ->
  r = Production._fallback_prediction cfg now
  \/ exists self' fv predictions confidences b reasoning,
       Predictor.collect_predictions (Predictor.models self') fv [] []
       = (predictions, confidences)
       /\ predictions <> []
       /\ Production.blend (Predictor.best_model_name self') predictions confidences = Ok b
       /\ r = [ ("recommended_fee", PNum (py_round (Production.final_prediction b) 4));
                ("confidence", PNum (py_round (Production.primary_confidence b) 3));
                ("reasoning", PStr reasoning);
                ("market_condition", PStr (Production._classify_market_condition fv));
                ("primary_model", Predictor.name_value (Predictor.best_model_name self'));
                ("ensemble_prediction",
                 PNum (py_round (Production.ensemble_prediction b) 4));
                ("all_predictions", PDict (Predictor.rounded 4 predictions));
                ("model_confidences", PDict (Predictor.rounded 3 confidences));
                ("features_used",
                 PNum (inject_Z (Z.of_nat (List.length (Predictor.columns self')))));
                ("prediction_timestamp", PStr (isoformat now)) ].
Proof.
  unfold Predictor.predict_body. intro H.
  apply bind_Ok in H as (md & _ & H).
  destruct (Production._extract_features_from_market_data now md) as [fv |];
    [| left; congruence].
  apply bind_Ok in H as (self' & _ & H).
  destruct (Predictor.collect_predictions (Predictor.models self') fv [] [])
    as [predictions confidences] eqn:C.
  destruct predictions as [| p predictions]; [left; congruence |].
  apply bind_Ok in H as (b & Hb & H).
  apply bind_Ok in H as (reasoning & _ & H).
  right. exists self', fv, (p :: predictions), confidences, b, reasoning.
  split; [exact C |]. split; [discriminate |]. split; [exact Hb |].
  now injection H as <-.
Qed.

Lemma rounded_keys (ndigits : nat) (d : list (string * Q)) :
  dict_keys (Predictor.rounded ndigits d) = dict_keys d.
Proof.
  unfold Predictor.rounded, dict_keys. rewrite map_map. reflexivity.
Qed.

(** X9. Whatever the inputs, the record returned by
    [predict_optimal_fee] is the fallback record or carries a
    recommended fee in [0.05, 2.5] (rounding to four places keeps the
    clamp), a confidence in [0.4, 0.95], a market condition out of the
    seven labels, and two non-empty maps all_predictions and
    model_confidences over the same member names. *)
Theorem prediction_record_bounds (cfg : Config) (np_sqrt : Q -> Q)
    (get_live_market_data : exc pyval)
    (train_models : Predictor.state -> exc Predictor.state)
    (self : Predictor.state) (now : datetime) (market_data : pyval) :
  let result :=
    Predictor.predict_optimal_fee cfg np_sqrt get_live_market_data train_models
      self now market_data in
  result = Production._fallback_prediction cfg now
  \/ exists fee confidence condition predictions confidences,
       dict_lookup result "recommended_fee" = Some (PNum fee)
       /\ 0.05 <= fee <= 2.5
       /\ dict_lookup result "confidence" = Some (PNum confidence)
       /\ 0.4 <= confidence <= 0.95
       /\ dict_lookup result "market_condition" = Some (PStr condition)
       /\ In condition Production.market_conditions
       /\ dict_lookup result "all_predictions" = Some (PDict predictions)
       /\ dict_lookup result "model_confidences" = Some (PDict confidences)
       /\ predictions <> []
       /\ dict_keys confidences = dict_keys predictions.
Proof.
  cbv zeta. unfold Predictor.predict_optimal_fee, try_except.
  destruct (Predictor.predict_body cfg np_sqrt get_live_market_data train_models
              self now market_data) as [r | e] eqn:B; [| now left].
  apply predict_body_full in B
    as [-> | (self' & fv & predictions & confidences & b & reasoning & C & Hne & Hb & ->)];
    [now left | right].
  assert (Hkeys : dict_keys confidences = dict_keys predictions).
  { pose proof (collect_predictions_keys (Predictor.models self') fv [] [] eq_refl) as K.
    now rewrite C in K. }
  assert (Hrange : Forall (fun c => 0.4 <= c <= 0.95) (dict_values confidences)).
  { pose proof (collect_confidences_range (Predictor.models self') fv [] []
                  (Forall_nil _)) as K.
    now rewrite C in K. }
  destruct (blend_Ok_inv _ _ _ _ Hb) as (Hfinal & Hprimary & _).
  exists (py_round (Production.final_prediction b) 4),
    (py_round (Production.primary_confidence b) 3),
    (Production._classify_market_condition fv),
    (Predictor.rounded 4 predictions), (Predictor.rounded 3 confidences).
  split; [reflexivity |]. split.
  { apply py_round_fee. rewrite Hfinal. apply clamp_range. lra. }
  split; [reflexivity |]. split.
  { apply py_round_confidence.
    destruct Hprimary as [[_ Ic] | [_ ->]].
    - now apply (proj1 (Forall_forall _ _) Hrange).
    - apply np_mean_bounds; [| exact Hrange].
      apply values_nonempty. eapply keys_nonempty; eauto. }
  split; [reflexivity |]. split.
  { rewrite classify_is_first_match.
    pose proof (first_match_labels Production.decision_table "moderate"
                  (volatility fv) (volume_ratio fv) (gas_trend fv)
                  (Qabs (price_change_24h fv))) as H.
    cbn in H |- *. intuition. }
  split; [reflexivity |]. split; [reflexivity |]. split.
  { destruct predictions; [contradiction | discriminate]. }
  now rewrite !rounded_keys.
Qed.

(** ** When the collaborators are consulted *)

(** X10. Training is lazy and guarded: a trained predictor never calls
    [train_models], and neither does a predictor whose snapshot yields
    no features; an untrained predictor whose training run raises
    answers with the fallback record. *)
Theorem training_is_lazy (cfg : Config) (np_sqrt : Q -> Q)
    (get_live_market_data : exc pyval)
    (train_models train_models' : Predictor.state -> exc Predictor.state)
    (self : Predictor.state) (now : datetime) (market_data : pyval) :
  (Predictor.is_trained self = true ->
   Predictor.predict_optimal_fee cfg np_sqrt get_live_market_data train_models
     self now market_data
   = Predictor.predict_optimal_fee cfg np_sqrt get_live_market_data train_models'
       self now market_data)
  /\ (market_data <> PNone ->
      Production._extract_features_from_market_data now market_data = None ->
      Predictor.predict_optimal_fee cfg np_sqrt get_live_market_data train_models
        self now market_data
      = Predictor.predict_optimal_fee cfg np_sqrt get_live_market_data train_models'
          self now market_data)
  /\ (forall e,
        market_data <> PNone ->
        Predictor.is_trained self = false ->
        train_models self = Raise e ->
        Predictor.predict_optimal_fee cfg np_sqrt get_live_market_data train_models
          self now market_data
        = Production._fallback_prediction cfg now).
Proof.
  unfold Predictor.predict_optimal_fee, Predictor.predict_body.
  split; [| split].
  - intro T.
    destruct (match market_data with PNone => get_live_market_data | _ => Ok market_data end)
      as [md | e]; [| reflexivity].
    cbn [bind]. destruct (Production._extract_features_from_market_data now md);
      [| reflexivity].
    now rewrite T.
  - intros Hmd Hnone.
    destruct market_data; try contradiction; cbn [bind]; now rewrite Hnone.
  - intros e Hmd T Hraise.
    destruct market_data; try contradiction; cbn [bind];
      (destruct (Production._extract_features_from_market_data now _);
       [rewrite T, Hraise; reflexivity | reflexivity]).
Qed.

Lemma training_is_lazy_witness :
  Predictor.predict_optimal_fee default_config approx_sqrt Samples.offline
    MoreSamples.failing_training MoreSamples.untrained Samples.noon Samples.no_network
  = Production._fallback_prediction default_config Samples.noon.
Proof.
  refine (proj2 (proj2 (training_is_lazy default_config approx_sqrt Samples.offline
                          MoreSamples.failing_training Samples.retrain
                          MoreSamples.untrained Samples.noon Samples.no_network))
            (ExternalError "fit") _ eq_refl eq_refl).
  discriminate.
Defined.

(** X11. The market-data collaborator is consulted only when no
    snapshot is handed over: with a snapshot the result does not depend
    on it, and without one a failing fetch gives the fallback record. *)
Theorem fetch_only_without_snapshot (cfg : Config) (np_sqrt : Q -> Q)
    (get_live_market_data get_live_market_data' : exc pyval)
    (train_models : Predictor.state -> exc Predictor.state)
    (self : Predictor.state) (now : datetime) (market_data : pyval) :
  (market_data <> PNone ->
   Predictor.predict_optimal_fee cfg np_sqrt get_live_market_data train_models
     self now market_data
   = Predictor.predict_optimal_fee cfg np_sqrt get_live_market_data' train_models
       self now market_data)
  /\ (forall e,
        get_live_market_data = Raise e ->
        Predictor.predict_optimal_fee cfg np_sqrt get_live_market_data train_models
          self now PNone
        = Production._fallback_prediction cfg now)
  /\ (forall snapshot,
        get_live_market_data = Ok snapshot -> snapshot <> PNone ->
        Predictor.predict_optimal_fee cfg np_sqrt get_live_market_data train_models
          self now PNone
        = Predictor.predict_optimal_fee cfg np_sqrt get_live_market_data train_models
            self now snapshot).
Proof.
  unfold Predictor.predict_optimal_fee, Predictor.predict_body.
  split; [| split].
  - intro H. destruct market_data; try contradiction; reflexivity.
  - intros e ->. reflexivity.
  - intros snapshot -> H. destruct snapshot; try contradiction; reflexivity.
Qed.

Lemma fetch_only_without_snapshot_witness :
  Predictor.predict_optimal_fee default_config approx_sqrt Samples.offline
    Samples.retrain Samples.trained Samples.noon PNone
  = Production._fallback_prediction default_config Samples.noon.
Proof.
  exact (proj1 (proj2 (fetch_only_without_snapshot default_config approx_sqrt
                         Samples.offline Samples.offline Samples.retrain Samples.trained
                         Samples.noon PNone))
           (ExternalError "market data unavailable") eq_refl).
Defined.

(** ** Choosing the best model after training *)

Lemma max_by_key_spec (rest pre mid : list (string * Q)) (best : string * Q) :
  Forall (fun item => snd item < snd best) pre ->
  Forall (fun item => snd item <= snd best) mid ->
  exists before b after,
    (pre ++ best :: mid ++ rest)%list = (before ++ b :: after)%list
    /\ Training.max_by_key best rest = b
    /\ Forall (fun item => snd item < snd b) before
    /\ Forall (fun item => snd item <= snd b) after.
Proof.
  revert pre mid best.
  induction rest as [| item rest IH]; intros pre mid best Hpre Hmid.
  - exists pre, best, mid. rewrite app_nil_r. now repeat split.
  - cbn [Training.max_by_key].
    destruct (Qltb_spec (snd best) (snd item)) as [Lt | Ge].
    + destruct (IH (pre ++ best :: mid)%list [] item) as (before & b & after & E & M & B & A).
      * apply Forall_app. split.
        -- eapply Forall_impl; [| exact Hpre]. cbn. intros a Ha. lra.
        -- constructor; [exact Lt |].
           eapply Forall_impl; [| exact Hmid]. cbn. intros a Ha. lra.
      * constructor.
      * exists before, b, after. split; [| now repeat split].
        rewrite <- E. cbn [app]. now rewrite <- app_assoc.
    + destruct (IH pre (mid ++ [item])%list best) as (before & b & after & E & M & B & A).
      * exact Hpre.
      * apply Forall_app. split; [exact Hmid |]. constructor; [| constructor].
        now apply Qnot_lt_le.
      * exists before, b, after. split; [| now repeat split].
        rewrite <- E. now rewrite <- app_assoc.
Qed.

(** X12. The model [train_models] records as best is one with the
    highest test R^2, and among several with that score the one trained
    first: every earlier model scores strictly less, every later one at
    most as much.  On an empty result map the selection raises. *)
Theorem best_model_is_first_maximum (results : list (string * Q)) :
  Training.select_best_model [] = Raise (ExternalError "ValueError")
  /\ (results <> [] ->
      exists before name r2 after,
        results = (before ++ (name, r2) :: after)%list
        /\ Training.select_best_model results = Ok name
        /\ Forall (fun item => snd item < r2) before
        /\ Forall (fun item => snd item <= r2) after).
Proof.
  split; [reflexivity |].
  destruct results as [| first rest]; [contradiction | intros _].
  destruct (max_by_key_spec rest [] [] first (Forall_nil _) (Forall_nil _))
    as (before & [name r2] & after & E & M & B & A).
  exists before, name, r2, after. cbn [app] in E.
  split; [exact E |]. split; [| now split].
  cbn [Training.select_best_model]. now rewrite M.
Qed.

Lemma best_model_witness :
  Training.select_best_model
    [("random_forest", 0.91); ("gradient_boosting", 0.93); ("neural_network", 0.93)]
  = Ok "gradient_boosting".
Proof.
  destruct (proj2 (best_model_is_first_maximum
                     [("random_forest", 0.91); ("gradient_boosting", 0.93);
                      ("neural_network", 0.93)]))
    as (before & name & r2 & after & E & S & B & A); [discriminate |].
  rewrite S. vm_compute in S. exact (eq_sym S).
Defined.

(** ** The degenerate reasoning *)

Lemma string_append_length (s t : string) :
  String.length (s ++ t) = (String.length s + String.length t)%nat.
Proof. induction s as [| c s IH]; cbn; [reflexivity | now rewrite IH]. Qed.

Lemma join_length (sep first : string) (rest : list string) :
  (String.length first <= String.length (join sep (first :: rest)))%nat.
Proof.
  destruct rest as [| r rest]; cbn [join]; [lia |].
  rewrite string_append_length. lia.
Qed.

Lemma reason_not_empty (np_sqrt : Q -> Q) (cfg : Config) (fv : FeatureVector)
    (predictions : list (string * Q)) (final : Q) (k : Reasoning.reason_kind)
    (message : string) :
  Reasoning.reason_for np_sqrt cfg fv predictions final k = Some message ->
  (1 <= String.length message)%nat.
Proof.
  destruct k; cbn [Reasoning.reason_for]; cbv zeta;
    repeat match goal with |- context [if ?b then _ else _] => destruct b end;
    intro H; try discriminate; injection H as <-; cbn; lia.
Qed.

Lemma present_nil {A : Type} (l : list (option A)) :
  Reasoning.present l = [] <-> Forall (fun o => o = None) l.
Proof.
  induction l as [| [a |] l IH]; cbn.
  - split; [constructor | reflexivity].
  - split; [discriminate | intro H; inversion H; discriminate].
  - rewrite IH. split; [now constructor | intro H; now inversion H].
Qed.

Lemma present_In {A : Type} (l : list (option A)) (a : A) :
  In a (Reasoning.present l) -> In (Some a) l.
Proof.
  induction l as [| [b |] l IH]; cbn; [tauto | | tauto].
  intros [-> | H]; [now left | right; auto].
Qed.

(** X13. With a non-zero base fee, the reasoning text is the bare
    period "." exactly when none of the six threshold conditions holds;
    in every other case it is longer than one character. *)
Theorem reasoning_bare_period (np_sqrt : Q -> Q) (cfg : Config) (fv : FeatureVector)
    (predictions : list (string * Q)) (final : Q) :
  ~ BASE_FEE_RATE cfg == 0 ->
  (Reasoning._generate_production_reasoning np_sqrt cfg fv predictions final = Ok "."
   <-> forall k, Reasoning.reason_condition np_sqrt cfg fv predictions final k = false).
Proof.
  intro Hbase. rewrite (reasoning_is_ordered np_sqrt cfg fv predictions final Hbase).
  unfold Reasoning.ordered_reasons.
  set (slots := map (Reasoning.reason_for np_sqrt cfg fv predictions final)
                    Reasoning.reason_order).
  assert (Hall : Forall (fun o => o = None) slots
                 <-> forall k,
                       Reasoning.reason_condition np_sqrt cfg fv predictions final k = false).
  { split.
    - intros F k.
      destruct (Reasoning.reason_condition np_sqrt cfg fv predictions final k) eqn:E;
        [| reflexivity].
      apply reason_present_iff in E. exfalso. apply E.
      apply (proj1 (Forall_forall _ _) F). subst slots. apply in_map.
      destruct k; cbn; tauto.
    - intro H. subst slots. apply Forall_forall. intros o Ho.
      apply in_map_iff in Ho as (k & <- & _).
      destruct (Reasoning.reason_for np_sqrt cfg fv predictions final k) eqn:E;
        [| reflexivity].
      assert (N : Reasoning.reason_for np_sqrt cfg fv predictions final k <> None)
        by congruence.
      apply reason_present_iff in N. rewrite H in N. discriminate. }
  rewrite <- Hall, <- present_nil.
  destruct (Reasoning.present slots) as [| first rest] eqn:P.
  - split; reflexivity.
  - split; [| discriminate]. intro H. exfalso.
    apply (f_equal (fun r => match r with
                             | Ok s => String.length s
                             | Raise _ => 0%nat
                             end)) in H.
    cbv beta iota in H. rewrite string_append_length in H.
    change (String.length ".") with 1%nat in H.
    pose proof (join_length ". " first rest) as J.
    assert (I : In (Some first) slots).
    { apply present_In. rewrite P. now left. }
    subst slots. apply in_map_iff in I as (k & I & _).
    apply reason_not_empty in I. lia.
Qed.

Lemma reasoning_bare_period_witness :
  Reasoning._generate_production_reasoning approx_sqrt default_config Samples.calm
    Samples.two_predictions 0.3
  = Ok ".".
Proof.
  apply (reasoning_bare_period approx_sqrt default_config Samples.calm
           Samples.two_predictions 0.3).
  - vm_compute. discriminate.
  - intros []; vm_compute; reflexivity.
Defined.

(** ** The response cache of the data pipeline *)

Lemma dict_lookup_set_same {V : Type} (d : list (string * V)) (k : string) (v : V) :
  dict_lookup (dict_set d k v) k = Some v.
Proof.
  induction d as [| [k' v'] d IH]; cbn.
  - now rewrite String.eqb_refl.
  - destruct (String.eqb_spec k k') as [-> | N]; cbn.
    + now rewrite String.eqb_refl.
    + destruct (String.eqb_spec k k'); [contradiction | exact IH].
Qed.

Lemma dict_lookup_set_other {V : Type} (d : list (string * V)) (k k' : string) (v : V) :
  k' <> k -> dict_lookup (dict_set d k v) k' = dict_lookup d k'.
Proof.
  intro N. induction d as [| [k0 v0] d IH]; cbn.
  - destruct (String.eqb_spec k' k); [contradiction | reflexivity].
  - destruct (String.eqb_spec k k0) as [-> | N0]; cbn.
    + destruct (String.eqb_spec k' k0); [contradiction | reflexivity].
    + destruct (String.eqb k' k0); [reflexivity | exact IH].
Qed.

Lemma dict_set_NoDup {V : Type} (d : list (string * V)) (k : string) (v : V) :
  NoDup (dict_keys d) -> NoDup (dict_keys (dict_set d k v)).
Proof.
  induction d as [| [k' v'] d IH]; cbn; intro H.
  - constructor; [intros [] | constructor].
  - inversion H as [| ? ? Hk Hd]; subst.
    destruct (String.eqb_spec k k') as [-> | N]; cbn.
    + now constructor.
    + constructor; [| now apply IH].
      intro I. apply Hk. clear - I N.
      induction d as [| [k0 v0] d IH]; cbn in *.
      * destruct I as [E | []]. congruence.
      * destruct (String.eqb_spec k k0) as [-> | N0]; cbn in I; [exact I |].
        destruct I as [E | I]; [now left | right; auto].
Qed.

Lemma dict_lookup_delete_same {V : Type} (d : list (string * V)) (k : string) :
  NoDup (dict_keys d) -> dict_lookup (Pipeline.dict_delete d k) k = None.
Proof.
  induction d as [| [k' v'] d IH]; cbn; intro H; [reflexivity |].
  inversion H as [| ? ? Hk Hd]; subst.
  destruct (String.eqb_spec k k') as [-> | N]; cbn.
  - destruct (dict_lookup d k') as [v |] eqn:E; [| reflexivity].
    exfalso. apply Hk. now apply dict_lookup_keys in E.
  - destruct (String.eqb_spec k k'); [contradiction | now apply IH].
Qed.

Lemma dict_lookup_delete_other {V : Type} (d : list (string * V)) (k k' : string) :
  k' <> k -> dict_lookup (Pipeline.dict_delete d k) k' = dict_lookup d k'.
Proof.
  intro N. induction d as [| [k0 v0] d IH]; cbn; [reflexivity |].
  destruct (String.eqb_spec k k0) as [-> | N0]; cbn.
  - destruct (String.eqb_spec k' k0); [contradiction | reflexivity].
  - destruct (String.eqb k' k0); [reflexivity | exact IH].
Qed.

(** X14. A value stored in the cache at time [t] is returned unchanged
    by every read made less than [ttl] later and leaves the cache as it
    is; a read made [ttl] or more later answers [None] and removes the
    entry, so that the key is absent afterwards; and storing under one
    key never changes what a read of another key answers. *)
Theorem cache_round_trip (self : Pipeline.DataCache) (key : string) (value : pyval)
    (t t' : Q) :
  NoDup (dict_keys (Pipeline.cache self)) ->
  let stored := Pipeline.set self key value t in
  (t' - t < Pipeline.ttl self -> Pipeline.get stored key t' = (value, stored))
  /\ (Pipeline.ttl self <= t' - t ->
      fst (Pipeline.get stored key t') = PNone
      /\ dict_lookup (Pipeline.cache (snd (Pipeline.get stored key t'))) key = None)
  /\ (forall key', key' <> key ->
        fst (Pipeline.get stored key' t') = fst (Pipeline.get self key' t'))
  /\ NoDup (dict_keys (Pipeline.cache stored)).
Proof.
  intros Hnd stored.
  assert (Hnd' : NoDup (dict_keys (Pipeline.cache stored)))
    by (apply dict_set_NoDup; exact Hnd).
  split; [| split; [| split; [| exact Hnd']]].
  - intro H. unfold Pipeline.get. subst stored. cbn [Pipeline.set Pipeline.cache Pipeline.ttl].
    rewrite dict_lookup_set_same. apply Qltb_lt in H. now rewrite H.
  - intro H. unfold Pipeline.get.
    assert (E : dict_lookup (Pipeline.cache stored) key = Some (value, t))
      by apply dict_lookup_set_same.
    rewrite E. apply Qltb_ge in H.
    change (Pipeline.ttl stored) with (Pipeline.ttl self). rewrite H.
    cbn [fst snd Pipeline.cache]. split; [reflexivity |].
    now apply dict_lookup_delete_same.
  - intros key' N. unfold Pipeline.get. subst stored.
    cbn [Pipeline.set Pipeline.cache Pipeline.ttl].
    rewrite (dict_lookup_set_other _ _ _ _ N).
    destruct (dict_lookup (Pipeline.cache self) key') as [[data stamp] |]; [| reflexivity].
    destruct (Qltb (t' - stamp) (Pipeline.ttl self)); reflexivity.
Qed.

Lemma cache_round_trip_witness :
  Pipeline.get
    (Pipeline.set {| Pipeline.cache := []; Pipeline.ttl := 300 |} "coingecko_avalanche-2"
       (PDict MoreSamples.price_only) 1000)
    "coingecko_avalanche-2" 1299
  = (PDict MoreSamples.price_only,
     Pipeline.set {| Pipeline.cache := []; Pipeline.ttl := 300 |} "coingecko_avalanche-2"
       (PDict MoreSamples.price_only) 1000).
Proof.
  apply (cache_round_trip {| Pipeline.cache := []; Pipeline.ttl := 300 |}
           "coingecko_avalanche-2" (PDict MoreSamples.price_only) 1000 1299).
  - constructor.
  - cbn [Pipeline.ttl]. lra.
Defined.

(** ** The relative strength index *)

Lemma rsi_changes_length (previous : Q) (prices gains losses : list Q) :
  List.length (fst (Pipeline.rsi_changes previous prices gains losses))
  = (List.length gains + List.length prices)%nat
  /\ List.length (snd (Pipeline.rsi_changes previous prices gains losses))
     = (List.length losses + List.length prices)%nat.
Proof.
  revert previous gains losses.
  induction prices as [| price rest IH]; intros previous gains losses; cbn.
  - split; lia.
  - destruct (Qltb 0 (price - previous));
      destruct (IH price (py_append gains (price - previous)) (py_append losses 0)) as [A B];
      destruct (IH price (py_append gains 0) (py_append losses (Qabs (price - previous))))
        as [A' B'];
      unfold py_append in *; rewrite ?length_app in *; cbn in *; split; lia.
Qed.

Lemma rsi_changes_nonneg (previous : Q) (prices gains losses : list Q) :
  Forall (fun x => 0 <= x) gains -> Forall (fun x => 0 <= x) losses ->
  Forall (fun x => 0 <= x) (fst (Pipeline.rsi_changes previous prices gains losses))
  /\ Forall (fun x => 0 <= x) (snd (Pipeline.rsi_changes previous prices gains losses)).
Proof.
  revert previous gains losses.
  induction prices as [| price rest IH]; intros previous gains losses Hg Hl; cbn.
  - now split.
  - destruct (Qltb_spec 0 (price - previous)) as [P | P]; apply IH;
      unfold py_append; apply Forall_app; split; trivial;
      (constructor; [| constructor]).
    + lra.
    + lra.
    + lra.
    + exact (Qabs_nonneg (price - previous)).
Qed.

Lemma last_items_Forall {A : Type} (P : A -> Prop) (n : nat) (xs : list A) :
  Forall P xs -> Forall P (Pipeline.last_items n xs).
Proof.
  intro H. destruct n as [| n]; cbn [Pipeline.last_items]; [exact H |].
  apply Forall_forall. intros x Hx.
  apply (proj1 (Forall_forall _ _) H).
  rewrite <- (firstn_skipn (List.length xs - S n) xs). apply in_or_app. now right.
Qed.

Lemma py_sum_nonneg (xs : list Q) : Forall (fun x => 0 <= x) xs -> 0 <= py_sum xs.
Proof.
  induction 1 as [| x xs Hx _ IH].
  - unfold py_sum. cbn. lra.
  - rewrite py_sum_cons. lra.
Qed.

(** On a flat series every change is a zero loss. *)
Lemma rsi_changes_flat (c previous : Q) (prices gains losses : list Q) :
  previous == c ->
  Forall (fun p => p == c) prices ->
  Forall (fun x => x == 0) losses ->
  Forall (fun x => x == 0) (snd (Pipeline.rsi_changes previous prices gains losses)).
Proof.
  revert previous gains losses.
  induction prices as [| price rest IH]; intros previous gains losses Hp Hall Hl;
    cbn [Pipeline.rsi_changes snd].
  - exact Hl.
  - inversion Hall as [| ? ? Hprice Hrest]; subst.
    destruct (Qltb_spec 0 (price - previous)) as [P | P]; [lra |].
    apply IH; trivial.
    unfold py_append. apply Forall_app. split; [exact Hl |].
    constructor; [| constructor].
    assert (E : price - previous == 0) by lra. rewrite E. reflexivity.
Qed.

Lemma py_sum_zero (xs : list Q) : Forall (fun x => x == 0) xs -> py_sum xs == 0.
Proof.
  induction 1 as [| x xs Hx _ IH].
  - reflexivity.
  - rewrite py_sum_cons, Hx, IH. reflexivity.
Qed.

Lemma rsi_body_value (price_data : list Q) (period : nat) :
  (0 < period)%nat ->
  let changes :=
    match price_data with
    | [] => ([], [])
    | first :: rest => Pipeline.rsi_changes first rest [] []
    end in
  (period <= List.length (fst changes))%nat ->
  let G := py_sum (Pipeline.last_items period (fst changes)) in
  let L := py_sum (Pipeline.last_items period (snd changes)) in
  0 <= G /\ 0 <= L
  /\ exists r,
       Pipeline.rsi_body price_data period = Ok r
       /\ (L == 0 -> r = 100.0)
       /\ (0 < L -> r == 100 * G / (G + L))
       /\ 0 <= r <= 100.
Proof.
  intros Hperiod changes Hlen G L.
  assert (Hnn : Forall (fun x => 0 <= x) (fst changes)
                /\ Forall (fun x => 0 <= x) (snd changes)).
  { subst changes. destruct price_data as [| first rest]; [split; constructor |].
    apply rsi_changes_nonneg; constructor. }
  destruct Hnn as [Hg Hl].
  assert (HG : 0 <= G) by (apply py_sum_nonneg, last_items_Forall, Hg).
  assert (HL : 0 <= L) by (apply py_sum_nonneg, last_items_Forall, Hl).
  split; [exact HG |]. split; [exact HL |].
  unfold Pipeline.rsi_body. fold changes.
  destruct changes as [gains losses] eqn:C. cbn [fst snd] in *.
  assert (Hlt : (List.length gains <? period)%nat = false) by (apply Nat.ltb_ge; lia).
  rewrite Hlt.
  set (n := inject_Z (Z.of_nat period)).
  assert (Hn : 0 < n).
  { subst n. change 0 with (inject_Z 0). rewrite <- Zlt_Qlt. lia. }
  rewrite !py_div_Ok by lra. cbn [bind]. fold G L.
  unfold Qeqb. destruct (Qeq_bool (L / n) 0) eqn:Z.
  - apply Qeq_bool_iff in Z.
    assert (L0 : L == 0).
    { assert (E : L == L / n * n) by (field; lra). rewrite E, Z. lra. }
    exists 100.0. split; [reflexivity |]. split; [reflexivity |]. split; [lra | lra].
  - assert (Lpos : 0 < L).
    { destruct (Qlt_le_dec 0 L) as [P | P]; [exact P |].
      assert (L0 : L == 0) by lra.
      assert (E : L / n == 0) by (rewrite L0; field; lra).
      apply Qeq_bool_iff in E. congruence. }
    assert (Hq : ~ L / n == 0).
    { intro E. apply Qeq_bool_iff in E. congruence. }
    rewrite (py_div_Ok _ _ Hq). cbn [bind].
    assert (Hrs : 0 <= G / n / (L / n)).
    { assert (E : G / n / (L / n) == G / L) by (field; split; lra).
      rewrite E. apply Qle_shift_div_l; lra. }
    rewrite py_div_Ok by lra. cbn [bind].
    assert (V : 100 - 100 / (1 + G / n / (L / n)) == 100 * G / (G + L)).
    { field. repeat split; lra. }
    assert (R : 0 <= 100 * G / (G + L) <= 100).
    { apply div_bounds; [lra | lra | lra]. }
    eexists. split; [reflexivity |]. split; [intro; lra |].
    assert (K : py_max 0 (py_min 100 (100 - 100 / (1 + G / n / (L / n))))
                == 100 * G / (G + L)).
    { rewrite <- V. unfold py_min, py_max.
      destruct (Qltb_spec (100 - 100 / (1 + G / n / (L / n))) 100) as [A | A].
      - destruct (Qltb_spec 0 (100 - 100 / (1 + G / n / (L / n)))) as [B | B];
          [reflexivity | lra].
      - destruct (Qltb_spec 0 100); lra. }
    split; [intros _; exact K |]. rewrite K. exact R.
Qed.



(** ** Fee adjustments and confidence of the market indicators *)

(** X16. With a base fee of at most 2, the volatility-based fee
    adjustment never goes below the base fee nor above the 2 percent
    cap, equals the base fee up to the volatility threshold, and never
    decreases when volatility rises. *)
Theorem fee_adjustment_monotone (cfg : Config) (threshold v1 v2 : Q) :
  BASE_FEE_RATE cfg <= 2.0 ->
  v1 <= v2 ->
  BASE_FEE_RATE cfg <= Pipeline._calculate_fee_adjustment cfg threshold v1 <= 2.0
  /\ Pipeline._calculate_fee_adjustment cfg threshold v1
     <= Pipeline._calculate_fee_adjustment cfg threshold v2
  /\ (v1 <= threshold ->
      Pipeline._calculate_fee_adjustment cfg threshold v1 = BASE_FEE_RATE cfg).
Proof.
  intros Hbase Hv. unfold Pipeline._calculate_fee_adjustment. cbv zeta.
  assert (D1 : 0.2 * ((v1 - threshold) / 3.0) == (v1 - threshold) * (2 # 30)) by field.
  assert (D2 : 0.2 * ((v2 - threshold) / 3.0) == (v2 - threshold) * (2 # 30)) by field.
  set (a1 := 0.2 * ((v1 - threshold) / 3.0)) in *.
  set (a2 := 0.2 * ((v2 - threshold) / 3.0)) in *.
  unfold py_min.
  destruct (Qltb_spec threshold v1) as [T1 | T1];
    destruct (Qltb_spec threshold v2) as [T2 | T2];
    try destruct (Qltb_spec 2.0 (BASE_FEE_RATE cfg + a1));
    try destruct (Qltb_spec 2.0 (BASE_FEE_RATE cfg + a2));
    (split; [split; lra | split; [lra | intro; try lra; reflexivity]]).
Qed.

Lemma fee_adjustment_witness :
  Pipeline._calculate_fee_adjustment default_config 3.0 2
  <= Pipeline._calculate_fee_adjustment default_config 3.0 9.
Proof.
  apply (fee_adjustment_monotone default_config 3.0 2 9); vm_compute; discriminate.
Defined.

(** X17. [_calculate_advanced_fee_adjustment] raises only through the
    network record: it returns whenever that record is absent or empty,
    or is a dictionary whose gas price is absent or a number, and an
    exception is an [AttributeError] or a [TypeError] met on a truthy
    network value.  Whenever it returns, the fee lies in [0.05, 2.0]. *)
Theorem advanced_fee_adjustment_range (cfg : Config) (volatility volume_24h rsi : Q)
    (network : pyval) :
  let result :=
    Pipeline._calculate_advanced_fee_adjustment cfg volatility volume_24h rsi network in
  (truthy network = false -> exists fee, result = Ok fee)
  /\ (forall nw,
        network = PDict nw -> Snapshot.numeric_or_absent nw "gas_price_gwei" = true ->
        exists fee, result = Ok fee)
  /\ (forall e,
        result = Raise e ->
        truthy network = true /\ (e = AttributeError \/ e = TypeError))
  /\ (forall fee, result = Ok fee -> 0.05 <= fee <= 2.0).
Proof.
  cbv zeta. unfold Pipeline._calculate_advanced_fee_adjustment. cbv zeta.
  split; [| split; [| split]].
  - intros ->. cbn [bind]. eexists. reflexivity.
  - intros nw -> H. destruct (truthy (PDict nw)); cbn [py_get bind];
      [| eexists; reflexivity].
    rewrite (as_num_at nw "gas_price_gwei" 25 H). cbn [bind]. eexists. reflexivity.
  - intros e H. destruct (truthy network); [| discriminate H].
    split; [reflexivity |].
    destruct network as [| q | s | nw]; cbn [py_get bind] in H;
      try (injection H as <-; now left).
    destruct (match dict_lookup nw "gas_price_gwei" with
              | Some v => v
              | None => PNum 25
              end) as [| q | s | d]; cbn [as_num bind] in H;
      try discriminate H; injection H as <-; now right.
  - intros fee H. apply bind_Ok in H as (adj & _ & H). injection H as <-.
    apply clamp_range; lra.
Qed.

Lemma advanced_fee_adjustment_witness :
  exists fee,
    Pipeline._calculate_advanced_fee_adjustment default_config 22 50000000 85 PNone
    = Ok fee.
Proof.
  apply (advanced_fee_adjustment_range default_config 22 50000000 85 PNone). reflexivity.
Defined.

(** X18. [_calculate_recommendation_confidence] never reports less
    than 0.7 nor more than 0.95: the lower bound 0.3 of its clamp is
    out of reach.  It cannot raise when the coingecko record is absent
    or empty, and then reports 0.7 plus 0.05 for each of the global and
    network records present. *)
Theorem recommendation_confidence_range (coingecko global_data network : pyval) :
  (forall c,
     Pipeline._calculate_recommendation_confidence coingecko global_data network = Ok c ->
     0.7 <= c <= 0.95)
  /\ (truthy coingecko = false ->
      exists c,
        Pipeline._calculate_recommendation_confidence coingecko global_data network = Ok c
        /\ c == 0.7 + (if truthy global_data then 0.05 else 0)
                  + (if truthy network then 0.05 else 0)).
Proof.
  unfold Pipeline._calculate_recommendation_confidence. cbv zeta. split.
  - intros c H. apply bind_Ok in H as (conf & Hconf & H). injection H as <-.
    assert (R : 0.7 <= conf <= 1).
    { destruct (truthy coingecko).
      - apply bind_Ok in Hconf as (price & _ & Hconf).
        apply bind_Ok in Hconf as (volume & _ & Hconf).
        apply bind_Ok in Hconf as (p & _ & Hconf).
        apply bind_Ok in Hconf as (reasonable & _ & Hconf).
        apply bind_Ok in Hconf as (vv & _ & Hconf).
        apply bind_Ok in Hconf as (vol & _ & Hconf). injection Hconf as <-.
        repeat match goal with |- context [if ?b then _ else _] => destruct b end;
          split; lra.
      - injection Hconf as <-.
        repeat match goal with |- context [if ?b then _ else _] => destruct b end;
          split; lra. }
    unfold py_min, py_max.
    destruct (Qltb_spec 0.95 conf);
      repeat match goal with
             | |- context [Qltb ?a ?b] => destruct (Qltb_spec a b)
             end; split; lra.
  - intros ->. cbn [bind]. eexists. split; [reflexivity |].
    destruct (truthy global_data), (truthy network); cbv iota;
      unfold py_min;
      match goal with
      | |- context [Qltb 0.95 ?x] => destruct (Qltb_spec 0.95 x); [lra |]
      end;
      unfold py_max;
      match goal with
      | |- context [Qltb 0.3 ?x] => destruct (Qltb_spec 0.3 x); lra
      end.
Qed.

Lemma recommendation_confidence_witness :
  exists c,
    Pipeline._calculate_recommendation_confidence PNone PNone PNone = Ok c
    /\ c == 0.7 + 0 + 0.
Proof.
  apply (recommendation_confidence_range PNone PNone PNone). reflexivity.
Defined.
(** ** The codec of the advanced predictor *)

Ltac read_number v :=
  destruct v; cbn [as_num bind]; trivial.


(** ** The classifier of the advanced predictor *)

(** X20. The advanced classifier answers one of six labels; the two
    stable labels are given exactly below a volatility of 3, moderate
    exactly for a volatility from 3 to 10 that is not both above 8 and
    congested, and a volatility above 15 is never called moderate or
    stable. *)
Theorem advanced_classifier_bands (v : Q) (fv : FeatureVector) :
  let label := AdvancedPredictor._classify_market_condition v fv in
  In label AdvancedPredictor.market_conditions
  /\ (v < 3 <-> label = "stable" \/ label = "stable_liquid")
  /\ (label = "moderate" <-> 3 <= v <= 10 /\ ~ (8 < v /\ 80 < gas_price_gwei fv))
  /\ (15 < v ->
      label = "highly_volatile" \/ label = "congested_volatile" \/ label = "volatile").
Proof.
  cbv zeta. unfold AdvancedPredictor._classify_market_condition. cbv zeta.
  destruct (Qltb_spec 15 v), (Qltb_spec 10 (Qabs (price_change_24h fv)));
    cbn [andb];
    destruct (Qltb_spec 8 v), (Qltb_spec 80 (gas_price_gwei fv)); cbn [andb];
    destruct (Qltb_spec v 2), (Qltb_spec 800000000 (volume_24h fv)); cbn [andb];
    destruct (Qltb_spec v 3), (Qltb_spec 10 v);
    try lra;
    repeat match goal with
           | |- _ /\ _ => split
           | |- _ <-> _ => split
           | |- ~ _ => intro
           | |- _ -> _ => intro
           | H : _ /\ _ |- _ => destruct H
           | H : _ \/ _ |- _ => destruct H
           end;
    try discriminate;
    first [ lra | reflexivity | (left; reflexivity) | (right; reflexivity)
          | (right; left; reflexivity) | (right; right; reflexivity)
          | (cbn; tauto)
          | match goal with N : ~ _ |- _ => exfalso; apply N; split; lra end ].
Qed.

(** ** The loop over the advanced members *)

Lemma advanced_collect_keys (scalers : list (string * AdvancedPredictor.scaler))
    (ms : list (string * option AdvancedPredictor.model))
    (fv : FeatureVector) (predictions confidences : list (string * Q)) :
  dict_keys confidences = dict_keys predictions ->
  dict_keys (snd (AdvancedPredictor.collect_predictions scalers ms fv predictions
                    confidences))
  = dict_keys (fst (AdvancedPredictor.collect_predictions scalers ms fv predictions
                      confidences)).
Proof.
  revert predictions confidences.
  induction ms as [| [name [model |]] ms IH]; intros predictions confidences H;
    cbn [AdvancedPredictor.collect_predictions].
  - exact H.
  - destruct (dict_index scalers name) as [transform | e]; cbn [bind try_except];
      [| now apply IH].
    destruct (transform fv) as [scaled | e]; cbn [bind try_except]; [| now apply IH].
    destruct (model scaled) as [pred | e]; cbn [bind try_except]; [| now apply IH].
    apply IH. now apply dict_set_keys.
  - now apply IH.
Qed.

Lemma advanced_collect_range (scalers : list (string * AdvancedPredictor.scaler))
    (ms : list (string * option AdvancedPredictor.model))
    (fv : FeatureVector) (predictions confidences : list (string * Q)) :
  Forall (fun c => 0.5 <= c <= 0.95) (dict_values confidences) ->
  Forall (fun c => 0.5 <= c <= 0.95)
    (dict_values (snd (AdvancedPredictor.collect_predictions scalers ms fv predictions
                         confidences))).
Proof.
  revert predictions confidences.
  induction ms as [| [name [model |]] ms IH]; intros predictions confidences H;
    cbn [AdvancedPredictor.collect_predictions].
  - exact H.
  - destruct (dict_index scalers name) as [transform | e]; cbn [bind try_except];
      [| now apply IH].
    destruct (transform fv) as [scaled | e]; cbn [bind try_except]; [| now apply IH].
    destruct (model scaled) as [pred | e]; cbn [bind try_except]; [| now apply IH].
    apply IH. apply dict_set_values_Forall; [exact H |].
    apply advanced_confidence_range.
  - now apply IH.
Qed.

(** What the loop leaves: the same keys in both maps, confidences in
    [0.5, 0.95], hence a positive total weight. *)
Lemma advanced_collected (scalers : list (string * AdvancedPredictor.scaler))
    (ms : list (string * option AdvancedPredictor.model))
    (fv : FeatureVector) (predictions confidences : list (string * Q)) :
  AdvancedPredictor.collect_predictions scalers ms fv [] [] = (predictions, confidences) ->
  predictions <> [] ->
  dict_keys confidences = dict_keys predictions
  /\ Forall (fun c => 0.5 <= c <= 0.95) (dict_values confidences)
  /\ dict_values confidences <> []
  /\ 0 < py_sum (dict_values confidences).
Proof.
  intros C Hne.
  assert (K : dict_keys confidences = dict_keys predictions).
  { pose proof (advanced_collect_keys scalers ms fv [] [] eq_refl) as K.
    now rewrite C in K. }
  assert (R : Forall (fun c => 0.5 <= c <= 0.95) (dict_values confidences)).
  { pose proof (advanced_collect_range scalers ms fv [] [] (Forall_nil _)) as R.
    now rewrite C in R. }
  assert (V : dict_values confidences <> []).
  { apply values_nonempty. eapply keys_nonempty; eauto. }
  repeat split; trivial.
  apply py_sum_pos; [exact V |].
  eapply Forall_impl; [| exact R]. cbv beta. intros c [L _]. lra.
Qed.

(** ** The reasoning of the advanced predictor *)

Lemma fold_max_ge (rest : list Q) (m : Q) :
  m <= fold_left (fun m y => if Qltb m y then y else m) rest m.
Proof.
  revert m. induction rest as [| y rest IH]; intro m; cbn [fold_left]; [apply Qle_refl |].
  destruct (Qltb_spec m y) as [L | L]; [| apply IH].
  eapply Qle_trans; [apply Qlt_le_weak, L | apply IH].
Qed.

Lemma fold_min_le (rest : list Q) (m : Q) :
  fold_left (fun m y => if Qltb y m then y else m) rest m <= m.
Proof.
  revert m. induction rest as [| y rest IH]; intro m; cbn [fold_left]; [apply Qle_refl |].
  destruct (Qltb_spec y m) as [L | L]; [| apply IH].
  eapply Qle_trans; [apply IH | apply Qlt_le_weak, L].
Qed.

(** The largest and the smallest prediction exist for a non-empty map,
    and are in order. *)
Lemma range_of_predictions (predictions : list (string * Q)) :
  predictions <> [] ->
  exists hi lo,
    AdvancedPredictor.py_max_of (dict_values predictions) = Ok hi
    /\ AdvancedPredictor.py_min_of (dict_values predictions) = Ok lo
    /\ lo <= hi.
Proof.
  destruct predictions as [| [k p] rest]; [contradiction | intros _].
  cbn [dict_values map snd AdvancedPredictor.py_max_of AdvancedPredictor.py_min_of].
  eexists. eexists. split; [reflexivity |]. split; [reflexivity |].
  eapply Qle_trans; [apply fold_min_le | apply fold_max_ge].
Qed.

Lemma string_append_assoc (s t u : string) : (s ++ t) ++ u = s ++ (t ++ u).
Proof. induction s as [| c s IH]; cbn; [reflexivity | now rewrite IH]. Qed.

Lemma opens_first (first : string) : opens_with first (py_append [] first).
Proof. now exists []. Qed.

Lemma opens_append (first next : string) (reasons : list string) :
  opens_with first reasons -> opens_with first (py_append reasons next).
Proof. intros [rest ->]. now exists (rest ++ [next])%list. Qed.

Lemma opens_if (first next : string) (b : bool) (reasons : list string) :
  opens_with first reasons ->
  opens_with first (if b then py_append reasons next else reasons).
Proof. intro H. destruct b; [now apply opens_append | exact H]. Qed.

Lemma opens_if2 (first next next' : string) (b b' : bool) (reasons : list string) :
  opens_with first reasons ->
  opens_with first (if b then py_append reasons next
                    else if b' then py_append reasons next' else reasons).
Proof. intro H. destruct b, b'; try (now apply opens_append); exact H. Qed.

Lemma opens_join (first : string) (reasons : list string) :
  opens_with first reasons ->
  exists tail, join ". " reasons ++ "." = first ++ tail.
Proof.
  intros [rest ->]. destruct rest as [| r rest]; cbn [join].
  - now exists ".".
  - exists (". " ++ join ". " (r :: rest) ++ ".").
    now rewrite !string_append_assoc.
Qed.

(** With a non-zero base fee and at least one prediction the generator
    returns, and what it returns opens with the consensus sentence. *)
Lemma advanced_reasoning_shape (cfg : Config) (fv : FeatureVector)
    (predictions : list (string * Q)) (final : Q) (hi lo : Q) :
  ~ BASE_FEE_RATE cfg == 0 ->
  AdvancedPredictor.py_max_of (dict_values predictions) = Ok hi ->
  AdvancedPredictor.py_min_of (dict_values predictions) = Ok lo ->
  exists tail,
    AdvancedPredictor._generate_advanced_reasoning cfg fv predictions final
    = Ok (AdvancedPredictor.consensus_sentence (hi - lo) ++ tail).
Proof.
  intros Hbase Hhi Hlo.
  unfold AdvancedPredictor._generate_advanced_reasoning. cbv zeta.
  rewrite Hhi, Hlo. cbn [bind]. rewrite (py_div_Ok _ _ Hbase). cbn [bind].
  match goal with
  | |- exists tail, bind ?c _ = _ =>
      assert (R : exists reasons,
                c = Ok reasons
                /\ opens_with (AdvancedPredictor.consensus_sentence (hi - lo)) reasons)
  end.
  { match goal with
    | |- context [if ?b then Ok (py_append ?r ?x)
                  else if ?b' then Ok (py_append ?r ?y) else Ok ?r] =>
        assert (O : opens_with (AdvancedPredictor.consensus_sentence (hi - lo)) r)
          by (apply opens_if; apply opens_if; apply opens_if2; apply opens_if2;
              apply opens_first);
        destruct b; [| destruct b']; eexists; (split; [reflexivity |]);
        try (now apply opens_append); exact O
    end. }
  destruct R as (reasons & -> & O). cbn [bind].
  destruct (opens_join _ _ O) as [tail E]. exists tail. now rewrite E.
Qed.

(** X21. For at least one prediction and a non-zero base fee the
    advanced reasoning generator returns a text that opens with the
    consensus sentence, computed from a non-negative range between the
    largest and the smallest prediction: unlike the production
    generator it never returns a bare period. *)
Theorem advanced_reasoning_opens_with_consensus (cfg : Config) (fv : FeatureVector)
    (predictions : list (string * Q)) (final : Q) :
  predictions <> [] ->
  ~ BASE_FEE_RATE cfg == 0 ->
  exists hi lo tail,
    AdvancedPredictor.py_max_of (dict_values predictions) = Ok hi
    /\ AdvancedPredictor.py_min_of (dict_values predictions) = Ok lo
    /\ 0 <= hi - lo
    /\ AdvancedPredictor._generate_advanced_reasoning cfg fv predictions final
       = Ok (AdvancedPredictor.consensus_sentence (hi - lo) ++ tail)
    /\ AdvancedPredictor._generate_advanced_reasoning cfg fv predictions final <> Ok ".".
Proof.
  intros Hne Hbase.
  destruct (range_of_predictions predictions Hne) as (hi & lo & Hhi & Hlo & Hle).
  destruct (advanced_reasoning_shape cfg fv predictions final hi lo Hbase Hhi Hlo)
    as [tail E].
  exists hi, lo, tail. repeat split; trivial; [lra |].
  rewrite E. unfold AdvancedPredictor.consensus_sentence.
  destruct (Qltb (hi - lo) 0.1); cbn; discriminate.
Qed.

Lemma advanced_reasoning_witness :
  exists hi lo tail,
    AdvancedPredictor.py_max_of (dict_values Samples.two_predictions) = Ok hi
    /\ AdvancedPredictor.py_min_of (dict_values Samples.two_predictions) = Ok lo
    /\ 0 <= hi - lo
    /\ AdvancedPredictor._generate_advanced_reasoning default_config Samples.calm
         Samples.two_predictions 0.3
       = Ok (AdvancedPredictor.consensus_sentence (hi - lo) ++ tail)
    /\ AdvancedPredictor._generate_advanced_reasoning default_config Samples.calm
         Samples.two_predictions 0.3 <> Ok ".".
Proof.
  apply (advanced_reasoning_opens_with_consensus default_config Samples.calm
           Samples.two_predictions 0.3); [discriminate | vm_compute; discriminate].
Defined.

(** ** The record the advanced predictor returns *)

(** A successful body is the fallback record or a record whose fee is
    the clamped confidence-weighted mean of what the loop collected. *)
Lemma advanced_body_full (cfg : Config) (get_live_market_data : exc pyval)
    (train_models : AdvancedPredictor.state -> exc AdvancedPredictor.state)
    (self : AdvancedPredictor.state) (now : datetime) (market_data : pyval) (r : pydict) :
  AdvancedPredictor.predict_body cfg get_live_market_data train_models self now market_data
  = Ok r ->
  r = AdvancedPredictor._fallback_prediction cfg now
  \/ exists md self' fv predictions confidences reasoning,
       (market_data <> PNone -> md = market_data)
       /\ (AdvancedPredictor.is_trained self = true -> self' = self)
       /\ AdvancedPredictor._extract_advanced_features now md = Some fv
       /\ AdvancedPredictor.collect_predictions (AdvancedPredictor.scalers self')
            (AdvancedPredictor.models self') fv [] []
          = (predictions, confidences)
       /\ predictions <> []
       /\ AdvancedPredictor._generate_advanced_reasoning cfg fv predictions
            (py_max 0.05
               (py_min (Production.confidence_weighted_mean predictions confidences) 3.0))
          = Ok reasoning
       /\ r = [ ("recommended_fee",
                 PNum (py_round
                         (py_max 0.05
                            (py_min (Production.confidence_weighted_mean predictions
                                       confidences) 3.0)) 4));
                ("confidence",
                 PNum (py_round (py_min (np_mean (dict_values confidences)) 0.95) 3));
                ("reasoning", PStr reasoning);
                ("market_condition",
                 PStr (AdvancedPredictor._classify_market_condition (volatility fv) fv));
                ("model_predictions", PDict (Predictor.rounded 4 predictions));
                ("model_confidences", PDict (Predictor.rounded 3 confidences));
                ("ensemble_method", PStr "weighted_average");
                ("features_analyzed",
                 PNum (inject_Z (Z.of_nat (List.length (AdvancedPredictor.columns self')))));
                ("timestamp", PStr (isoformat now)) ].
Proof.
  unfold AdvancedPredictor.predict_body. intro H.
  apply bind_Ok in H as (md & Hmd & H).
  destruct (AdvancedPredictor._extract_advanced_features now md) as [fv |] eqn:X;
    [| left; congruence].
  apply bind_Ok in H as (self' & Hself & H).
  destruct (AdvancedPredictor.collect_predictions (AdvancedPredictor.scalers self')
              (AdvancedPredictor.models self') fv [] [])
    as [predictions confidences] eqn:C.
  destruct predictions as [| p predictions]; [left; congruence |].
  assert (Hne : p :: predictions <> []) by discriminate.
  destruct (advanced_collected _ _ _ _ _ C Hne) as (K & _ & _ & W).
  apply bind_Ok in H as (ensemble & He & H).
  destruct (Qltb_spec 0 (py_sum (dict_values confidences))) as [_ | N];
    [| contradiction].
  rewrite weighted_terms_Ok in He by (intros k Hk; now rewrite K).
  cbv beta iota delta [bind] in He. injection He as <-.
  apply bind_Ok in H as (reasoning & Hr & H).
  right. exists md, self', fv, (p :: predictions), confidences, reasoning.
  split.
  { intro Hm. destruct market_data; try contradiction; congruence. }
  split.
  { intro T. rewrite T in Hself. congruence. }
  split; [exact X |]. split; [exact C |]. split; [exact Hne |].
  split; [exact Hr |]. now injection H as <-.
Qed.

Lemma py_round_advanced_fee (x : Q) : 0.05 <= x <= 3.0 -> 0.05 <= py_round x 4 <= 3.0.
Proof.
  intros [L U].
  destruct (py_round_bounds x 4 500 30000) as [L' U'].
  - change (inject_Z 500 / inject_Z (10 ^ Z.of_nat 4)) with (500 # 10000). lra.
  - change (inject_Z 30000 / inject_Z (10 ^ Z.of_nat 4)) with (30000 # 10000). lra.
  - change (inject_Z 500 / inject_Z (10 ^ Z.of_nat 4)) with (500 # 10000) in L'.
    change (inject_Z 30000 / inject_Z (10 ^ Z.of_nat 4)) with (30000 # 10000) in U'.
    split; lra.
Qed.

Lemma py_round_advanced_confidence (x : Q) :
  0.5 <= x <= 0.95 -> 0.5 <= py_round x 3 <= 0.95.
Proof.
  intros [L U].
  destruct (py_round_bounds x 3 500 950) as [L' U'].
  - change (inject_Z 500 / inject_Z (10 ^ Z.of_nat 3)) with (500 # 1000). lra.
  - change (inject_Z 950 / inject_Z (10 ^ Z.of_nat 3)) with (950 # 1000). lra.
  - change (inject_Z 500 / inject_Z (10 ^ Z.of_nat 3)) with (500 # 1000) in L'.
    change (inject_Z 950 / inject_Z (10 ^ Z.of_nat 3)) with (950 # 1000) in U'.
    split; lra.
Qed.

(** X22. Whatever the inputs, the record returned by the advanced
    [predict_optimal_fee] is its fallback record (confidence 0.3) or
    carries a recommended fee in [0.05, 3.0], a confidence in
    [0.5, 0.95] (the cap at 0.95 never acts), one of the six market
    conditions, the method weighted_average, and two non-empty maps
    over the same member names. *)
Theorem advanced_record_bounds (cfg : Config) (get_live_market_data : exc pyval)
    (train_models : AdvancedPredictor.state -> exc AdvancedPredictor.state)
    (self : AdvancedPredictor.state) (now : datetime) (market_data : pyval) :
  let result :=
    AdvancedPredictor.predict_optimal_fee cfg get_live_market_data train_models
      self now market_data in
  result = AdvancedPredictor._fallback_prediction cfg now
  \/ exists fee confidence condition predictions confidences,
       dict_lookup result "recommended_fee" = Some (PNum fee)
       /\ 0.05 <= fee <= 3.0
       /\ dict_lookup result "confidence" = Some (PNum confidence)
       /\ 0.5 <= confidence <= 0.95
       /\ dict_lookup result "market_condition" = Some (PStr condition)
       /\ In condition AdvancedPredictor.market_conditions
       /\ dict_lookup result "ensemble_method" = Some (PStr "weighted_average")
       /\ dict_lookup result "model_predictions" = Some (PDict predictions)
       /\ dict_lookup result "model_confidences" = Some (PDict confidences)
       /\ predictions <> []
       /\ dict_keys confidences = dict_keys predictions.
Proof.
  cbv zeta. unfold AdvancedPredictor.predict_optimal_fee, try_except.
  destruct (AdvancedPredictor.predict_body cfg get_live_market_data train_models
              self now market_data) as [r | e] eqn:B; [| now left].
  apply advanced_body_full in B
    as [-> | (md & self' & fv & predictions & confidences & reasoning
              & _ & _ & _ & C & Hne & _ & ->)];
    [now left | right].
  destruct (advanced_collected _ _ _ _ _ C Hne) as (K & R & V & _).
  eexists. eexists. eexists. eexists. eexists.
  split; [reflexivity |]. split.
  { apply py_round_advanced_fee. apply clamp_range. lra. }
  split; [reflexivity |]. split.
  { apply py_round_advanced_confidence.
    pose proof (np_mean_bounds 0.5 0.95 _ V R) as [L U].
    unfold py_min.
    destruct (Qltb_spec 0.95 (np_mean (dict_values confidences))); split; lra. }
  split; [reflexivity |]. split.
  { unfold AdvancedPredictor._classify_market_condition. cbv zeta.
    repeat match goal with |- context [if ?b then _ else _] => destruct b end;
      cbn; tauto. }
  split; [reflexivity |]. split; [reflexivity |]. split; [reflexivity |]. split.
  { destruct predictions; [contradiction | discriminate]. }
  now rewrite !rounded_keys.
Qed.

(** X23. For a trained advanced predictor, a snapshot with features, at
    least one answering member and a non-zero base fee, the total
    weight is positive, so the unweighted-mean branch is never taken:
    the recommended fee is the confidence-weighted mean of the member
    predictions, clamped to [0.05, 3.0] and rounded to four places, and
    the confidence is the mean member confidence rounded to three. *)
Theorem advanced_fee_is_weighted_mean (cfg : Config) (get_live_market_data : exc pyval)
    (train_models : AdvancedPredictor.state -> exc AdvancedPredictor.state)
    (self : AdvancedPredictor.state) (now : datetime) (market_data : pyval)
    (fv : FeatureVector) (predictions confidences : list (string * Q)) :
  market_data <> PNone ->
  AdvancedPredictor.is_trained self = true ->
  AdvancedPredictor._extract_advanced_features now market_data = Some fv ->
  AdvancedPredictor.collect_predictions (AdvancedPredictor.scalers self)
    (AdvancedPredictor.models self) fv [] [] = (predictions, confidences) ->
  predictions <> [] ->
  ~ BASE_FEE_RATE cfg == 0 ->
  let result :=
    AdvancedPredictor.predict_optimal_fee cfg get_live_market_data train_models
      self now market_data in
  0 < py_sum (dict_values confidences)
  /\ dict_lookup result "recommended_fee"
     = Some (PNum (py_round
                     (py_max 0.05
                        (py_min (Production.confidence_weighted_mean predictions
                                   confidences) 3.0)) 4))
  /\ dict_lookup result "confidence"
     = Some (PNum (py_round (np_mean (dict_values confidences)) 3)).
Proof.
  intros Hmd T X C Hne Hbase. cbv zeta.
  destruct (advanced_collected _ _ _ _ _ C Hne) as (K & R & V & W).
  split; [exact W |].
  destruct (range_of_predictions predictions Hne) as (hi & lo & Hhi & Hlo & _).
  destruct (advanced_reasoning_shape cfg fv predictions
              (py_max 0.05
                 (py_min (Production.confidence_weighted_mean predictions confidences) 3.0))
              hi lo Hbase Hhi Hlo) as [tail E].
  assert (M : py_min (np_mean (dict_values confidences)) 0.95
              = np_mean (dict_values confidences)).
  { pose proof (np_mean_bounds 0.5 0.95 _ V R) as [L U].
    unfold py_min.
    destruct (Qltb_spec 0.95 (np_mean (dict_values confidences))); [lra | reflexivity]. }
  unfold AdvancedPredictor.predict_optimal_fee, AdvancedPredictor.predict_body.
  assert (Em : match market_data with
               | PNone => get_live_market_data
               | _ => Ok market_data
               end = Ok market_data)
    by (destruct market_data; try contradiction; reflexivity).
  rewrite Em. cbn [bind]. rewrite X, T. cbn [bind]. rewrite C.
  destruct predictions as [| p predictions]; [contradiction |].
  destruct (Qltb_spec 0 (py_sum (dict_values confidences))) as [_ | N];
    [| contradiction].
  rewrite weighted_terms_Ok by (intros k Hk; now rewrite K).
  cbn [bind].
  change (py_sum
            (map (fun kv => snd kv *
                    match dict_lookup confidences (fst kv) with
                    | Some c => c
                    | None => 0
                    end) (p :: predictions))
          / py_sum (dict_values confidences))
    with (Production.confidence_weighted_mean (p :: predictions) confidences).
  rewrite E. cbn [bind try_except]. rewrite M. split; reflexivity.
Qed.

Lemma advanced_fee_is_weighted_mean_witness :
  dict_lookup
    (AdvancedPredictor.predict_optimal_fee default_config Samples.offline
       AdvancedSamples.retrain AdvancedSamples.trained Samples.noon Samples.no_network)
    "recommended_fee"
  = Some (PNum (py_round
                  (py_max 0.05
                     (py_min (Production.confidence_weighted_mean
                                [("random_forest", 0.2); ("xgboost", 0.4)]
                                [("random_forest", 0.85); ("xgboost", 0.88)]) 3.0)) 4)).
Proof.
  refine (proj1 (proj2 (advanced_fee_is_weighted_mean default_config Samples.offline
                          AdvancedSamples.retrain AdvancedSamples.trained Samples.noon
                          Samples.no_network _ _ _ _ eq_refl eq_refl eq_refl _ _)));
    [discriminate | discriminate | vm_compute; discriminate].
Defined.

(** ** The fee endpoint *)

(** Every record of the production predictor can be indexed at the four
    fields the endpoint reads, carries no current_volatility, and is
    stamped by the predictor. *)
Lemma prediction_record_fields (cfg : Config) (np_sqrt : Q -> Q)
    (get_live_market_data : exc pyval)
    (train_models : Predictor.state -> exc Predictor.state)
    (self : Predictor.state) (now : datetime) (market_data : pyval) :
  let result :=
    Predictor.predict_optimal_fee cfg np_sqrt get_live_market_data train_models
      self now market_data in
  exists fee conf text condition,
    dict_lookup result "recommended_fee" = Some (PNum fee)
    /\ dict_lookup result "confidence" = Some (PNum conf)
    /\ dict_lookup result "reasoning" = Some (PStr text)
    /\ dict_lookup result "market_condition" = Some (PStr condition)
    /\ dict_lookup result "current_volatility" = None
    /\ dict_lookup result "prediction_timestamp" = Some (PStr (isoformat now)).
Proof.
  cbv zeta. unfold Predictor.predict_optimal_fee, try_except.
  destruct (Predictor.predict_body cfg np_sqrt get_live_market_data train_models
              self now market_data) as [r | e] eqn:B.
  - apply predict_body_full in B
      as [-> | (self' & fv & predictions & confidences & b & reasoning & _ & _ & _ & ->)];
      do 4 eexists; repeat split; reflexivity.
  - do 4 eexists; repeat split; reflexivity.
Qed.


